(** * pgp-cp: copy a file to its destination if its PGP signature is trusted

    A shallow embedding of [pgp-cp.py].  The script is one sequential
    pipeline of operating-system calls around a single call into the
    OpenPGP engine, so the embedding is a state-and-exit monad over a
    world made of a file system, the logger and the list of calls that
    left the process.  The engine itself, the password database and the
    interpreter's module table are parameters of the run ([Env]). *)

From Stdlib Require Import ZArith String Ascii List.
From Stdlib.Strings Require Import Byte.
From stdpp Require Import base option gmap strings list.

Open Scope string_scope.
Open Scope list_scope.
Open Scope Z_scope.

(** ** Path names ([os.path] on POSIX) *)

Module Path.

(** [p.split('/')]: the components between the slashes; never empty. *)
Fixpoint split (p : string) : list string :=
  match p with
  | EmptyString => [EmptyString]
  | String c r =>
      if Ascii.eqb c "/" then EmptyString :: split r
      else match split r with
           | [] => [String c EmptyString]
           | h :: t => String c h :: t
           end
  end.

(** [os.path.basename(p)] is [p[p.rfind('/')+1:]], the last component. *)
Definition basename (p : string) : string := List.last (split p) EmptyString.

Definition startswith_slash (p : string) : bool :=
  match p with
  | String c _ => Ascii.eqb c "/"
  | EmptyString => false
  end.

Fixpoint endswith_slash (p : string) : bool :=
  match p with
  | EmptyString => false
  | String c EmptyString => Ascii.eqb c "/"
  | String _ r => endswith_slash r
  end.

(** [os.path.join(a, b)] *)
Definition join (a b : string) : string :=
  if startswith_slash b then b
  else if String.eqb a "" || endswith_slash a then a +:+ b
  else a +:+ "/" +:+ b.

(** [s.rstrip('/')] *)
Fixpoint rstrip_slash (s : string) : string :=
  match s with
  | EmptyString => EmptyString
  | String c r =>
      match rstrip_slash r with
      | EmptyString =>
          if Ascii.eqb c "/" then EmptyString else String c EmptyString
      | r' => String c r'
      end
  end.

(** [(p[:i], p[i:])] for [i] the index of the first slash of [p], or its
    length when there is none. *)
Fixpoint break_slash (p : string) : string * string :=
  match p with
  | EmptyString => (EmptyString, EmptyString)
  | String c r =>
      if Ascii.eqb c "/" then (EmptyString, p)
      else let '(u, rest) := break_slash r in (String c u, rest)
  end.

(** [os.path.expanduser(p)]: [home] is the caller's home directory
    ([$HOME], else the password database entry of the user id) and
    [pw_dir] the password database lookup by name. *)
Definition expanduser (home : string) (pw_dir : string -> option string)
    (p : string) : string :=
  match p with
  | String "~" r =>
      let '(user, rest) := break_slash r in
      let userhome :=
        if String.eqb user "" then Some home else pw_dir user in
      match userhome with
      | None => p
      | Some h =>
          let q := rstrip_slash h +:+ rest in
          if String.eqb q "" then "/" else q
      end
  | _ => p
  end.

(** A name that denotes an entry of its directory: not empty, no slash,
    neither [.] nor [..]. *)
Definition plain (b : string) : Prop :=
  split b = [b] /\ b <> "" /\ b <> "." /\ b <> "..".

End Path.

(** ** Errors raised by the modelled library calls *)

Inductive Exn :=
  | OSError (errno : string) (path : string)
  | ShutilError (reason : string) (path : string)
  | AttributeError (object attribute : string)
  | UnboundLocalError (name : string)
  | TypeError (operand : string)
  | SocketError (address : string)
  | EngineError (reason : string).

Inductive result (A : Type) :=
  | Ok (a : A)
  | Raised (e : Exn).
Arguments Ok {A} a.
Arguments Raised {A} e.

(** ** The file system

    A flat map from resolved locations (the list of names below the root)
    to nodes.  There are no links, owners or modes: a call fails only for
    the structural reasons below, where the real call can fail for more
    (permissions, a device that is full or read-only).  A path is resolved
    the way the kernel does it, one component at a time, each step needing
    a directory to step from. *)

Module FS.

Inductive node :=
  | File (data : list byte)
  | Dir.

Abbreviation key := (list string).
Abbreviation t := (gmap (list string) node).

Definition node_at (fs : t) (k : key) : option node :=
  match k with
  | [] => Some Dir
  | _ => fs !! k
  end.

Definition is_dir (fs : t) (k : key) : bool :=
  match node_at fs k with
  | Some Dir => true
  | _ => false
  end.

Definition present (fs : t) (k : key) : bool :=
  match node_at fs k with
  | Some _ => true
  | None => false
  end.

(** An empty component (a doubled slash) is skipped, except that a path
    ending in a slash names a directory; [.] stays, [..] goes up (the
    parent of the root is the root), a name goes down. *)
Fixpoint walk (fs : t) (cur : key) (cs : list string) : option key :=
  match cs with
  | [] => Some cur
  | c :: cs' =>
      if String.eqb c "" then
        match cs' with
        | [] => if is_dir fs cur then Some cur else None
        | _ => walk fs cur cs'
        end
      else if negb (is_dir fs cur) then None
      else if String.eqb c "." then walk fs cur cs'
      else if String.eqb c ".." then
        if is_dir fs (removelast cur) then walk fs (removelast cur) cs'
        else None
      else walk fs (cur ++ [c]) cs'
  end.

(** Whether [walk] is stopped by a regular file rather than by a missing
    entry. *)
Fixpoint blocked (fs : t) (cur : key) (cs : list string) : bool :=
  match cs with
  | [] => false
  | c :: cs' =>
      if String.eqb c "" then
        match cs' with
        | [] => negb (is_dir fs cur) && present fs cur
        | _ => blocked fs cur cs'
        end
      else if negb (is_dir fs cur) then present fs cur
      else if String.eqb c "." then blocked fs cur cs'
      else if String.eqb c ".." then
        if is_dir fs (removelast cur) then blocked fs (removelast cur) cs'
        else present fs (removelast cur)
      else blocked fs (cur ++ [c]) cs'
  end.

(** Two file systems with the same directories: paths resolve alike in
    both. *)
Definition same_dirs (fs fs' : t) : Prop :=
  forall k, is_dir fs k = is_dir fs' k.

Section Calls.

(** The working directory of the process. *)
Variable cwd : key.

Definition resolve (fs : t) (p : string) : option key :=
  if String.eqb p "" then None
  else walk fs (if Path.startswith_slash p then [] else cwd) (Path.split p).

(** The error number of a path that does not resolve: [ENOTDIR] when the
    walk is stopped by a regular file, [ENOENT] when by a missing entry or
    an empty path. *)
Definition errno (fs : t) (p : string) : string :=
  if String.eqb p "" then "ENOENT"
  else if blocked fs (if Path.startswith_slash p then [] else cwd)
            (Path.split p)
  then "ENOTDIR" else "ENOENT".

(** [os.path.exists(p)] *)
Definition exists_ (fs : t) (p : string) : bool :=
  match resolve fs p with
  | Some k => present fs k
  | None => false
  end.

(** [os.path.isdir(p)] *)
Definition isdir (fs : t) (p : string) : bool :=
  match resolve fs p with
  | Some k => is_dir fs k
  | None => false
  end.

(** [os.path.samefile(a, b)], false when either cannot be examined
    (as in [shutil._samefile]). *)
Definition samefile (fs : t) (a b : string) : bool :=
  match resolve fs a, resolve fs b with
  | Some ka, Some kb =>
      present fs ka && present fs kb && bool_decide (ka = kb)
  | _, _ => false
  end.

(** [open(p).read()] *)
Definition read (fs : t) (p : string) : result (list byte) :=
  match resolve fs p with
  | Some k =>
      match node_at fs k with
      | Some (File d) => Ok d
      | Some Dir => Raised (OSError "EISDIR" p)
      | None => Raised (OSError "ENOENT" p)
      end
  | None => Raised (OSError (errno fs p) p)
  end.

(** [open(p, 'wb').write(d)]: creates the file or replaces its
    contents. *)
Definition write (fs : t) (p : string) (d : list byte) : result t :=
  match resolve fs p with
  | Some k =>
      match node_at fs k with
      | Some Dir => Raised (OSError "EISDIR" p)
      | _ => Ok (<[k := File d]> fs)
      end
  | None => Raised (OSError (errno fs p) p)
  end.

(** [shutil.copyfile(src, dst)] *)
Definition copyfile (fs : t) (src dst : string) : result t :=
  if samefile fs src dst then Raised (ShutilError "same file" src)
  else
    match read fs src with
    | Raised e => Raised e
    | Ok d => write fs dst d
    end.

(** [shutil.copy(src, dst)]: into [dst] when it is a directory. *)
Definition copy (fs : t) (src dst : string) : result t :=
  let dst :=
    if isdir fs dst then Path.join dst (Path.basename src) else dst in
  copyfile fs src dst.

(** [os.rename(src, dst)] for a regular file [src]: [main] renames only
    the path it has just opened and read.  Renaming a directory is not
    modelled and raises here.  The error names the path that is at
    fault: the source when it cannot be read, else the destination. *)
Definition rename (fs : t) (src dst : string) : result t :=
  match resolve fs src with
  | Some ks =>
      match node_at fs ks with
      | Some (File d) =>
          match resolve fs dst with
          | Some kd =>
              match node_at fs kd with
              | Some Dir => Raised (OSError "EISDIR" dst)
              | _ => Ok (<[kd := File d]> (delete ks fs))
              end
          | None => Raised (OSError (errno fs dst) dst)
          end
      | Some Dir => Raised (OSError "EISDIR" src)
      | None => Raised (OSError "ENOENT" src)
      end
  | None => Raised (OSError (errno fs src) src)
  end.

(** [shutil.move(src, dst)]: into [dst] when it is a directory, unless
    the name is taken there.  Where the rename fails, so does the
    fallback of copying and unlinking, for the same reason and with the
    error of the copy, which names the path it could not open. *)
Definition move (fs : t) (src dst : string) : result t :=
  if isdir fs dst then
    if samefile fs src dst then Ok fs
    else
      let real_dst :=
        Path.join dst (Path.basename (Path.rstrip_slash src)) in
      if exists_ fs real_dst then
        Raised (ShutilError "destination exists" real_dst)
      else rename fs src real_dst
  else rename fs src dst.

(** [os.remove(p)] *)
Definition remove (fs : t) (p : string) : result t :=
  match resolve fs p with
  | Some k =>
      match node_at fs k with
      | Some (File _) => Ok (delete k fs)
      | Some Dir => Raised (OSError "EISDIR" p)
      | None => Raised (OSError "ENOENT" p)
      end
  | None => Raised (OSError (errno fs p) p)
  end.

(** [os.mkdir(p)]; trailing slashes are allowed, and a path of slashes
    only is the root, which is there. *)
Definition mkdir (fs : t) (p : string) : result t :=
  match resolve fs (Path.rstrip_slash p) with
  | Some k =>
      if present fs k then Raised (OSError "EEXIST" p)
      else Ok (<[k := Dir]> fs)
  | None =>
      if String.eqb (Path.rstrip_slash p) "" && negb (String.eqb p "")
      then Raised (OSError "EEXIST" p)
      else Raised (OSError (errno fs (Path.rstrip_slash p)) p)
  end.

End Calls.

End FS.

(** ** Logging ([logging], the script's own [CustomNullHandler] and the
    handler the [gnupg] package installs) *)

Module Logging.

Definition DEBUG : Z := 10.
Definition INFO : Z := 20.
Definition ERROR : Z := 40.

Inductive HandlerClass :=
  | StreamHandler
  | SysLogHandler (address : string)
  | CustomNullHandler
  | NullHandler.

Record Handler := {
  h_class : HandlerClass;
  h_formatter : option string
}.

Definition setFormatter (h : Handler) (fmt : string) : Handler :=
  {| h_class := h_class h; h_formatter := Some fmt |}.

Record Logger := {
  level : Z;
  handlers : list Handler
}.

(** A logger as [logging.getLogger] first returns it. *)
Definition fresh : Logger := {| level := 0; handlers := [] |}.

Definition setLevel (lg : Logger) (l : Z) : Logger :=
  {| level := l; handlers := handlers lg |}.

Definition addHandler (lg : Logger) (h : Handler) : Logger :=
  {| level := level lg; handlers := handlers lg ++ [h] |}.

(** [CustomNullHandler.emit] is [pass], as is that of the library's
    [NullHandler]; the other two library handlers write the record
    out. *)
Definition writes (h : Handler) : bool :=
  match h_class h with
  | CustomNullHandler | NullHandler => false
  | _ => true
  end.

(** The logger [gnupg] as [import gnupg] leaves it: the package gives it
    a [NullHandler] of its own and no level. *)
Definition gnupg_imported : Logger :=
  {| level := 0;
     handlers := [{| h_class := NullHandler; h_formatter := None |}] |}.

End Logging.

(** ** Command line *)

(** One argument of the command line, as [argparse] recognises it against
    the options [parse_args] declares.  The value of [-t] is what [int]
    makes of its text, [None] when [int] rejects it. *)
Inductive Arg :=
  | ArgInput (v : string)
  | ArgSig (v : string)
  | ArgOutput (v : string)
  | ArgTrustLevel (v : option Z)
  | ArgQuar (v : string)
  | ArgGpgHome (v : string)
  | ArgLogDest (v : string)
  | ArgVerbose
  | ArgVersion
  | ArgHelp
  | ArgUnrecognized (v : string)
  | ArgMalformed.

Module Args.

Record Namespace := {
  input_path : string;
  sig_path : string;
  output_path : string;
  required_trust_level : Z;
  quar_dir : string;
  gpg_home : string;
  log_dest : string;
  log_verbose : bool
}.

End Args.

(** ** What the engine returns ([gnupg]'s verification object)

    The attribute [trust_level] is [None] until the engine reports a
    trust line for the signature, and an integer afterwards. *)

Record Verify := {
  valid : bool;
  trust_level : option Z;
  creation_date : string;
  username : string;
  key_id : string
}.

(** ** The surroundings of a run *)

Record Env := {
  (** [os.getuid()] *)
  e_uid : Z;
  (** the home directory [os.path.expanduser] gives to [~] *)
  e_home : string;
  (** [pwd.getpwnam(user).pw_dir] *)
  e_pw_dir : string -> option string;
  (** working directory of the process *)
  e_cwd : FS.key;
  (** whether the submodule [logging.handlers] has been loaded into the
      interpreter by one of the imported modules (the script itself imports
      only the package [logging]) *)
  e_logging_handlers : bool;
  (** the error of connecting to the system log socket, if any *)
  e_syslog_error : option Exn;
  (** the error of [gnupg.GPG(homedir=...)], if any *)
  e_gpg_error : string -> option Exn;
  (** [gpg.verify_file(file, sig_file=...)], from the contents of the open
      file, the signature path and the contents found there *)
  e_verify_file : list byte -> string -> option (list byte) -> result Verify
}.

(** ** Messages, records and calls *)

Inductive Message :=
  | MsgStarted (uid : Z) (args : Args.Namespace)
  | MsgCreatingGnuPG (home : string)
  | MsgGnuPGFailed (error_msg : Exn)
  | MsgSettingUpQuarantine (quar : string)
  | MsgCreatingQuarantine (quar : string)
  | MsgCopying (input sig quar : string)
  | MsgBuildingPaths
  | MsgQuarantineFailed (input quar : string) (error_msg : Exn)
  | MsgLoading (input : string)
  | MsgOpenFailed (error_msg : Exn)
  | MsgVerifying
  | MsgNotValid (input : string)
  | MsgSignedAt (creation_date username key_id : string)
  | MsgTrustNotMet (trust_level : Z)
  | MsgTrustLevel (trust_level : Z)
  | MsgMoving (input output : string)
  | MsgCreateFailed (output : string) (error_msg : Exn)
  | MsgSuccess (input output : string).

Record LogRecord := {
  r_level : Z;
  r_msg : Message
}.

(** The calls that leave the process, in the order they are made. *)
Inductive Call :=
  | CallGPG (homedir : string) (r : result unit)
  | CallExists (p : string)
  | CallMkdir (p : string)
  | CallCopy (src dst : string)
  | CallOpen (p : string)
  | CallVerifyFile (file sig_file : string)
      (data : list byte) (sig_data : option (list byte)) (r : result Verify)
  | CallMove (src dst : string)
  | CallRemove (p : string).

Record World := {
  w_fs : FS.t;
  w_logger : Logging.Logger;
  w_gnupg_logger : Logging.Logger;
  w_emitted : list (Logging.Handler * LogRecord);
  w_calls : list Call
}.

(** The world when [main] is called: the imports have run and the
    script has asked for its logger. *)
Definition boot (fs : FS.t) : World :=
  {| w_fs := fs;
     w_logger := Logging.fresh;
     w_gnupg_logger := Logging.gnupg_imported;
     w_emitted := [];
     w_calls := [] |}.

(** ** The monad of the script: state, [exit] and exceptions *)

Inductive Outcome (A : Type) :=
  | Return (a : A)
  | Exit (status : Z)
  | Uncaught (e : Exn).
Arguments Return {A} a.
Arguments Exit {A} status.
Arguments Uncaught {A} e.

Definition M (A : Type) : Type := World -> Outcome A * World.

#[global] Instance M_ret : MRet M := fun A a w => (Return a, w).

#[global] Instance M_bind : MBind M := fun A B k m w =>
  match m w with
  | (Return a, w') => k a w'
  | (Exit n, w') => (Exit n, w')
  | (Uncaught e, w') => (Uncaught e, w')
  end.

(** [sys.exit(n)] *)
Definition exit {A : Type} (n : Z) : M A := fun w => (Exit n, w).

Definition raise {A : Type} (e : Exn) : M A := fun w => (Uncaught e, w).

(** [try: body / except Exception as error_msg: handler]; [SystemExit]
    is not an [Exception] and passes through. *)
Definition try_except {A : Type} (body : M A) (handler : Exn -> M A) : M A :=
  fun w =>
    match body w with
    | (Uncaught e, w') => handler e w'
    | r => r
    end.

Notation "'TRY' body 'EXCEPT' e => handler" :=
  (try_except body (fun e => handler))
  (at level 10, body at level 200, e name, handler at level 200,
   only parsing).

Definition called (c : Call) : M unit := fun w =>
  (Return (),
   {| w_fs := w_fs w; w_logger := w_logger w;
      w_gnupg_logger := w_gnupg_logger w; w_emitted := w_emitted w;
      w_calls := w_calls w ++ [c] |}).

(** A call that reads the file system. *)
Definition fs_get {A : Type} (f : FS.t -> A) : M A := fun w =>
  (Return (f (w_fs w)), w).

(** A call that reads the file system and may raise. *)
Definition fs_try {A : Type} (f : FS.t -> result A) : M A := fun w =>
  match f (w_fs w) with
  | Ok a => (Return a, w)
  | Raised e => (Uncaught e, w)
  end.

(** A call that changes the file system, or raises and leaves it. *)
Definition fs_do (f : FS.t -> result FS.t) : M unit := fun w =>
  match f (w_fs w) with
  | Ok fs' =>
      (Return (),
       {| w_fs := fs'; w_logger := w_logger w;
          w_gnupg_logger := w_gnupg_logger w; w_emitted := w_emitted w;
          w_calls := w_calls w |})
  | Raised e => (Uncaught e, w)
  end.

(** ** The script's logger *)

(** What a logger hands to its handlers for one call: nothing below its
    level, else the record to each handler. *)
Definition deliver (lg : Logging.Logger) (lvl : Z) (msg : Message)
    : list (Logging.Handler * LogRecord) :=
  if lvl <? Logging.level lg then []
  else
    List.map (fun h => (h, {| r_level := lvl; r_msg := msg |}))
      (Logging.handlers lg).

Definition emit (lvl : Z) (msg : Message) : M unit := fun w =>
  (Return (),
   {| w_fs := w_fs w; w_logger := w_logger w;
      w_gnupg_logger := w_gnupg_logger w;
      w_emitted := w_emitted w ++ deliver (w_logger w) lvl msg;
      w_calls := w_calls w |}).

Definition logger_debug : Message -> M unit := emit Logging.DEBUG.
Definition logger_info : Message -> M unit := emit Logging.INFO.
Definition logger_error : Message -> M unit := emit Logging.ERROR.

Definition logger_update (f : Logging.Logger -> Logging.Logger) : M unit :=
  fun w =>
    (Return (),
     {| w_fs := w_fs w; w_logger := f (w_logger w);
        w_gnupg_logger := w_gnupg_logger w; w_emitted := w_emitted w;
        w_calls := w_calls w |}).

Definition gnupg_logger_update (f : Logging.Logger -> Logging.Logger)
    : M unit :=
  fun w =>
    (Return (),
     {| w_fs := w_fs w; w_logger := w_logger w;
        w_gnupg_logger := f (w_gnupg_logger w); w_emitted := w_emitted w;
        w_calls := w_calls w |}).

(** ** [parse_args] *)

(** The namespace while the command line is read: the three required
    paths are unset, the rest hold their declared defaults. *)
Record Parsing := {
  p_input : option string;
  p_sig : option string;
  p_output : option string;
  p_trust : Z;
  p_quar : string;
  p_gpg_home : string;
  p_log_dest : string;
  p_verbose : bool;
  p_extras : list string
}.

Definition defaults : Parsing :=
  {| p_input := None; p_sig := None; p_output := None;
     p_trust := 3; p_quar := "~/pgp-cp_quar"; p_gpg_home := "~/.gnupg";
     p_log_dest := "stream"; p_verbose := false; p_extras := [] |}.

Definition trust_choices : list Z := [2; 3; 4].
Definition log_dest_choices : list string := ["stream"; "syslog"; "none"].

(** Exit status of [ArgumentParser.error]. *)
Definition usage_error : Z := 2.

(** One option at a time, in command-line order: a value outside the
    declared [choices] or refused by [type] ends the program with the
    usage error, [-V] and [-h] print and end it with status 0. *)
Fixpoint consume (ns : Parsing) (argv : list Arg) : Z + Parsing :=
  match argv with
  | [] => inr ns
  | a :: rest =>
      match a with
      | ArgInput v =>
          consume {| p_input := Some v; p_sig := p_sig ns;
                     p_output := p_output ns; p_trust := p_trust ns;
                     p_quar := p_quar ns; p_gpg_home := p_gpg_home ns;
                     p_log_dest := p_log_dest ns; p_verbose := p_verbose ns;
                     p_extras := p_extras ns |} rest
      | ArgSig v =>
          consume {| p_input := p_input ns; p_sig := Some v;
                     p_output := p_output ns; p_trust := p_trust ns;
                     p_quar := p_quar ns; p_gpg_home := p_gpg_home ns;
                     p_log_dest := p_log_dest ns; p_verbose := p_verbose ns;
                     p_extras := p_extras ns |} rest
      | ArgOutput v =>
          consume {| p_input := p_input ns; p_sig := p_sig ns;
                     p_output := Some v; p_trust := p_trust ns;
                     p_quar := p_quar ns; p_gpg_home := p_gpg_home ns;
                     p_log_dest := p_log_dest ns; p_verbose := p_verbose ns;
                     p_extras := p_extras ns |} rest
      | ArgTrustLevel (Some n) =>
          if bool_decide (n ∈ trust_choices) then
            consume {| p_input := p_input ns; p_sig := p_sig ns;
                       p_output := p_output ns; p_trust := n;
                       p_quar := p_quar ns; p_gpg_home := p_gpg_home ns;
                       p_log_dest := p_log_dest ns; p_verbose := p_verbose ns;
                       p_extras := p_extras ns |} rest
          else inl usage_error
      | ArgTrustLevel None => inl usage_error
      | ArgQuar v =>
          consume {| p_input := p_input ns; p_sig := p_sig ns;
                     p_output := p_output ns; p_trust := p_trust ns;
                     p_quar := v; p_gpg_home := p_gpg_home ns;
                     p_log_dest := p_log_dest ns; p_verbose := p_verbose ns;
                     p_extras := p_extras ns |} rest
      | ArgGpgHome v =>
          consume {| p_input := p_input ns; p_sig := p_sig ns;
                     p_output := p_output ns; p_trust := p_trust ns;
                     p_quar := p_quar ns; p_gpg_home := v;
                     p_log_dest := p_log_dest ns; p_verbose := p_verbose ns;
                     p_extras := p_extras ns |} rest
      | ArgLogDest v =>
          if bool_decide (v ∈ log_dest_choices) then
            consume {| p_input := p_input ns; p_sig := p_sig ns;
                       p_output := p_output ns; p_trust := p_trust ns;
                       p_quar := p_quar ns; p_gpg_home := p_gpg_home ns;
                       p_log_dest := v; p_verbose := p_verbose ns;
                       p_extras := p_extras ns |} rest
          else inl usage_error
      | ArgVerbose =>
          consume {| p_input := p_input ns; p_sig := p_sig ns;
                     p_output := p_output ns; p_trust := p_trust ns;
                     p_quar := p_quar ns; p_gpg_home := p_gpg_home ns;
                     p_log_dest := p_log_dest ns; p_verbose := true;
                     p_extras := p_extras ns |} rest
      | ArgVersion => inl 0
      | ArgHelp => inl 0
      | ArgUnrecognized v =>
          consume {| p_input := p_input ns; p_sig := p_sig ns;
                     p_output := p_output ns; p_trust := p_trust ns;
                     p_quar := p_quar ns; p_gpg_home := p_gpg_home ns;
                     p_log_dest := p_log_dest ns; p_verbose := p_verbose ns;
                     p_extras := p_extras ns ++ [v] |} rest
      | ArgMalformed => inl usage_error
      end
  end.

(** At the end of the command line the required options must have been
    given and nothing may be left over. *)
Definition parse_args (argv : list Arg) : M Args.Namespace :=
  match consume defaults argv with
  | inl status => exit status
  | inr ns =>
      match p_input ns, p_sig ns, p_output ns, p_extras ns with
      | Some i, Some s, Some o, [] =>
          mret {| Args.input_path := i; Args.sig_path := s;
                  Args.output_path := o;
                  Args.required_trust_level := p_trust ns;
                  Args.quar_dir := p_quar ns;
                  Args.gpg_home := p_gpg_home ns;
                  Args.log_dest := p_log_dest ns;
                  Args.log_verbose := p_verbose ns |}
      | _, _, _, _ => exit usage_error
      end
  end.

(** ** [log_init] *)

(** [logging.handlers.SysLogHandler(address=...)]: the attribute
    [handlers] of the package is there only once the submodule has been
    loaded, and the constructor connects to the socket. *)
Definition logging_handlers_SysLogHandler (env : Env) (address : string)
    : M Logging.Handler :=
  if e_logging_handlers env then
    match e_syslog_error env with
    | Some e => raise e
    | None =>
        mret {| Logging.h_class := Logging.SysLogHandler address;
                Logging.h_formatter := None |}
    end
  else raise (AttributeError "logging" "handlers").

Definition log_init (env : Env) (destination : string) (verbose : bool)
    : M unit :=
  let formatter := "pgp-cp: %(levelname)s - %(message)s" in
  (if verbose then
     logger_update (fun lg => Logging.setLevel lg Logging.DEBUG);;
     gnupg_logger_update (fun lg => Logging.setLevel lg Logging.DEBUG)
   else
     logger_update (fun lg => Logging.setLevel lg Logging.INFO));;
  log_handler ←
    (if String.eqb destination "stream" then
       mret {| Logging.h_class := Logging.StreamHandler;
               Logging.h_formatter := None |}
     else if String.eqb destination "syslog" then
       logging_handlers_SysLogHandler env "/dev/log"
     else if String.eqb destination "none" then
       mret {| Logging.h_class := Logging.CustomNullHandler;
               Logging.h_formatter := None |}
     else raise (UnboundLocalError "log_handler"));
  let log_handler := Logging.setFormatter log_handler formatter in
  logger_update (fun lg => Logging.addHandler lg log_handler);;
  (if verbose then
     gnupg_logger_update (fun lg => Logging.addHandler lg log_handler)
   else mret ()).

(** ** Library calls as the script makes them *)

Section Calls.

Variable env : Env.

Definition os_path_expanduser (p : string) : string :=
  Path.expanduser (e_home env) (e_pw_dir env) p.

Definition os_path_exists (p : string) : M bool :=
  called (CallExists p);;
  fs_get (fun fs => FS.exists_ (e_cwd env) fs p).

Definition os_mkdir (p : string) : M unit :=
  called (CallMkdir p);;
  fs_do (fun fs => FS.mkdir (e_cwd env) fs p).

Definition shutil_copy (src dst : string) : M unit :=
  called (CallCopy src dst);;
  fs_do (fun fs => FS.copy (e_cwd env) fs src dst).

Definition shutil_move (src dst : string) : M unit :=
  called (CallMove src dst);;
  fs_do (fun fs => FS.move (e_cwd env) fs src dst).

Definition os_remove (p : string) : M unit :=
  called (CallRemove p);;
  fs_do (fun fs => FS.remove (e_cwd env) fs p).

(** [open(p)]: the open file, here what the engine will read from it. *)
Definition open (p : string) : M (list byte) :=
  called (CallOpen p);;
  fs_try (fun fs => FS.read (e_cwd env) fs p).

(** [gnupg.GPG(homedir=...)] *)
Definition gnupg_GPG (homedir : string) : M unit :=
  match e_gpg_error env homedir with
  | Some e => called (CallGPG homedir (Raised e));; raise e
  | None => called (CallGPG homedir (Ok ()))
  end.

(** [gpg.verify_file(file, sig_file=...)]; the engine reads the
    signature from its path. *)
Definition gpg_verify_file (file : string) (data : list byte)
    (sig_file : string) : M Verify :=
  sig_data ←
    fs_get (fun fs =>
      match FS.read (e_cwd env) fs sig_file with
      | Ok d => Some d
      | Raised _ => None
      end);
  let r := e_verify_file env data sig_file sig_data in
  called (CallVerifyFile file sig_file data sig_data r);;
  match r with
  | Ok input_data => mret input_data
  | Raised e => raise e
  end.

(** ** [main]

    Lines 202 to 210 are outside every [try].  With [trust_level] still
    [None] they raise [TypeError] before anything is logged: Python 3
    refuses to compare [None] with an integer, and Python 2, which puts
    [None] below every integer, refuses to format it with [%i]. *)

Definition main (argv : list Arg) : M unit :=
  args ← parse_args argv;
  log_init env (Args.log_dest args) (Args.log_verbose args);;
  logger_debug (MsgStarted (e_uid env) args);;

  logger_debug (MsgCreatingGnuPG (Args.gpg_home args));;
  gpg ←
    (TRY gnupg_GPG (Args.gpg_home args)
     EXCEPT error_msg =>
       logger_error (MsgGnuPGFailed error_msg);;
       exit 1);

  logger_debug (MsgSettingUpQuarantine (Args.quar_dir args));;
  '(input_path, sig_path) ←
    (TRY
       let quar_dir := os_path_expanduser (Args.quar_dir args) in
       there ← os_path_exists quar_dir;
       (if negb there then
          logger_info (MsgCreatingQuarantine (Args.quar_dir args));;
          os_mkdir quar_dir
        else mret ());;
       logger_info
         (MsgCopying (Args.input_path args) (Args.sig_path args)
            (Args.quar_dir args));;
       shutil_copy (Args.input_path args) quar_dir;;
       shutil_copy (Args.sig_path args) quar_dir;;
       logger_debug MsgBuildingPaths;;
       let input_path :=
         Path.join quar_dir (Path.basename (Args.input_path args)) in
       let sig_path :=
         Path.join quar_dir (Path.basename (Args.sig_path args)) in
       mret (input_path, sig_path)
     EXCEPT error_msg =>
       logger_error
         (MsgQuarantineFailed (Args.input_path args)
            (Args.quar_dir args) error_msg);;
       exit 1);

  logger_info (MsgLoading input_path);;
  input_data ←
    (TRY
       file ← open input_path;
       gpg_verify_file input_path file sig_path
     EXCEPT error_msg =>
       logger_error (MsgOpenFailed error_msg);;
       exit 1);

  logger_info MsgVerifying;;
  (if negb (valid input_data) then
     logger_error (MsgNotValid input_path);;
     exit 1
   else mret ());;
  logger_info
    (MsgSignedAt (creation_date input_data) (username input_data)
       (key_id input_data));;
  (match trust_level input_data with
   | Some level =>
       if level <? Args.required_trust_level args then
         logger_error (MsgTrustNotMet level);;
         exit 2
       else
         logger_debug (MsgTrustLevel level)
   | None => raise (TypeError "NoneType")
   end);;

  logger_info (MsgMoving input_path (Args.output_path args));;
  (TRY
     shutil_move input_path (Args.output_path args);;
     os_remove sig_path
   EXCEPT error_msg =>
     logger_error (MsgCreateFailed (Args.output_path args) error_msg);;
     exit 1);;
  logger_info
    (MsgSuccess (Args.input_path args) (Args.output_path args));;
  exit 0.

End Calls.

(** Exit status of the process: that of [exit], 1 after the traceback of
    an exception nobody caught, 0 when the script runs off its end. *)
Definition status {A : Type} (o : Outcome A) : Z :=
  match o with
  | Return _ => 0
  | Exit n => n
  | Uncaught _ => 1
  end.

(** A run of the program on a file system. *)
Definition run (env : Env) (argv : list Arg) (fs : FS.t) : Z * World :=
  let '(o, w) := main env argv (boot fs) in (status o, w).

(** ** The ways through [main]

    One constructor per place where [main] leaves, by [exit] or by an
    exception nobody catches: the calls whose results decided the way, the
    exit status, and the world left behind. *)

(** The records of a sequence of logging calls, in order. *)
Definition logs (lg : Logging.Logger) (l : list (Z * Message))
    : list (Logging.Handler * LogRecord) :=
  fold_left (fun acc c => acc ++ deliver lg (fst c) (snd c)) l [].

Section Ways.

Variables (env : Env) (argv : list Arg) (fs : FS.t).

Section Given.

Variable args : Args.Namespace.

(** The quarantine directory and the two staged paths. *)
Definition quarantine : string :=
  os_path_expanduser env (Args.quar_dir args).
Definition staged_input : string :=
  Path.join quarantine (Path.basename (Args.input_path args)).
Definition staged_sig : string :=
  Path.join quarantine (Path.basename (Args.sig_path args)).

(** [parse_args] and [log_init] returned, leaving the world [w0]. *)
Definition started (w0 : World) : Prop :=
  parse_args argv (boot fs) = (Return args, boot fs) /\
  log_init env (Args.log_dest args) (Args.log_verbose args) (boot fs)
  = (Return (), w0).

(** The world after some calls: the loggers are those of [w0]. *)
Definition world (w0 : World) (fs' : FS.t) (msgs : list (Z * Message))
    (calls : list Call) : World :=
  {| w_fs := fs'; w_logger := w_logger w0;
     w_gnupg_logger := w_gnupg_logger w0;
     w_emitted := logs (w_logger w0) msgs;
     w_calls := calls |}.

(** The quarantine directory was found ([there]) or made, giving
    [fs1]. *)
Definition prepared (there : bool) (fs1 : FS.t) : Prop :=
  FS.exists_ (e_cwd env) fs quarantine = there /\
  if there then fs1 = fs
  else FS.mkdir (e_cwd env) fs quarantine = Ok fs1.

(** Lines 152 to 164 as a function of the file system: the quarantine
    directory is made unless it is there, then the input and the
    signature are copied into it. *)
Definition staging : result FS.t :=
  let made :=
    if FS.exists_ (e_cwd env) fs quarantine then Ok fs
    else FS.mkdir (e_cwd env) fs quarantine in
  match made with
  | Raised e => Raised e
  | Ok fs1 =>
      match FS.copy (e_cwd env) fs1 (Args.input_path args) quarantine with
      | Raised e => Raised e
      | Ok fs2 => FS.copy (e_cwd env) fs2 (Args.sig_path args) quarantine
      end
  end.

(** Both copies were made, giving [fs3]. *)
Definition staged (w0 : World) (there : bool) (fs3 : FS.t) : Prop :=
  started w0 /\
  e_gpg_error env (Args.gpg_home args) = None /\
  exists fs1 fs2,
    prepared there fs1 /\
    FS.copy (e_cwd env) fs1 (Args.input_path args) quarantine = Ok fs2 /\
    FS.copy (e_cwd env) fs2 (Args.sig_path args) quarantine = Ok fs3.

(** What the engine finds at the signature path. *)
Definition sig_found (fs3 : FS.t) : option (list byte) :=
  match FS.read (e_cwd env) fs3 staged_sig with
  | Ok d => Some d
  | Raised _ => None
  end.

(** The staged input was opened and the engine returned [v]. *)
Definition verified (w0 : World) (there : bool) (fs3 : FS.t)
    (data : list byte) (v : Verify) : Prop :=
  staged w0 there fs3 /\
  FS.read (e_cwd env) fs3 staged_input = Ok data /\
  e_verify_file env data staged_sig (sig_found fs3) = Ok v.

(** The locations of the staged copies when the quarantine directory
    is at [kq]. *)
Definition staged_input_at (kq : FS.key) : FS.key :=
  kq ++ [Path.basename (Args.input_path args)].
Definition staged_sig_at (kq : FS.key) : FS.key :=
  kq ++ [Path.basename (Args.sig_path args)].

(** Where a run that reached the engine has put things: [fs1] is the
    file system once the quarantine directory is there, [kq] the
    location of that directory, [k_in] and [k_sig] the locations of the
    caller's two files and [d_in], [d_sig] their contents; [fs3] is the
    file system the engine sees and [data] what it reads from the
    staged input. *)
Record layout (fs1 fs3 : FS.t) (data : list byte)
    (kq k_in k_sig : FS.key) (d_in d_sig : list byte) : Prop := {
  lay_dirs : FS.same_dirs fs1 fs3;
  lay_quarantine : FS.resolve (e_cwd env) fs1 quarantine = Some kq;
  lay_quarantine_dir : FS.is_dir fs1 kq = true;
  lay_input_name : Path.plain (Path.basename (Args.input_path args));
  lay_sig_name : Path.plain (Path.basename (Args.sig_path args));
  lay_input :
    FS.resolve (e_cwd env) fs1 (Args.input_path args) = Some k_in;
  lay_input_data : fs1 !! k_in = Some (FS.File d_in);
  lay_sig : FS.resolve (e_cwd env) fs1 (Args.sig_path args) = Some k_sig;
  lay_sig_data : fs1 !! k_sig = Some (FS.File d_sig);
  lay_files : k_in <> [] /\ k_sig <> [];
  lay_input_apart :
    k_in <> staged_input_at kq /\ k_in <> staged_sig_at kq;
  lay_sig_apart :
    k_sig <> staged_input_at kq /\ k_sig <> staged_sig_at kq;
  lay_fs3 :
    fs3 = <[staged_sig_at kq := FS.File d_sig]>
            (<[staged_input_at kq := FS.File d_in]> fs1);
  lay_data :
    data = if decide (staged_input_at kq = staged_sig_at kq)
           then d_sig else d_in;
  lay_found : sig_found fs3 = Some d_sig
}.

Definition msgs_gnupg : list (Z * Message) :=
  [(Logging.DEBUG, MsgStarted (e_uid env) args);
   (Logging.DEBUG, MsgCreatingGnuPG (Args.gpg_home args))].

Definition msgs_prepare (there : bool) : list (Z * Message) :=
  msgs_gnupg
  ++ [(Logging.DEBUG, MsgSettingUpQuarantine (Args.quar_dir args))]
  ++ (if there then []
      else [(Logging.INFO, MsgCreatingQuarantine (Args.quar_dir args))]).

Definition msg_quarantine_failed (e : Exn) : Z * Message :=
  (Logging.ERROR,
   MsgQuarantineFailed (Args.input_path args) (Args.quar_dir args) e).

Definition msgs_copy (there : bool) : list (Z * Message) :=
  msgs_prepare there
  ++ [(Logging.INFO,
       MsgCopying (Args.input_path args) (Args.sig_path args)
         (Args.quar_dir args))].

Definition msgs_staged (there : bool) : list (Z * Message) :=
  msgs_copy there
  ++ [(Logging.DEBUG, MsgBuildingPaths);
      (Logging.INFO, MsgLoading staged_input)].

Definition msgs_gate (there : bool) : list (Z * Message) :=
  msgs_staged there ++ [(Logging.INFO, MsgVerifying)].

Definition msgs_signed (there : bool) (v : Verify) : list (Z * Message) :=
  msgs_gate there
  ++ [(Logging.INFO,
       MsgSignedAt (creation_date v) (username v) (key_id v))].

Definition msgs_moving (there : bool) (v : Verify) (level : Z)
    : list (Z * Message) :=
  msgs_signed there v
  ++ [(Logging.DEBUG, MsgTrustLevel level);
      (Logging.INFO, MsgMoving staged_input (Args.output_path args))].

Definition msg_create_failed (e : Exn) : Z * Message :=
  (Logging.ERROR, MsgCreateFailed (Args.output_path args) e).

(** The messages that carry the signer, the time of signing, the key
    or the trust level. *)
Definition audit (m : Message) : Prop :=
  match m with
  | MsgSignedAt _ _ _ | MsgTrustNotMet _ | MsgTrustLevel _ => True
  | _ => False
  end.

(** What the handler [h] gets about the trust level of [v]: the error
    when it is too low, else the debug line, which a logger at level
    [INFO] drops; nothing when [v] has no trust level. *)
Definition trust_records (h : Logging.Handler) (v : Verify)
    : list (Logging.Handler * LogRecord) :=
  match trust_level v with
  | Some level =>
      if level <? Args.required_trust_level args then
        [(h, {| r_level := Logging.ERROR; r_msg := MsgTrustNotMet level |})]
      else if Args.log_verbose args then
        [(h, {| r_level := Logging.DEBUG; r_msg := MsgTrustLevel level |})]
      else []
  | None => []
  end.

Definition calls_prepare (there : bool) : list Call :=
  [CallGPG (Args.gpg_home args) (Ok ()); CallExists quarantine]
  ++ (if there then [] else [CallMkdir quarantine]).

Definition calls_staged (there : bool) : list Call :=
  calls_prepare there
  ++ [CallCopy (Args.input_path args) quarantine;
      CallCopy (Args.sig_path args) quarantine].

Definition calls_verified (there : bool) (fs3 : FS.t) (data : list byte)
    (r : result Verify) : list Call :=
  calls_staged there
  ++ [CallOpen staged_input;
      CallVerifyFile staged_input staged_sig data (sig_found fs3) r].

Definition calls_moved (there : bool) (fs3 : FS.t) (data : list byte)
    (v : Verify) : list Call :=
  calls_verified there fs3 data (Ok v)
  ++ [CallMove staged_input (Args.output_path args)].

End Given.

Inductive way : Z -> World -> Prop :=
  | way_usage status :
      parse_args argv (boot fs) = (Exit status, boot fs) ->
      way status (boot fs)
  | way_log_init args e w :
      parse_args argv (boot fs) = (Return args, boot fs) ->
      log_init env (Args.log_dest args) (Args.log_verbose args) (boot fs)
      = (Uncaught e, w) ->
      w_fs w = fs -> w_calls w = [] -> w_emitted w = [] ->
      way 1 w
  | way_gnupg args w0 e :
      started args w0 ->
      e_gpg_error env (Args.gpg_home args) = Some e ->
      way 1
        (world w0 fs
           (msgs_gnupg args ++ [(Logging.ERROR, MsgGnuPGFailed e)])
           [CallGPG (Args.gpg_home args) (Raised e)])
  | way_mkdir args w0 e :
      started args w0 ->
      e_gpg_error env (Args.gpg_home args) = None ->
      FS.exists_ (e_cwd env) fs (quarantine args) = false ->
      FS.mkdir (e_cwd env) fs (quarantine args) = Raised e ->
      way 1
        (world w0 fs
           (msgs_prepare args false ++ [msg_quarantine_failed args e])
           (calls_prepare args false))
  | way_copy_input args w0 there fs1 e :
      started args w0 ->
      e_gpg_error env (Args.gpg_home args) = None ->
      prepared args there fs1 ->
      FS.copy (e_cwd env) fs1 (Args.input_path args) (quarantine args)
      = Raised e ->
      way 1
        (world w0 fs1
           (msgs_copy args there ++ [msg_quarantine_failed args e])
           (calls_prepare args there
            ++ [CallCopy (Args.input_path args) (quarantine args)]))
  | way_copy_sig args w0 there fs1 fs2 e :
      started args w0 ->
      e_gpg_error env (Args.gpg_home args) = None ->
      prepared args there fs1 ->
      FS.copy (e_cwd env) fs1 (Args.input_path args) (quarantine args)
      = Ok fs2 ->
      FS.copy (e_cwd env) fs2 (Args.sig_path args) (quarantine args)
      = Raised e ->
      way 1
        (world w0 fs2
           (msgs_copy args there ++ [msg_quarantine_failed args e])
           (calls_staged args there))
  | way_open args w0 there fs3 e :
      staged args w0 there fs3 ->
      FS.read (e_cwd env) fs3 (staged_input args) = Raised e ->
      way 1
        (world w0 fs3
           (msgs_staged args there ++ [(Logging.ERROR, MsgOpenFailed e)])
           (calls_staged args there ++ [CallOpen (staged_input args)]))
  | way_verify_raised args w0 there fs3 data e :
      staged args w0 there fs3 ->
      FS.read (e_cwd env) fs3 (staged_input args) = Ok data ->
      e_verify_file env data (staged_sig args) (sig_found args fs3)
      = Raised e ->
      way 1
        (world w0 fs3
           (msgs_staged args there ++ [(Logging.ERROR, MsgOpenFailed e)])
           (calls_verified args there fs3 data (Raised e)))
  | way_invalid args w0 there fs3 data v :
      verified args w0 there fs3 data v ->
      valid v = false ->
      way 1
        (world w0 fs3
           (msgs_gate args there
            ++ [(Logging.ERROR, MsgNotValid (staged_input args))])
           (calls_verified args there fs3 data (Ok v)))
  | way_no_trust_level args w0 there fs3 data v :
      verified args w0 there fs3 data v ->
      valid v = true ->
      trust_level v = None ->
      way 1
        (world w0 fs3
           (msgs_signed args there v)
           (calls_verified args there fs3 data (Ok v)))
  | way_untrusted args w0 there fs3 data v level :
      verified args w0 there fs3 data v ->
      valid v = true ->
      trust_level v = Some level ->
      level < Args.required_trust_level args ->
      way 2
        (world w0 fs3
           (msgs_signed args there v
            ++ [(Logging.ERROR, MsgTrustNotMet level)])
           (calls_verified args there fs3 data (Ok v)))
  | way_move_failed args w0 there fs3 data v level e :
      verified args w0 there fs3 data v ->
      valid v = true ->
      trust_level v = Some level ->
      Args.required_trust_level args <= level ->
      FS.move (e_cwd env) fs3 (staged_input args) (Args.output_path args)
      = Raised e ->
      way 1
        (world w0 fs3
           (msgs_moving args there v level ++ [msg_create_failed args e])
           (calls_moved args there fs3 data v))
  | way_remove_failed args w0 there fs3 data v level fs4 e :
      verified args w0 there fs3 data v ->
      valid v = true ->
      trust_level v = Some level ->
      Args.required_trust_level args <= level ->
      FS.move (e_cwd env) fs3 (staged_input args) (Args.output_path args)
      = Ok fs4 ->
      FS.remove (e_cwd env) fs4 (staged_sig args) = Raised e ->
      way 1
        (world w0 fs4
           (msgs_moving args there v level ++ [msg_create_failed args e])
           (calls_moved args there fs3 data v
            ++ [CallRemove (staged_sig args)]))
  | way_success args w0 there fs3 data v level fs4 fs5 :
      verified args w0 there fs3 data v ->
      valid v = true ->
      trust_level v = Some level ->
      Args.required_trust_level args <= level ->
      FS.move (e_cwd env) fs3 (staged_input args) (Args.output_path args)
      = Ok fs4 ->
      FS.remove (e_cwd env) fs4 (staged_sig args) = Ok fs5 ->
      way 0
        (world w0 fs5
           (msgs_moving args there v level
            ++ [(Logging.INFO,
                 MsgSuccess (Args.input_path args) (Args.output_path args))])
           (calls_moved args there fs3 data v
            ++ [CallRemove (staged_sig args)])).

End Ways.

(** ** A sample installation

    The files [/in/a.bin] and [/in/a.bin.sig], an empty directory [/out]
    and no quarantine directory yet; an engine that starts and gives one
    fixed answer. *)

Definition verdict (ok : bool) (trust : Z) : Verify :=
  {| valid := ok; trust_level := Some trust; creation_date := "2014-11-03";
     username := "Joel Rangsmo"; key_id := "0123ABCD" |}.

(** The answer of an engine that found a good signature and reported no
    trust line for it. *)
Definition no_trust_verdict : Verify :=
  {| valid := true; trust_level := None; creation_date := "2014-11-03";
     username := "Joel Rangsmo"; key_id := "0123ABCD" |}.

Definition sample_env (answer : result Verify) : Env :=
  {| e_uid := 1000;
     e_home := "/home/joel";
     e_pw_dir := fun _ => None;
     e_cwd := ["home"; "joel"];
     e_logging_handlers := false;
     e_syslog_error := None;
     e_gpg_error := fun _ => None;
     e_verify_file := fun _ _ _ => answer |}.

Definition a_bin : list byte := list_byte_of_string "payload".
Definition a_bin_sig : list byte := list_byte_of_string "signature".

Definition sample_fs : FS.t :=
  <[ ["in"; "a.bin.sig"] := FS.File a_bin_sig ]>
    (<[ ["in"; "a.bin"] := FS.File a_bin ]>
       (<[ ["in"] := FS.Dir ]>
          (<[ ["out"] := FS.Dir ]>
             (<[ ["home"; "joel"] := FS.Dir ]>
                (<[ ["home"] := FS.Dir ]> ∅))))).

Definition sample_argv (output : string) : list Arg :=
  [ArgInput "/in/a.bin"; ArgSig "/in/a.bin.sig"; ArgOutput output;
   ArgQuar "/q"].

Definition sample_args (output : string) : Args.Namespace :=
  {| Args.input_path := "/in/a.bin"; Args.sig_path := "/in/a.bin.sig";
     Args.output_path := output; Args.required_trust_level := 3;
     Args.quar_dir := "/q"; Args.gpg_home := "~/.gnupg";
     Args.log_dest := "stream"; Args.log_verbose := false |}.

(** The same surroundings with an engine that cannot be started. *)
Definition no_engine_env : Env :=
  {| e_uid := 1000;
     e_home := "/home/joel";
     e_pw_dir := fun _ => None;
     e_cwd := ["home"; "joel"];
     e_logging_handlers := false;
     e_syslog_error := None;
     e_gpg_error := fun _ => Some (EngineError "no such home directory");
     e_verify_file := fun _ _ _ => Raised (EngineError "not started") |}.

(** A signature that has the name of the file it signs, in a directory
    of its own. *)
Definition twin_fs : FS.t :=
  <[ ["sigs"; "a.bin"] := FS.File a_bin_sig ]>
    (<[ ["sigs"] := FS.Dir ]> sample_fs).

Definition twin_argv : list Arg :=
  [ArgInput "/in/a.bin"; ArgSig "/sigs/a.bin"; ArgOutput "/out/a.bin";
   ArgQuar "/q"].

Definition twin_args : Args.Namespace :=
  {| Args.input_path := "/in/a.bin"; Args.sig_path := "/sigs/a.bin";
     Args.output_path := "/out/a.bin"; Args.required_trust_level := 3;
     Args.quar_dir := "/q"; Args.gpg_home := "~/.gnupg";
     Args.log_dest := "stream"; Args.log_verbose := false |}.

(** The sample command line with [--log-dest syslog]. *)
Definition syslog_argv : list Arg :=
  sample_argv "/out/a.bin" ++ [ArgLogDest "syslog"].

Definition syslog_args : Args.Namespace :=
  {| Args.input_path := "/in/a.bin"; Args.sig_path := "/in/a.bin.sig";
     Args.output_path := "/out/a.bin"; Args.required_trust_level := 3;
     Args.quar_dir := "/q"; Args.gpg_home := "~/.gnupg";
     Args.log_dest := "syslog"; Args.log_verbose := false |}.

(** ** Notions of the further properties *)

(** The value the command line gives an option: that of its last
    occurrence. *)
Fixpoint last_given {A : Type} (pick : Arg -> option A) (argv : list Arg)
    : option A :=
  match argv with
  | [] => None
  | a :: rest =>
      match last_given pick rest with
      | Some v => Some v
      | None => pick a
      end
  end.

Definition opt_input (a : Arg) : option string :=
  match a with ArgInput v => Some v | _ => None end.
Definition opt_sig (a : Arg) : option string :=
  match a with ArgSig v => Some v | _ => None end.
Definition opt_output (a : Arg) : option string :=
  match a with ArgOutput v => Some v | _ => None end.
Definition opt_trust (a : Arg) : option Z :=
  match a with ArgTrustLevel v => v | _ => None end.
Definition opt_quar (a : Arg) : option string :=
  match a with ArgQuar v => Some v | _ => None end.
Definition opt_gpg_home (a : Arg) : option string :=
  match a with ArgGpgHome v => Some v | _ => None end.
Definition opt_log_dest (a : Arg) : option string :=
  match a with ArgLogDest v => Some v | _ => None end.

(** The status with which an argument ends the program as soon as
    [argparse] reaches it, if it does. *)
Definition stops (a : Arg) : option Z :=
  match a with
  | ArgTrustLevel (Some n) =>
      if bool_decide (n ∈ trust_choices) then None else Some usage_error
  | ArgTrustLevel None => Some usage_error
  | ArgLogDest v =>
      if bool_decide (v ∈ log_dest_choices) then None else Some usage_error
  | ArgVersion | ArgHelp => Some 0
  | ArgMalformed => Some usage_error
  | _ => None
  end.

Fixpoint first_stop (argv : list Arg) : option Z :=
  match argv with
  | [] => None
  | a :: rest =>
      match stops a with
      | Some st => Some st
      | None => first_stop rest
      end
  end.

(** The command line gives the three required options and nothing
    [argparse] does not recognise. *)
Definition complete (argv : list Arg) : Prop :=
  is_Some (last_given opt_input argv) /\
  is_Some (last_given opt_sig argv) /\
  is_Some (last_given opt_output argv) /\
  forall v, ~ In (ArgUnrecognized v) argv.

(** The format [log_init] gives its handler. *)
Definition log_format : string := "pgp-cp: %(levelname)s - %(message)s".

(** The level [log_init] sets the logger to. *)
Definition threshold (verbose : bool) : Z :=
  if verbose then Logging.DEBUG else Logging.INFO.

(** The handler class [log_init] chooses for a destination, one of the
    three [parse_args] lets through (for any other text [log_init]
    raises before it has a handler). *)
Definition handler_class (destination : string) : Logging.HandlerClass :=
  if String.eqb destination "stream" then Logging.StreamHandler
  else if String.eqb destination "syslog" then
    Logging.SysLogHandler "/dev/log"
  else Logging.CustomNullHandler.

(** The calls of a run that goes all the way, in order. *)
Definition pipeline (env : Env) (args : Args.Namespace) (engine : result unit)
    (there : bool) (data : list byte) (sig_data : option (list byte))
    (answer : result Verify) : list Call :=
  [CallGPG (Args.gpg_home args) engine; CallExists (quarantine env args)]
  ++ (if there then [] else [CallMkdir (quarantine env args)])
  ++ [CallCopy (Args.input_path args) (quarantine env args);
      CallCopy (Args.sig_path args) (quarantine env args);
      CallOpen (staged_input env args);
      CallVerifyFile (staged_input env args) (staged_sig env args)
        data sig_data answer;
      CallMove (staged_input env args) (Args.output_path args);
      CallRemove (staged_sig env args)].

(** The handler [log_init] installs for a destination. *)
Definition installed (destination : string) : Logging.Handler :=
  {| Logging.h_class := handler_class destination;
     Logging.h_formatter := Some log_format |}.

(** Two namespaces that ask for the same thing and differ at most in
    where and how much is logged. *)
Definition same_request (a b : Args.Namespace) : Prop :=
  Args.input_path a = Args.input_path b /\
  Args.sig_path a = Args.sig_path b /\
  Args.output_path a = Args.output_path b /\
  Args.required_trust_level a = Args.required_trust_level b /\
  Args.quar_dir a = Args.quar_dir b /\
  Args.gpg_home a = Args.gpg_home b.

(** The records a logger at level [INFO] lets through. *)
Definition at_info (hr : Logging.Handler * LogRecord) : bool :=
  Logging.INFO <=? r_level hr.2.

(** The script from its first line: the guarded imports, then [main].
    [import_error] is the [ImportError] of the first import that fails, if
    any; the guard prints it and leaves with [exit(3)] before the logger
    is made ([exit] is [sys.exit], or the interpreter's own [exit] when
    the failing import comes before that of [sys]).  What is printed is
    not part of the world. *)
Definition script (import_error : option string) (env : Env)
    (argv : list Arg) (fs : FS.t) : Z * World :=
  match import_error with
  | Some _ => (3, boot fs)
  | None => run env argv fs
  end.

(** ** Further samples *)

(** The sample command line with the quarantine directory given again
    and [-v]. *)
Definition last_argv : list Arg :=
  sample_argv "/out/a.bin" ++ [ArgQuar "/var/q"; ArgVerbose].

Definition last_args : Args.Namespace :=
  {| Args.input_path := "/in/a.bin"; Args.sig_path := "/in/a.bin.sig";
     Args.output_path := "/out/a.bin"; Args.required_trust_level := 3;
     Args.quar_dir := "/var/q"; Args.gpg_home := "~/.gnupg";
     Args.log_dest := "stream"; Args.log_verbose := true |}.

(** A file system where the quarantine directory is in place and the
    input has not arrived. *)
Definition ready_fs : FS.t :=
  <[ ["q"] := FS.Dir ]> (<[ ["out"] := FS.Dir ]> ∅).

(** The sample command line with a quarantine directory whose parent
    does not exist. *)
Definition deep_argv : list Arg :=
  [ArgInput "/in/a.bin"; ArgSig "/in/a.bin.sig"; ArgOutput "/out/a.bin";
   ArgQuar "/var/spool/q"].

Definition deep_args : Args.Namespace :=
  {| Args.input_path := "/in/a.bin"; Args.sig_path := "/in/a.bin.sig";
     Args.output_path := "/out/a.bin"; Args.required_trust_level := 3;
     Args.quar_dir := "/var/spool/q"; Args.gpg_home := "~/.gnupg";
     Args.log_dest := "stream"; Args.log_verbose := false |}.

(** The sample command line, verbose and with the log discarded. *)
Definition loud_argv : list Arg :=
  sample_argv "/out/a.bin" ++ [ArgVerbose; ArgLogDest "none"].

Definition loud_args : Args.Namespace :=
  {| Args.input_path := "/in/a.bin"; Args.sig_path := "/in/a.bin.sig";
     Args.output_path := "/out/a.bin"; Args.required_trust_level := 3;
     Args.quar_dir := "/q"; Args.gpg_home := "~/.gnupg";
     Args.log_dest := "none"; Args.log_verbose := true |}.

(** A file system where the quarantine directory is in place and the
    input has arrived without its signature. *)
Definition unsigned_fs : FS.t :=
  <[ ["q"] := FS.Dir ]>
    (<[ ["in"; "a.bin"] := FS.File a_bin ]>
       (<[ ["in"] := FS.Dir ]> (<[ ["out"] := FS.Dir ]> ∅))).

(** The input already lies in the quarantine directory. *)
Definition inside_fs : FS.t :=
  <[ ["q"; "a.bin"] := FS.File a_bin ]> (<[ ["q"] := FS.Dir ]> sample_fs).

Definition inside_argv : list Arg :=
  [ArgInput "/q/a.bin"; ArgSig "/in/a.bin.sig"; ArgOutput "/out/a.bin";
   ArgQuar "/q"].

Definition inside_args : Args.Namespace :=
  {| Args.input_path := "/q/a.bin"; Args.sig_path := "/in/a.bin.sig";
     Args.output_path := "/out/a.bin"; Args.required_trust_level := 3;
     Args.quar_dir := "/q"; Args.gpg_home := "~/.gnupg";
     Args.log_dest := "stream"; Args.log_verbose := false |}.

(** The sample command line with [--trust-level 2]. *)
Definition lenient_argv : list Arg :=
  sample_argv "/out/a.bin" ++ [ArgTrustLevel (Some 2)].

Definition lenient_args : Args.Namespace :=
  {| Args.input_path := "/in/a.bin"; Args.sig_path := "/in/a.bin.sig";
     Args.output_path := "/out/a.bin"; Args.required_trust_level := 2;
     Args.quar_dir := "/q"; Args.gpg_home := "~/.gnupg";
     Args.log_dest := "stream"; Args.log_verbose := false |}.

(** * Properties *)

(** ** Path names *)

Example split_abs : Path.split "/tmp/a.bin" = [""; "tmp"; "a.bin"].
Proof. reflexivity. Qed.

Example basename_abs : Path.basename "/tmp/a.bin" = "a.bin".
Proof. reflexivity. Qed.

Example basename_trailing : Path.basename "/tmp/dir/" = "".
Proof. reflexivity. Qed.

Example join_plain : Path.join "/q" "a.bin" = "/q/a.bin".
Proof. reflexivity. Qed.

Example join_trailing : Path.join "/q/" "a.bin" = "/q/a.bin".
Proof. reflexivity. Qed.

Example expanduser_default :
  Path.expanduser "/home/joel/" (fun _ => None) "~/pgp-cp_quar"
  = "/home/joel/pgp-cp_quar".
Proof. reflexivity. Qed.

Example expanduser_unknown :
  Path.expanduser "/home/joel" (fun _ => None) "~nobody/q" = "~nobody/q".
Proof. reflexivity. Qed.

Module PathFacts.
Import Path.

Lemma split_not_nil p : split p <> [].
Proof.
  destruct p as [|c r]; simpl; [discriminate|].
  destruct (Ascii.eqb c "/"); [discriminate|].
  destruct (split r); discriminate.
Qed.

Lemma app_cons c a b : String c a +:+ b = String c (a +:+ b).
Proof. reflexivity. Qed.

Lemma split_app_slash a b :
  split (a +:+ String "/" b) = split a ++ split b.
Proof.
  induction a as [|c a IH]; [reflexivity|].
  rewrite app_cons. simpl.
  destruct (Ascii.eqb c "/"); [by rewrite IH|].
  rewrite IH. destruct (split a) eqn:E; [by destruct (split_not_nil a)|].
  reflexivity.
Qed.

Lemma app_slash_app a b : (a +:+ "/") +:+ b = a +:+ String "/" b.
Proof.
  induction a as [|c a IH]; [reflexivity|].
  by rewrite !app_cons, IH.
Qed.

Lemma endswith_slash_inv a :
  endswith_slash a = true -> exists a', a = a' +:+ "/".
Proof.
  induction a as [|c a IH]; simpl; [discriminate|].
  destruct a as [|c' a'].
  - intros H. apply Ascii.eqb_eq in H. subst. by exists "".
  - intros H. destruct (IH H) as [x Hx]. exists (String c x).
    by rewrite app_cons, <- Hx.
Qed.

Lemma split_components p : Forall (fun c => split c = [c]) (split p).
Proof.
  induction p as [|c r IH]; simpl.
  - by constructor.
  - destruct (Ascii.eqb c "/") eqn:E; [by constructor|].
    destruct (split r) as [|h t]; [by constructor; [simpl; rewrite E|]|].
    inversion IH as [|? ? Hh Ht]; subst. constructor; [|done].
    simpl. rewrite E, Hh. done.
Qed.

Lemma split_basename p : split p = removelast (split p) ++ [basename p].
Proof. apply app_removelast_last, split_not_nil. Qed.

Lemma basename_component p : split (basename p) = [basename p].
Proof.
  pose proof (split_components p) as H. rewrite split_basename in H.
  apply Forall_app in H as [_ H]. by inversion H.
Qed.

Lemma plain_no_slash b : split b = [b] -> b <> "" -> startswith_slash b = false.
Proof.
  destruct b as [|c r]; [done|]. simpl. intros H _.
  destruct (Ascii.eqb c "/"); [|done].
  injection H as H1 H2. discriminate.
Qed.

Lemma startswith_app a b :
  a <> "" -> startswith_slash (a +:+ b) = startswith_slash a.
Proof. by destruct a. Qed.

Lemma app_not_empty a b : a <> "" -> a +:+ b <> "".
Proof. by destruct a. Qed.

(** The components of a joined path are those of the directory, less a
    trailing empty one, and then the name. *)
Lemma split_join a b :
  a <> "" -> split b = [b] -> b <> "" ->
  join a b <> "" /\
  startswith_slash (join a b) = startswith_slash a /\
  exists cs, split (join a b) = cs ++ [b] /\
    (split a = cs \/ split a = cs ++ [""]).
Proof.
  intros Ha Hb Hb'. unfold join. rewrite (plain_no_slash b Hb Hb').
  destruct (String.eqb_spec a ""); [done|]. simpl.
  destruct (endswith_slash a) eqn:E.
  - split; [by apply app_not_empty|]. split; [by apply startswith_app|].
    destruct (endswith_slash_inv a E) as [a' ->].
    exists (split a'). split.
    + by rewrite app_slash_app, split_app_slash, Hb.
    + right. by rewrite split_app_slash.
  - split; [by apply app_not_empty|]. split; [by apply startswith_app|].
    exists (split a). split; [|by left].
    change (a +:+ "/" +:+ b) with (a +:+ String "/" b).
    by rewrite split_app_slash, Hb.
Qed.

Lemma basename_join a b : split b = [b] -> basename (join a b) = b.
Proof.
  intros Hb. unfold join, basename.
  destruct (startswith_slash b) eqn:Es; [by rewrite Hb|].
  destruct (String.eqb_spec a "") as [->|Ha]; simpl;
    [change ("" +:+ b) with b; by rewrite Hb|].
  destruct (endswith_slash a) eqn:E.
  - destruct (endswith_slash_inv a E) as [a' ->].
    by rewrite app_slash_app, split_app_slash, Hb, last_last.
  - change (a +:+ "/" +:+ b) with (a +:+ String "/" b).
    by rewrite split_app_slash, Hb, last_last.
Qed.
End PathFacts.

Module FSFacts.
Import PathFacts.

Lemma walk_snoc_empty fs cs : forall cur,
  FS.walk fs cur (cs ++ [""]) =
  match FS.walk fs cur cs with
  | Some k => if FS.is_dir fs k then Some k else None
  | None => None
  end.
Proof.
  induction cs as [|c cs IH]; intros cur; [reflexivity|].
  cbn [app FS.walk]. destruct (String.eqb_spec c "") as [->|Hc].
  - destruct cs as [|c' cs']; [|apply IH].
    simpl. destruct (FS.is_dir fs cur) eqn:E; [by rewrite E|done].
  - destruct (FS.is_dir fs cur); simpl; [|done].
    destruct (String.eqb c "."); [apply IH|].
    destruct (String.eqb c ".."); [|apply IH].
    destruct (FS.is_dir fs (removelast cur)); [apply IH|done].
Qed.

Lemma walk_snoc_name fs b cs : forall cur,
  b <> "" -> b <> "." -> b <> ".." ->
  FS.walk fs cur (cs ++ [b]) =
  match FS.walk fs cur cs with
  | Some k => if FS.is_dir fs k then Some (k ++ [b]) else None
  | None => None
  end.
Proof.
  intros cur H1 H2 H3. revert cur.
  assert (Hb : forall cur, FS.walk fs cur [b] =
            if FS.is_dir fs cur then Some (cur ++ [b]) else None).
  { intros cur. simpl.
    destruct (String.eqb_spec b ""); [done|].
    destruct (String.eqb_spec b "."); [done|].
    destruct (String.eqb_spec b ".."); [done|].
    by destruct (FS.is_dir fs cur). }
  induction cs as [|c cs IH]; intros cur; [apply Hb|].
  cbn [app FS.walk]. destruct (String.eqb_spec c "") as [->|Hc].
  - destruct cs as [|c' cs'].
    + cbn [app]. rewrite Hb. simpl.
      destruct (FS.is_dir fs cur) eqn:E; [by rewrite E|done].
    + apply IH.
  - destruct (FS.is_dir fs cur); simpl; [|done].
    destruct (String.eqb c "."); [apply IH|].
    destruct (String.eqb c ".."); [|apply IH].
    destruct (FS.is_dir fs (removelast cur)); [apply IH|done].
Qed.

Lemma walk_snoc_dots fs b cs : forall cur k,
  b = "." \/ b = ".." ->
  FS.walk fs cur (cs ++ [b]) = Some k -> FS.is_dir fs k = true.
Proof.
  intros cur k Hb. revert cur.
  assert (H0 : forall cur,
            FS.walk fs cur [b] = Some k -> FS.is_dir fs k = true).
  { intros cur. destruct Hb as [-> | ->]; simpl.
    - destruct (FS.is_dir fs cur) eqn:E; simpl; [|done]. by intros [= <-].
    - destruct (FS.is_dir fs cur) eqn:E; simpl; [|done].
      destruct (FS.is_dir fs (removelast cur)) eqn:E'; [|done].
      by intros [= <-]. }
  induction cs as [|c cs IH]; intros cur; [apply H0|].
  cbn [app FS.walk]. destruct (String.eqb_spec c "") as [->|Hc].
  - destruct cs as [|c' cs']; [apply H0|apply IH].
  - destruct (FS.is_dir fs cur); simpl; [|done].
    destruct (String.eqb c "."); [apply IH|].
    destruct (String.eqb c ".."); [|apply IH].
    destruct (FS.is_dir fs (removelast cur)); [apply IH|done].
Qed.

Lemma walk_mono fs fs' cs : forall cur k,
  (forall x, FS.is_dir fs x = true -> FS.is_dir fs' x = true) ->
  FS.walk fs cur cs = Some k -> FS.walk fs' cur cs = Some k.
Proof.
  intros cur k Hm. revert cur.
  induction cs as [|c cs IH]; intros cur; [done|].
  cbn [FS.walk]. destruct (String.eqb_spec c "") as [->|Hc].
  - destruct cs as [|c' cs']; [|apply IH].
    destruct (FS.is_dir fs cur) eqn:E; [|done].
    by rewrite (Hm _ E).
  - destruct (FS.is_dir fs cur) eqn:E; simpl; [|done].
    rewrite (Hm _ E). simpl.
    destruct (String.eqb c "."); [apply IH|].
    destruct (String.eqb c ".."); [|apply IH].
    destruct (FS.is_dir fs (removelast cur)) eqn:E'; [|done].
    rewrite (Hm _ E'). apply IH.
Qed.

Lemma walk_ext fs fs' cs cur :
  (forall x, FS.is_dir fs x = FS.is_dir fs' x) ->
  FS.walk fs cur cs = FS.walk fs' cur cs.
Proof.
  intros He. revert cur.
  induction cs as [|c cs IH]; intros cur; [done|].
  cbn [FS.walk]. rewrite <- !He.
  destruct (String.eqb c "").
  - destruct cs; [done|apply IH].
  - destruct (FS.is_dir fs cur); simpl; [|done].
    destruct (String.eqb c "."); [apply IH|].
    destruct (String.eqb c ".."); [|apply IH].
    destruct (FS.is_dir fs (removelast cur)); [apply IH|done].
Qed.

Lemma same_dirs_refl fs : FS.same_dirs fs fs.
Proof. done. Qed.

Lemma same_dirs_trans a b c :
  FS.same_dirs a b -> FS.same_dirs b c -> FS.same_dirs a c.
Proof. intros H1 H2 x. by rewrite H1. Qed.

Lemma same_dirs_insert_file (fs : FS.t) k d :
  FS.is_dir fs k = false -> FS.same_dirs fs (<[k := FS.File d]> fs).
Proof.
  intros Hk x. unfold FS.is_dir, FS.node_at in *.
  destruct x as [|c x]; [done|].
  destruct (decide (k = c :: x)) as [->|Hne].
  - rewrite lookup_insert_eq. by destruct (fs !! (c :: x)) as [[]|].
  - by rewrite lookup_insert_ne.
Qed.

Lemma same_dirs_delete_file (fs : FS.t) k d :
  FS.node_at fs k = Some (FS.File d) -> FS.same_dirs fs (delete k fs).
Proof.
  intros Hk x. unfold FS.is_dir, FS.node_at in *.
  destruct x as [|c x]; [done|].
  destruct (decide (k = c :: x)) as [->|Hne].
  - rewrite lookup_delete_eq. by rewrite Hk.
  - by rewrite lookup_delete_ne.
Qed.

Lemma resolve_ext cwd fs fs' p :
  FS.same_dirs fs fs' -> FS.resolve cwd fs p = FS.resolve cwd fs' p.
Proof.
  intros H. unfold FS.resolve. destruct (String.eqb p ""); [done|].
  by apply walk_ext.
Qed.

Lemma resolve_join cwd fs q b :
  q <> "" -> Path.plain b ->
  FS.resolve cwd fs (Path.join q b) =
  match FS.resolve cwd fs q with
  | Some k => if FS.is_dir fs k then Some (k ++ [b]) else None
  | None => None
  end.
Proof.
  intros Hq (Hb & Hb1 & Hb2 & Hb3).
  destruct (split_join q b Hq Hb Hb1) as (Hj & Hs & cs & Hcs & Hsplit).
  unfold FS.resolve.
  destruct (String.eqb_spec (Path.join q b) ""); [done|].
  destruct (String.eqb_spec q ""); [done|].
  rewrite Hs, Hcs, walk_snoc_name by done.
  destruct Hsplit as [-> | ->]; [done|].
  rewrite walk_snoc_empty.
  destruct (FS.walk fs _ cs) as [k|]; [|done].
  destruct (FS.is_dir fs k) eqn:E; [by rewrite E|done].
Qed.

Lemma resolve_file_plain cwd fs p k :
  FS.resolve cwd fs p = Some k -> FS.is_dir fs k = false ->
  Path.plain (Path.basename p) /\ exists k', k = k' ++ [Path.basename p].
Proof.
  unfold FS.resolve. destruct (String.eqb_spec p "") as [->|Hp]; [done|].
  rewrite (split_basename p). intros Hw Hk.
  pose proof (basename_component p) as Hc.
  assert (Hplain : Path.plain (Path.basename p)).
  { split; [done|]. repeat split; intros E; rewrite E in Hw.
    - rewrite walk_snoc_empty in Hw.
      destruct (FS.walk fs _ _) as [k0|]; [|done].
      destruct (FS.is_dir fs k0) eqn:E0; [|done]. congruence.
    - apply walk_snoc_dots in Hw; [congruence|by left].
    - apply walk_snoc_dots in Hw; [congruence|by right]. }
  split; [done|].
  destruct Hplain as (_ & H1 & H2 & H3).
  rewrite walk_snoc_name in Hw by done.
  destruct (FS.walk fs _ _) as [k0|]; [|done].
  destruct (FS.is_dir fs k0); [|done]. injection Hw as <-. by exists k0.
Qed.
End FSFacts.

(** ** The file-system calls *)

Module FSCalls.
Import PathFacts FSFacts.

Lemma node_file_lookup (fs : FS.t) k d :
  FS.node_at fs k = Some (FS.File d) <-> k <> [] /\ fs !! k = Some (FS.File d).
Proof. destruct k; simpl; split; [done|by intros []|done|by intros []]. Qed.

Lemma node_file_not_dir (fs : FS.t) k d :
  FS.node_at fs k = Some (FS.File d) -> FS.is_dir fs k = false.
Proof. unfold FS.is_dir. by intros ->. Qed.

Lemma is_dir_false_not_root (fs : FS.t) k : FS.is_dir fs k = false -> k <> [].
Proof. by destruct k. Qed.

Lemma resolve_not_empty cwd fs p k : FS.resolve cwd fs p = Some k -> p <> "".
Proof. unfold FS.resolve. by destruct (String.eqb_spec p ""). Qed.

Lemma isdir_ext cwd fs fs' p :
  FS.same_dirs fs fs' -> FS.isdir cwd fs p = FS.isdir cwd fs' p.
Proof.
  intros H. unfold FS.isdir. rewrite (resolve_ext cwd fs fs' p H).
  destruct (FS.resolve cwd fs' p); [apply H|done].
Qed.

Lemma isdir_inv cwd fs p :
  FS.isdir cwd fs p = true ->
  exists k, FS.resolve cwd fs p = Some k /\ FS.is_dir fs k = true.
Proof.
  unfold FS.isdir. destruct (FS.resolve cwd fs p) as [k|]; [by exists k|done].
Qed.

Lemma read_inv cwd fs p d :
  FS.read cwd fs p = Ok d ->
  exists k, FS.resolve cwd fs p = Some k /\ fs !! k = Some (FS.File d) /\
            FS.is_dir fs k = false.
Proof.
  unfold FS.read. destruct (FS.resolve cwd fs p) as [k|]; [|done].
  destruct (FS.node_at fs k) as [[d'|]|] eqn:E; intros H;
    try discriminate H; injection H as <-.
  exists k. split; [done|]. split; [by apply node_file_lookup in E as []|].
  by eapply node_file_not_dir.
Qed.

Lemma read_intro (cwd : FS.key) (fs : FS.t) p k d :
  FS.resolve cwd fs p = Some k -> k <> [] -> fs !! k = Some (FS.File d) ->
  FS.read cwd fs p = Ok d.
Proof.
  intros Hr Hk Hl. unfold FS.read. rewrite Hr.
  destruct k; [done|]. simpl. by rewrite Hl.
Qed.

Lemma write_inv cwd fs p d fs' :
  FS.write cwd fs p d = Ok fs' ->
  exists k, FS.resolve cwd fs p = Some k /\ FS.is_dir fs k = false /\
            fs' = <[k := FS.File d]> fs.
Proof.
  unfold FS.write, FS.is_dir. destruct (FS.resolve cwd fs p) as [k|]; [|done].
  destruct (FS.node_at fs k) as [[d'|]|] eqn:E; intros H;
    try discriminate H; injection H as <-; exists k; by rewrite E.
Qed.

(** A successful copy reads a regular file and writes another location. *)
Lemma copy_inv cwd fs src q fs' :
  FS.copy cwd fs src q = Ok fs' ->
  exists ks d kd,
    FS.resolve cwd fs src = Some ks /\ fs !! ks = Some (FS.File d) /\
    FS.is_dir fs ks = false /\
    FS.resolve cwd fs
      (if FS.isdir cwd fs q then Path.join q (Path.basename src) else q)
    = Some kd /\
    FS.is_dir fs kd = false /\ ks <> kd /\
    fs' = <[kd := FS.File d]> fs.
Proof.
  unfold FS.copy, FS.copyfile.
  set (dst := if FS.isdir cwd fs q then _ else _).
  destruct (FS.samefile cwd fs src dst) eqn:Hs; [done|].
  destruct (FS.read cwd fs src) as [d|] eqn:Hr; [|done].
  intros Hw. apply read_inv in Hr as (ks & Hks & Hl & Hd).
  apply write_inv in Hw as (kd & Hkd & Hdd & ->).
  exists ks, d, kd. repeat split; try done.
  intros <-. unfold FS.samefile in Hs. rewrite Hks, Hkd in Hs.
  assert (Hp : FS.present fs ks = true).
  { unfold FS.present. destruct ks; [done|]. simpl. by rewrite Hl. }
  rewrite Hp in Hs. simpl in Hs. by rewrite bool_decide_eq_true_2 in Hs.
Qed.

Lemma remove_inv cwd fs p fs' :
  FS.remove cwd fs p = Ok fs' ->
  exists k d, FS.resolve cwd fs p = Some k /\ fs !! k = Some (FS.File d) /\
              fs' = delete k fs.
Proof.
  unfold FS.remove. destruct (FS.resolve cwd fs p) as [k|]; [|done].
  destruct (FS.node_at fs k) as [[d'|]|] eqn:E; intros H;
    try discriminate H; injection H as <-.
  exists k, d'. by apply node_file_lookup in E as [].
Qed.

Lemma rename_inv cwd fs src dst fs' :
  FS.rename cwd fs src dst = Ok fs' ->
  exists ks d kd,
    FS.resolve cwd fs src = Some ks /\ fs !! ks = Some (FS.File d) /\
    FS.resolve cwd fs dst = Some kd /\ FS.is_dir fs kd = false /\
    fs' = <[kd := FS.File d]> (delete ks fs).
Proof.
  unfold FS.rename, FS.is_dir.
  destruct (FS.resolve cwd fs src) as [ks|]; [|done].
  destruct (FS.node_at fs ks) as [[d|]|] eqn:E; [|done..].
  destruct (FS.resolve cwd fs dst) as [kd|]; [|done].
  apply node_file_lookup in E as [? E].
  destruct (FS.node_at fs kd) as [[d'|]|] eqn:E'; intros Hr;
    try discriminate Hr; injection Hr as <-; exists ks, d, kd; by rewrite E'.
Qed.

(** A successful move of a regular file. *)
Lemma move_inv cwd fs src dst fs' ks d :
  FS.resolve cwd fs src = Some ks -> fs !! ks = Some (FS.File d) ->
  ks <> [] ->
  FS.move cwd fs src dst = Ok fs' ->
  exists kd,
    FS.is_dir fs kd = false /\
    fs' = <[kd := FS.File d]> (delete ks fs) /\
    (FS.isdir cwd fs dst = false -> FS.resolve cwd fs dst = Some kd).
Proof.
  intros Hks Hl Hne. unfold FS.move.
  destruct (FS.isdir cwd fs dst) eqn:Hd.
  - destruct (FS.samefile cwd fs src dst) eqn:Hs.
    { unfold FS.samefile in Hs. rewrite Hks in Hs.
      apply isdir_inv in Hd as (k & Hk & Hkd). rewrite Hk in Hs.
      apply andb_prop in Hs as [_ Hs]. apply bool_decide_eq_true in Hs as <-.
      unfold FS.is_dir in Hkd. destruct ks; [done|]. simpl in Hkd.
      by rewrite Hl in Hkd. }
    destruct (FS.exists_ cwd fs _); [done|].
    intros Hr.
    apply rename_inv in Hr as (ks' & d' & kd & H1 & H2 & H3 & H4 & ->).
    rewrite Hks in H1. injection H1 as <-. rewrite Hl in H2. injection H2 as <-.
    by exists kd.
  - intros Hr.
    apply rename_inv in Hr as (ks' & d' & kd & H1 & H2 & H3 & H4 & ->).
    rewrite Hks in H1. injection H1 as <-. rewrite Hl in H2. injection H2 as <-.
    by exists kd.
Qed.

Lemma mkdir_inv cwd fs p fs' :
  FS.mkdir cwd fs p = Ok fs' ->
  exists k, FS.resolve cwd fs (Path.rstrip_slash p) = Some k /\
            FS.present fs k = false /\ fs' = <[k := FS.Dir]> fs.
Proof.
  unfold FS.mkdir.
  destruct (FS.resolve cwd fs _) as [k|]; [|by destruct (_ && _)].
  destruct (FS.present fs k) eqn:E; intros H;
    try discriminate H; injection H as <-. by exists k.
Qed.

Lemma present_false (fs : FS.t) k :
  FS.present fs k = false -> k <> [] /\ fs !! k = None.
Proof.
  unfold FS.present. destruct k; [done|]. simpl.
  by destruct (fs !! (s :: k)).
Qed.

Lemma is_dir_insert_dir (fs : FS.t) k x :
  FS.is_dir fs x = true -> FS.is_dir (<[k := FS.Dir]> fs) x = true.
Proof.
  unfold FS.is_dir, FS.node_at. destruct x as [|c x]; [done|].
  destruct (decide (k = c :: x)) as [->|Hne].
  - by rewrite lookup_insert_eq.
  - by rewrite lookup_insert_ne.
Qed.

Lemma rstrip_empty_split p :
  Path.rstrip_slash p = "" -> exists n, Path.split p = replicate (S n) "".
Proof.
  induction p as [|c r IH]; [by exists 0%nat|]. simpl.
  destruct (Path.rstrip_slash r) eqn:E; [|done].
  destruct (Ascii.eqb c "/"); [|done]. intros _.
  destruct (IH eq_refl) as [n ->]. by exists (S n).
Qed.

Lemma split_rstrip p :
  Path.rstrip_slash p <> "" ->
  exists n, Path.split p = Path.split (Path.rstrip_slash p) ++ replicate n "".
Proof.
  induction p as [|c r IH]; [done|]. simpl.
  destruct (Path.rstrip_slash r) as [|a r'] eqn:E.
  - destruct (Ascii.eqb c "/") eqn:Ec; [done|]. intros _.
    destruct (rstrip_empty_split r E) as [n ->]. exists n.
    simpl. by rewrite Ec.
  - intros _. destruct IH as [n ->]; [done|]. exists n.
    change (Path.split (String c (String a r'))) with
      (if Ascii.eqb c "/" then "" :: Path.split (String a r')
       else match Path.split (String a r') with
            | [] => [String c ""]
            | h :: t => String c h :: t
            end).
    destruct (Ascii.eqb c "/"); [done|].
    destruct (Path.split (String a r')) eqn:E'; [|done].
    by destruct (split_not_nil (String a r')).
Qed.

Lemma startswith_rstrip p :
  Path.rstrip_slash p <> "" ->
  Path.startswith_slash (Path.rstrip_slash p) = Path.startswith_slash p.
Proof.
  destruct p as [|c r]; [done|]. simpl.
  destruct (Path.rstrip_slash r); [|done].
  destruct (Ascii.eqb c "/") eqn:E; simpl; [done|by rewrite E].
Qed.

Lemma walk_replicate_empty fs cur cs n k :
  FS.walk fs cur (cs ++ replicate n "") = Some k -> FS.walk fs cur cs = Some k.
Proof.
  induction n as [|n IH]; [by rewrite app_nil_r|].
  rewrite replicate_S_end, app_assoc, walk_snoc_empty.
  destruct (FS.walk fs cur (cs ++ replicate n "")) as [k'|] eqn:E; [|done].
  destruct (FS.is_dir fs k'); [|done]. intros [= <-]. by apply IH.
Qed.

Lemma resolve_rstrip cwd fs p k :
  FS.resolve cwd fs p = Some k -> Path.rstrip_slash p <> "" ->
  FS.resolve cwd fs (Path.rstrip_slash p) = Some k.
Proof.
  unfold FS.resolve. intros H Hne.
  destruct (String.eqb_spec p ""); [done|].
  destruct (String.eqb_spec (Path.rstrip_slash p) ""); [done|].
  rewrite startswith_rstrip by done.
  destruct (split_rstrip p Hne) as [m Hm]. rewrite Hm in H.
  by apply walk_replicate_empty in H.
Qed.

Lemma resolve_mono cwd fs fs' p k :
  (forall x, FS.is_dir fs x = true -> FS.is_dir fs' x = true) ->
  FS.resolve cwd fs p = Some k -> FS.resolve cwd fs' p = Some k.
Proof.
  unfold FS.resolve. intros Hm. destruct (String.eqb p ""); [done|].
  by apply walk_mono.
Qed.
End FSCalls.

(** ** Logging *)

Lemma logs_from lg l : forall acc,
  fold_left (fun acc c => acc ++ deliver lg (fst c) (snd c)) l acc
  = acc ++ logs lg l.
Proof.
  unfold logs. induction l as [|c l IH]; intros acc; simpl.
  - by rewrite app_nil_r.
  - rewrite IH, (IH (deliver lg c.1 c.2)). by rewrite app_assoc.
Qed.

Lemma logs_app lg l1 l2 : logs lg (l1 ++ l2) = logs lg l1 ++ logs lg l2.
Proof. unfold logs at 1. rewrite fold_left_app. apply logs_from. Qed.

Lemma logs_cons lg lvl msg l :
  logs lg ((lvl, msg) :: l) = deliver lg lvl msg ++ logs lg l.
Proof.
  change ((lvl, msg) :: l) with ([(lvl, msg)] ++ l). by rewrite logs_app.
Qed.

Lemma logs_in lg l h r :
  In (h, r) (logs lg l) -> In (r_level r, r_msg r) l.
Proof.
  induction l as [|[lvl msg] l IH]; [done|].
  rewrite logs_cons, in_app_iff. intros [Hin|Hin]; [left|right; by apply IH].
  unfold deliver in Hin. destruct (lvl <? Logging.level lg); [done|].
  apply in_map_iff in Hin as (h' & [= <- <-] & _). done.
Qed.

(** After [log_init] the logger has one handler and lets [INFO] through;
    [DEBUG] only when verbose. *)
Lemma log_init_logger env dest verbose w o w0 :
  log_init env dest verbose w = (o, w0) ->
  Logging.handlers (w_logger w) = [] ->
  match o with
  | Return _ =>
      exists h,
        Logging.handlers (w_logger w0) = [h] /\
        Logging.level (w_logger w0)
        = (if verbose then Logging.DEBUG else Logging.INFO) /\
        ((dest = "stream" /\ Logging.h_class h = Logging.StreamHandler) \/
         (dest = "syslog" /\
          Logging.h_class h = Logging.SysLogHandler "/dev/log" /\
          e_logging_handlers env = true /\ e_syslog_error env = None) \/
         (dest = "none" /\ Logging.h_class h = Logging.CustomNullHandler))
  | Exit _ => False
  | Uncaught e =>
      Logging.handlers (w_logger w0) = [] /\
      ((dest = "syslog" /\ e_logging_handlers env = false /\
        e = AttributeError "logging" "handlers") \/
       (dest = "syslog" /\ e_logging_handlers env = true /\
        e_syslog_error env = Some e) \/
       (dest <> "stream" /\ dest <> "syslog" /\ dest <> "none"))
  end.
Proof.
  unfold log_init, logging_handlers_SysLogHandler. intros H Hh.
  destruct (String.eqb_spec dest "stream") as [->|H1].
  { destruct verbose; cbn in H; injection H as <- <-; cbn; rewrite Hh;
      eexists; (split; [done|]); split; [done| |done|]; by left. }
  destruct (String.eqb_spec dest "syslog") as [->|H2].
  { destruct (e_logging_handlers env) eqn:E1;
      [destruct (e_syslog_error env) eqn:E2|];
      destruct verbose; cbn in H; injection H as <- <-; cbn; rewrite ?Hh;
      first [ by (split; [done|]; right; left)
            | by (split; [done|]; left)
            | eexists; (split; [done|]); split; [done|]; right; left; done ]. }
  destruct (String.eqb_spec dest "none") as [->|H3].
  { destruct verbose; cbn in H; injection H as <- <-; cbn; rewrite Hh;
      eexists; (split; [done|]); split; [done| |done|]; by right; right. }
  destruct verbose; cbn in H; injection H as <- <-; cbn;
    (split; [done|]); by right; right.
Qed.

Lemma deliver_one lg h lvl msg :
  Logging.handlers lg = [h] ->
  deliver lg lvl msg =
  if lvl <? Logging.level lg then []
  else [(h, {| r_level := lvl; r_msg := msg |})].
Proof. unfold deliver. by intros ->. Qed.

Lemma logs_in_handler lg l h r :
  In (h, r) (logs lg l) ->
  In h (Logging.handlers lg) /\ Logging.level lg <= r_level r.
Proof.
  induction l as [|[lvl msg] l IH]; [done|].
  rewrite logs_cons, in_app_iff. intros [Hin|Hin]; [|by apply IH].
  unfold deliver in Hin. destruct (Z.ltb_spec lvl (Logging.level lg)); [done|].
  apply in_map_iff in Hin as (h' & [= <- <-] & Hh). done.
Qed.

Lemma logs_snoc lg h l lvl m :
  Logging.handlers lg = [h] -> Logging.level lg <= lvl ->
  logs lg (l ++ [(lvl, m)])
  = logs lg l ++ [(h, {| r_level := lvl; r_msg := m |})].
Proof.
  intros Hh Hl. rewrite logs_app. f_equal.
  change (logs lg [(lvl, m)]) with ([] ++ deliver lg lvl m). simpl.
  rewrite (deliver_one _ _ _ _ Hh).
  destruct (Z.ltb_spec lvl (Logging.level lg)); [lia|done].
Qed.


(** ** Every run goes one of the ways *)

Lemma parse_args_cases argv w :
  (exists status, parse_args argv w = (Exit status, w)) \/
  (exists args, parse_args argv w = (Return args, w)).
Proof.
  unfold parse_args. destruct (consume defaults argv) as [c|ns].
  - left. by exists c.
  - destruct (p_input ns), (p_sig ns), (p_output ns), (p_extras ns);
      first [right; eexists; reflexivity | left; eexists; reflexivity].
Qed.

Lemma log_init_frame env dest verbose w o w' :
  log_init env dest verbose w = (o, w') ->
  w_fs w' = w_fs w /\ w_calls w' = w_calls w /\ w_emitted w' = w_emitted w /\
  forall n, o <> Exit n.
Proof.
  unfold log_init, logging_handlers_SysLogHandler.
  destruct verbose, (String.eqb dest "stream"), (String.eqb dest "syslog"),
    (String.eqb dest "none"), (e_logging_handlers env), (e_syslog_error env);
    cbn; intros [= <- <-]; done.
Qed.

#[local] Opaque log_init parse_args deliver.
#[local] Opaque FS.exists_ FS.mkdir FS.copy FS.read FS.move FS.remove.

(** The rest of [main] once the quarantine directory is there. *)
Ltac from_copies env argv fs args lg glg Hm Hst Hgpg Hprep :=
  let w0 := constr:({| w_fs := fs; w_logger := lg; w_gnupg_logger := glg;
                       w_emitted := []; w_calls := [] |}) in
  destruct (FS.copy _ _ (Args.input_path args) _) as [?fs2|?e] eqn:Hc1;
    cbn in Hm;
    [|injection Hm as <- <-;
      exact (way_copy_input _ _ _ _ w0 _ _ _ Hst Hgpg Hprep Hc1)];
  destruct (FS.copy _ _ (Args.sig_path args) _) as [?fs3|?e] eqn:Hc2;
    cbn in Hm;
    [|injection Hm as <- <-;
      exact (way_copy_sig _ _ _ _ w0 _ _ _ _ Hst Hgpg Hprep Hc1 Hc2)];
  let Hsg := fresh "Hsg" in
  match type of Hprep with
  | prepared _ _ _ ?there ?fs1 =>
      match type of Hc2 with
      | FS.copy _ ?fs2 _ _ = Ok ?fs3 =>
          assert (Hsg : staged env argv fs args w0 there fs3)
            by (split; [exact Hst|split; [exact Hgpg|]];
                exists fs1, fs2; split; [exact Hprep|split; assumption])
      end
  end;
  destruct (FS.read _ _ (staged_input env args)) as [?data|?e] eqn:Hrd;
    cbn in Hm;
    [|injection Hm as <- <-; exact (way_open _ _ _ _ w0 _ _ _ Hsg Hrd)];
  destruct (e_verify_file env _ _ _) as [?v|?e] eqn:Hv; cbn in Hm;
  match type of Hc2 with
  | _ = Ok ?fs3 => fold (sig_found env args fs3) in Hv
  end;
    [|injection Hm as <- <-;
      exact (way_verify_raised _ _ _ _ w0 _ _ _ _ Hsg Hrd Hv)];
  let Hvf := fresh "Hvf" in
  pose proof (conj Hsg (conj Hrd Hv) : verified _ _ _ _ _ _ _ _ _) as Hvf;
  destruct (valid v) eqn:Hvalid; cbn in Hm;
    [|injection Hm as <- <-;
      exact (way_invalid _ _ _ _ w0 _ _ _ _ Hvf Hvalid)];
  destruct (trust_level v) as [?level|] eqn:Hlevel; cbn in Hm;
    [|injection Hm as <- <-;
      exact (way_no_trust_level _ _ _ _ w0 _ _ _ _ Hvf Hvalid Hlevel)];
  destruct (Z.ltb_spec level (Args.required_trust_level args))
    as [Hlt|Hge]; cbn in Hm;
    [injection Hm as <- <-;
     exact (way_untrusted _ _ _ _ w0 _ _ _ _ _ Hvf Hvalid Hlevel Hlt)|];
  destruct (FS.move _ _ _ _) as [?fs4|?e] eqn:Hmv; cbn in Hm;
    [|injection Hm as <- <-;
      exact (way_move_failed _ _ _ _ w0 _ _ _ _ _ _ Hvf Hvalid Hlevel Hge
               Hmv)];
  destruct (FS.remove _ _ _) as [?fs5|?e] eqn:Hrm; cbn in Hm;
    injection Hm as <- <-;
    [exact (way_success _ _ _ _ w0 _ _ _ _ _ _ _ Hvf Hvalid Hlevel Hge Hmv
              Hrm)
    |exact (way_remove_failed _ _ _ _ w0 _ _ _ _ _ _ _ Hvf Hvalid Hlevel Hge
              Hmv Hrm)].

Lemma main_way_aux env argv fs o w :
  main env argv (boot fs) = (o, w) -> way env argv fs (status o) w.
Proof.
  unfold main. intros Hm.
  destruct (parse_args_cases argv (boot fs)) as [[c Hp]|[args Hp]];
    unfold mbind at 1, M_bind at 1 in Hm; rewrite Hp in Hm;
    [injection Hm as <- <-; by apply way_usage|].
  unfold mbind at 1, M_bind at 1 in Hm.
  destruct (log_init env _ _ (boot fs)) as [o0 w0] eqn:Hli.
  destruct (log_init_frame _ _ _ _ _ _ Hli) as (Hfs & Hcalls & Hem & Hexit).
  destruct o0 as [[]|n|e];
    [|by destruct (Hexit n)|injection Hm as <- <-; by eapply way_log_init].
  assert (Hst : started env argv fs args w0) by done.
  destruct w0 as [fs0 lg glg em cs]. simpl in Hfs, Hcalls, Hem. subst fs0 cs em.
  clear Hexit Hli Hp.
  unfold gnupg_GPG, os_path_exists, os_mkdir, shutil_copy, shutil_move,
    os_remove, open, gpg_verify_file, logger_debug, logger_info,
    logger_error in Hm.
  unfold mbind, M_bind, mret, M_ret, try_except, emit, called, exit, raise,
    fs_get, fs_do, fs_try in Hm.
  cbn in Hm.
  destruct (e_gpg_error env (Args.gpg_home args)) as [e|] eqn:Hgpg; cbn in Hm.
  { injection Hm as <- <-. exact (way_gnupg _ _ _ _ _ e Hst Hgpg). }
  change (os_path_expanduser env (Args.quar_dir args))
    with (quarantine env args) in Hm.
  change (Path.join (quarantine env args)
            (Path.basename (Args.input_path args)))
    with (staged_input env args) in Hm.
  change (Path.join (quarantine env args)
            (Path.basename (Args.sig_path args)))
    with (staged_sig env args) in Hm.
  destruct (FS.exists_ _ fs _) eqn:Hex; cbn in Hm.
  - assert (Hprep : prepared env fs args true fs) by done.
    from_copies env argv fs args lg glg Hm Hst Hgpg Hprep.
  - destruct (FS.mkdir _ fs _) as [fs1|e] eqn:Hmk; cbn in Hm.
    2:{ injection Hm as <- <-. exact (way_mkdir _ _ _ _ _ e Hst Hgpg Hex Hmk). }
    assert (Hprep : prepared env fs args false fs1) by done.
    from_copies env argv fs args lg glg Hm Hst Hgpg Hprep.
Qed.

Lemma main_way env argv fs :
  way env argv fs (run env argv fs).1 (run env argv fs).2.
Proof.
  unfold run. destruct (main env argv (boot fs)) as [o w] eqn:Hm.
  by apply main_way_aux.
Qed.

#[local] Transparent log_init parse_args deliver.
#[local] Transparent FS.exists_ FS.mkdir FS.copy FS.read FS.move FS.remove.

(** ** Where a run puts things *)

Import PathFacts FSFacts FSCalls.

Lemma snoc_inj {A} (l l' : list A) x y :
  l ++ [x] = l' ++ [y] -> l = l' /\ x = y.
Proof. intros H. by apply app_inj_tail in H. Qed.

Lemma prepared_frame env fs args there fs1 kq :
  prepared env fs args there fs1 ->
  FS.resolve (e_cwd env) fs1 (quarantine env args) = Some kq ->
  (forall x, FS.is_dir fs x = true -> FS.is_dir fs1 x = true) /\
  (fs1 = fs \/ fs !! kq = None /\ fs1 = <[kq := FS.Dir]> fs).
Proof.
  intros [Hex Hfs] Hq. destruct there; [subst; split; [done|by left]|].
  apply mkdir_inv in Hfs as (k & Hk & Hp & ->).
  assert (Hm : forall x, FS.is_dir fs x = true ->
                 FS.is_dir (<[k := FS.Dir]> fs) x = true)
    by (intros x; apply is_dir_insert_dir).
  split; [done|]. right.
  apply resolve_rstrip in Hq; [|by eapply resolve_not_empty].
  apply (resolve_mono _ _ _ _ _ Hm) in Hk. rewrite Hk in Hq. injection Hq as <-.
  by apply present_false in Hp as [].
Qed.

Lemma staged_layout env argv fs args w0 there fs3 data :
  staged env argv fs args w0 there fs3 ->
  FS.read (e_cwd env) fs3 (staged_input env args) = Ok data ->
  exists fs1 kq k_in k_sig d_in d_sig,
    prepared env fs args there fs1 /\
    layout env args fs1 fs3 data kq k_in k_sig d_in d_sig.
Proof.
  intros (_ & _ & fs1 & fs2 & Hprep & Hc1 & Hc2) Hrd.
  set (cwd := e_cwd env) in *. set (q := quarantine env args) in *.
  apply copy_inv in Hc1
    as (k_in & d_in & kd1 & Hin & Hind & Hfin & Hd1 & Hd1f & Hne1 & ->).
  pose proof (same_dirs_insert_file fs1 kd1 d_in Hd1f) as Hs12.
  apply copy_inv in Hc2
    as (k_sig & d_sig & kd2 & Hsig & Hsigd & Hfsig & Hd2 & Hd2f & Hne2 & ->).
  pose proof (same_dirs_insert_file _ kd2 d_sig Hd2f) as Hs23.
  pose proof (same_dirs_trans _ _ _ Hs12 Hs23) as Hs13.
  rewrite <- (isdir_ext cwd _ _ q Hs12) in Hd2.
  rewrite <- (resolve_ext cwd _ _ _ Hs12) in Hd2.
  rewrite <- (resolve_ext cwd _ _ _ Hs12) in Hsig.
  rewrite <- (Hs12 kd2) in Hd2f.
  (* the names of the two files *)
  destruct (resolve_file_plain _ _ _ _ Hin Hfin) as [Hpin [kin' Hkin]].
  rewrite <- (Hs12 k_sig) in Hfsig.
  destruct (resolve_file_plain _ _ _ _ Hsig Hfsig) as [Hpsig [ksig' Hksig]].
  apply read_inv in Hrd as (kr & Hkr & Hrdat & _).
  rewrite <- (resolve_ext cwd _ _ _ Hs13) in Hkr.
  assert (Hq : q <> "").
  { destruct (FS.isdir cwd fs1 q) eqn:E.
    - apply isdir_inv in E as (k & Hk & _). by eapply resolve_not_empty.
    - by eapply resolve_not_empty. }
  unfold staged_input in Hkr. fold q in Hkr.
  rewrite (resolve_join cwd fs1 q _ Hq Hpin) in Hkr.
  destruct (FS.resolve cwd fs1 q) as [kq|] eqn:Hkq; [|done].
  destruct (FS.is_dir fs1 kq) eqn:Hkqd; [|done].
  injection Hkr as <-.
  assert (Hisd : FS.isdir cwd fs1 q = true)
    by (unfold FS.isdir; by rewrite Hkq).
  rewrite Hisd in Hd1, Hd2.
  rewrite (resolve_join cwd fs1 q _ Hq Hpin), Hkq, Hkqd in Hd1.
  rewrite (resolve_join cwd fs1 q _ Hq Hpsig), Hkq, Hkqd in Hd2.
  injection Hd1 as <-. injection Hd2 as <-.
  (* the caller's signature is not the staged input *)
  assert (Hsig1 : k_sig <> kq ++ [Path.basename (Args.input_path args)]).
  { intros E. rewrite E in Hksig. apply snoc_inj in Hksig as [-> Hb].
    apply Hne2. by rewrite E, Hb. }
  assert (Hin2 : k_in <> kq ++ [Path.basename (Args.sig_path args)]).
  { intros E. rewrite E in Hkin. apply snoc_inj in Hkin as [-> Hb].
    apply Hne1. by rewrite E, Hb. }
  rewrite lookup_insert_ne in Hsigd by done.
  exists fs1, kq, k_in, k_sig, d_in, d_sig. split; [done|].
  split; try done.
  - split; by eapply is_dir_false_not_root.
  - unfold staged_input_at, staged_sig_at. case_decide as Hd.
    + rewrite Hd, lookup_insert_eq in Hrdat. by injection Hrdat.
    + rewrite lookup_insert_ne, lookup_insert_eq in Hrdat by done.
      by injection Hrdat.
  - unfold sig_found, staged_sig. fold q cwd.
    erewrite read_intro; [done| | |apply lookup_insert_eq].
    + rewrite <- (resolve_ext cwd _ _ _ Hs13).
      by rewrite (resolve_join cwd fs1 q _ Hq Hpsig), Hkq, Hkqd.
    + by destruct kq.
Qed.

Lemma staged_staging env argv fs args w0 there fs3 :
  staged env argv fs args w0 there fs3 -> staging env fs args = Ok fs3.
Proof.
  intros (_ & _ & fs1 & fs2 & [Hex Hfs1] & Hc1 & Hc2).
  unfold staging. rewrite Hex.
  destruct there; [subst fs1|rewrite Hfs1]; by rewrite Hc1.
Qed.

Lemma verified_layout env argv fs args w0 there fs3 data v :
  verified env argv fs args w0 there fs3 data v ->
  exists fs1 kq k_in k_sig d_in d_sig,
    prepared env fs args there fs1 /\
    layout env args fs1 fs3 data kq k_in k_sig d_in d_sig.
Proof. intros (Hs & Hrd & _). by eapply staged_layout. Qed.

(** The staged paths resolve into the quarantine directory in every file
    system with the directories of [fs1]. *)
Lemma layout_resolve env args fs1 fs3 data kq k_in k_sig d_in d_sig fs' :
  layout env args fs1 fs3 data kq k_in k_sig d_in d_sig ->
  FS.same_dirs fs1 fs' ->
  FS.resolve (e_cwd env) fs' (quarantine env args) = Some kq /\
  FS.is_dir fs' kq = true /\
  FS.resolve (e_cwd env) fs' (staged_input env args)
  = Some (staged_input_at args kq) /\
  FS.resolve (e_cwd env) fs' (staged_sig env args)
  = Some (staged_sig_at args kq) /\
  FS.resolve (e_cwd env) fs' (Args.input_path args) = Some k_in /\
  FS.resolve (e_cwd env) fs' (Args.sig_path args) = Some k_sig.
Proof.
  intros L Hs.
  destruct L as [Ldirs Lq Lqd Lpin Lpsig Lin Lind Lsig Lsigd Lfiles Lina
                 Lsiga Lfs3 Ldata Lfound].
  assert (Hq : quarantine env args <> "") by by eapply resolve_not_empty.
  rewrite <- !(resolve_ext _ _ _ _ Hs), <- (Hs kq).
  unfold staged_input, staged_sig.
  rewrite !resolve_join, Lq, Lqd by done.
  done.
Qed.

Lemma layout_lookup env args fs1 fs3 data kq k_in k_sig d_in d_sig :
  layout env args fs1 fs3 data kq k_in k_sig d_in d_sig ->
  fs3 !! staged_input_at args kq = Some (FS.File data) /\
  fs3 !! staged_sig_at args kq = Some (FS.File d_sig) /\
  fs3 !! k_in = Some (FS.File d_in) /\
  fs3 !! k_sig = Some (FS.File d_sig) /\
  staged_input_at args kq <> [] /\ staged_sig_at args kq <> [].
Proof.
  intros L.
  destruct L as [Ldirs Lq Lqd Lpin Lpsig Lin Lind Lsig Lsigd Lfiles Lina
                 Lsiga Lfs3 Ldata Lfound].
  subst fs3 data.
  destruct Lina, Lsiga.
  rewrite lookup_insert_eq. rewrite !(lookup_insert_ne _ _ k_in) by done.
  rewrite !(lookup_insert_ne _ _ k_sig) by done.
  repeat split; try done;
    try (unfold staged_input_at, staged_sig_at; by destruct kq).
  case_decide as Hd.
  - by rewrite Hd, lookup_insert_eq.
  - by rewrite lookup_insert_ne, lookup_insert_eq.
Qed.

(** The move of the staged input, seen from the layout. *)
Lemma layout_moved env args fs1 fs3 data kq k_in k_sig d_in d_sig fs4 :
  layout env args fs1 fs3 data kq k_in k_sig d_in d_sig ->
  FS.move (e_cwd env) fs3 (staged_input env args) (Args.output_path args)
  = Ok fs4 ->
  exists ko,
    ko <> [] /\
    fs4 = <[ko := FS.File data]> (delete (staged_input_at args kq) fs3) /\
    FS.same_dirs fs1 fs4 /\
    (FS.isdir (e_cwd env) fs4 (Args.output_path args) = false ->
     FS.resolve (e_cwd env) fs4 (Args.output_path args) = Some ko).
Proof.
  intros L Hmv.
  destruct (layout_resolve _ _ _ _ _ _ _ _ _ _ fs3 L
              (lay_dirs _ _ _ _ _ _ _ _ _ _ L)) as (_ & _ & Hip & _).
  destruct (layout_lookup _ _ _ _ _ _ _ _ _ _ L) as (Hl & _ & _ & _ & Hne & _).
  destruct (move_inv _ _ _ _ _ _ _ Hip Hl Hne Hmv) as (ko & Hko & -> & Hres).
  assert (Hs34 : FS.same_dirs fs3
            (<[ko := FS.File data]> (delete (staged_input_at args kq) fs3))).
  { assert (Hsd : FS.same_dirs fs3 (delete (staged_input_at args kq) fs3))
      by (apply (same_dirs_delete_file fs3 _ data); by apply node_file_lookup).
    eapply same_dirs_trans; [exact Hsd|].
    apply same_dirs_insert_file. by rewrite <- (Hsd ko). }
  exists ko. split; [by eapply is_dir_false_not_root|]. split; [done|].
  split; [eapply same_dirs_trans; [apply L|done]|].
  rewrite <- (isdir_ext _ _ _ _ Hs34), <- (resolve_ext _ _ _ _ Hs34). done.
Qed.

Lemma layout_removed env args fs1 fs3 data kq k_in k_sig d_in d_sig fs4 fs5 :
  layout env args fs1 fs3 data kq k_in k_sig d_in d_sig ->
  FS.same_dirs fs1 fs4 ->
  FS.remove (e_cwd env) fs4 (staged_sig env args) = Ok fs5 ->
  is_Some (fs4 !! staged_sig_at args kq) /\
  fs5 = delete (staged_sig_at args kq) fs4 /\
  FS.same_dirs fs1 fs5.
Proof.
  intros L Hs Hrm.
  destruct (layout_resolve _ _ _ _ _ _ _ _ _ _ fs4 L Hs)
    as (_ & _ & _ & Hsp & _).
  apply remove_inv in Hrm as (k & d & Hk & Hl & ->).
  rewrite Hsp in Hk. injection Hk as <-.
  split; [by eexists|]. split; [done|].
  eapply same_dirs_trans; [done|].
  apply (same_dirs_delete_file fs4 _ d). apply node_file_lookup.
  split; [|done]. unfold staged_sig_at. by destruct kq.
Qed.

(** What a caller's file held before the run, if it could be read then. *)
Lemma original_content env fs args there fs1 kq p k d :
  prepared env fs args there fs1 ->
  FS.resolve (e_cwd env) fs1 (quarantine env args) = Some kq ->
  FS.resolve (e_cwd env) fs1 p = Some k -> fs1 !! k = Some (FS.File d) ->
  forall d0, FS.read (e_cwd env) fs p = Ok d0 -> d0 = d.
Proof.
  intros Hprep Hq Hk Hl d0 Hrd.
  destruct (prepared_frame _ _ _ _ _ _ Hprep Hq) as [Hm Hfs].
  apply read_inv in Hrd as (k0 & Hk0 & Hl0 & _).
  apply (resolve_mono _ _ _ _ _ Hm) in Hk0. rewrite Hk0 in Hk.
  injection Hk as ->.
  destruct Hfs as [->|[Hnone ->]]; [congruence|].
  destruct (decide (kq = k)) as [->|Hne]; [congruence|].
  rewrite lookup_insert_ne in Hl by done. congruence.
Qed.

Lemma exists_deleted (cwd : FS.key) (fs : FS.t) p k :
  FS.resolve cwd (delete k fs) p = Some k -> k <> [] ->
  FS.exists_ cwd (delete k fs) p = false.
Proof.
  intros Hr Hne. unfold FS.exists_. rewrite Hr. unfold FS.present.
  destruct k; [done|]. simpl. by rewrite lookup_delete_eq.
Qed.

(** ** The claims *)

(** Membership in a list that has been computed. *)
Ltac pick := repeat (first [left; reflexivity | right]).

Lemma run_way env argv fs st w :
  run env argv fs = (st, w) -> way env argv fs st w.
Proof.
  intros H. pose proof (main_way env argv fs) as Hw. by rewrite H in Hw.
Qed.

(** Take the run apart: one goal per way, with the calls of that way. *)
Ltac ways Hrun :=
  apply run_way in Hrun; inversion Hrun; subst; clear Hrun.

Ltac same_args :=
  try match goal with
  | H : verified _ _ _ _ _ _ _ _ _ |- _ =>
      pose proof (proj1 (proj1 (proj1 H)))
  end;
  try match goal with
  | H : staged _ _ _ _ _ _ _ |- _ => pose proof (proj1 (proj1 H))
  end;
  try match goal with
  | H : started _ _ _ _ _ |- _ => pose proof (proj1 H)
  end;
  repeat match goal with
  | Hp : parse_args ?argv ?w = (Return ?a, _),
    Hq : parse_args ?argv ?w = (Return ?b, _) |- _ =>
      rewrite Hp in Hq; injection Hq as <-
  | Hp : parse_args ?argv ?w = (Return _, _),
    Hq : parse_args ?argv ?w = (Exit _, _) |- _ =>
      rewrite Hp in Hq; discriminate Hq
  end.

Ltac in_calls H :=
  unfold world, calls_moved, calls_verified, calls_staged, calls_prepare in H;
  cbn [w_calls] in H;
  repeat match type of H with
  | context [if ?b then _ else _] => destruct b
  end;
  simpl in H;
  repeat match type of H with
  | _ \/ _ => destruct H as [H|H]
  | False => destruct H
  | _ = _ => try discriminate H
  end.

(** The way through [log_init] made no call. *)
Ltac empty_calls H :=
  match goal with
  | E : w_calls _ = [] |- _ => rewrite E in H; destruct H
  end.

(** The layout of the way at hand. *)
Ltac layout_of L :=
  match goal with
  | H : verified _ _ _ _ _ _ _ _ _ |- _ =>
      destruct (verified_layout _ _ _ _ _ _ _ _ _ H)
        as (?fs1 & ?kq & ?k_in & ?k_sig & ?d_in & ?d_sig & ?Hprep & L)
  | H : staged _ _ _ _ _ _ _, R : FS.read _ _ _ = Ok _ |- _ =>
      destruct (staged_layout _ _ _ _ _ _ _ _ H R)
        as (?fs1 & ?kq & ?k_in & ?k_sig & ?d_in & ?d_sig & ?Hprep & L)
  end.

(** C5.  When the engine handle cannot be created, the run ends with status
    1, the file system is the one it started with, and creating the handle
    is the only call that left the process: the quarantine directory is
    neither looked for nor made and nothing is copied. *)
Theorem gnupg_failure_leaves_files env argv fs homedir e :
  In (CallGPG homedir (Raised e)) (w_calls (run env argv fs).2) ->
  (run env argv fs).1 = 1 /\
  w_fs (run env argv fs).2 = fs /\
  w_calls (run env argv fs).2 = [CallGPG homedir (Raised e)].
Proof.
  destruct (run env argv fs) as [st w] eqn:Hrun. simpl. intros Hin.
  ways Hrun; try (in_calls Hin; fail).
  - empty_calls Hin.
  - in_calls Hin. by injection Hin as <- <-.
Qed.

(** The engine of [no_engine_env] does not start. *)
Lemma gnupg_failure_leaves_files_witness :
  In (CallGPG "~/.gnupg" (Raised (EngineError "no such home directory")))
     (w_calls (run no_engine_env (sample_argv "/out/a.bin") sample_fs).2) /\
  (run no_engine_env (sample_argv "/out/a.bin") sample_fs).1 = 1 /\
  w_fs (run no_engine_env (sample_argv "/out/a.bin") sample_fs).2
  = sample_fs.
Proof.
  assert (Hin : In (CallGPG "~/.gnupg"
                      (Raised (EngineError "no such home directory")))
                  (w_calls (run no_engine_env (sample_argv "/out/a.bin")
                              sample_fs).2))
    by (vm_compute; pick).
  split; [exact Hin|].
  destruct (gnupg_failure_leaves_files no_engine_env
              (sample_argv "/out/a.bin") sample_fs "~/.gnupg"
              (EngineError "no such home directory") Hin) as (H1 & H2 & _).
  split; [exact H1|exact H2].
Defined.

(** An argument that ends the program where [consume] reaches it. *)
Lemma consume_stops a st before : forall ns after,
  stops a = Some st ->
  exists status, consume ns (before ++ a :: after) = inl status /\
    (status = st \/ status = usage_error \/
     status = 0 /\ (In ArgVersion before \/ In ArgHelp before)).
Proof.
  induction before as [|b before IH]; intros ns after Ha.
  { exists st. split; [|by left].
    destruct a as [v|v|v|[n|]|v|v|v| | | |v|]; simpl in *;
      try discriminate Ha; try (by injection Ha as <-);
      case_bool_decide; try discriminate Ha; by injection Ha as <-. }
  assert (Hrec : forall ns',
    exists status, consume ns' (before ++ a :: after) = inl status /\
      (status = st \/ status = usage_error \/
       status = 0 /\ (In ArgVersion (b :: before) \/ In ArgHelp (b :: before)))).
  { intros ns'. destruct (IH ns' after Ha) as (c & Hc & Hs).
    exists c. split; [done|]. simpl. tauto. }
  destruct b as [v|v|v|[n|]|v|v|v| | | |v|]; simpl;
    try (by apply Hrec);
    try (exists usage_error; tauto);
    try (exists 0; tauto);
    case_bool_decide; first [by apply Hrec | exists usage_error; tauto].
Qed.

(** C8, as the code has it.  A command line that gives [--trust-level] a
    value other than 2, 3 and 4, or a text that [int] refuses, never gets
    out of [parse_args]: the program ends there and the world is the one it
    booted in: no file touched, no engine, no call.  It ends with the usage
    error, unless [-V] or [-h] comes before the option on the command
    line: then it may end with status 0, which is no rejection. *)
Theorem bad_trust_level_rejected env fs before v after :
  v <> Some 2 -> v <> Some 3 -> v <> Some 4 ->
  exists status,
    parse_args (before ++ ArgTrustLevel v :: after) (boot fs)
    = (Exit status, boot fs) /\
    run env (before ++ ArgTrustLevel v :: after) fs = (status, boot fs) /\
    (status = usage_error \/
     status = 0 /\ (In ArgVersion before \/ In ArgHelp before)).
Proof.
  intros H2 H3 H4.
  assert (Hst : stops (ArgTrustLevel v) = Some usage_error).
  { destruct v as [z|]; [|done]. simpl. rewrite bool_decide_eq_false_2; [done|].
    unfold trust_choices. rewrite !not_elem_of_cons.
    repeat split; try congruence. apply not_elem_of_nil. }
  destruct (consume_stops _ _ before defaults after Hst) as (c & Hc & Hs).
  exists c.
  assert (Hp : parse_args (before ++ ArgTrustLevel v :: after) (boot fs)
               = (Exit c, boot fs))
    by (unfold parse_args; by rewrite Hc).
  split; [done|]. split; [|tauto].
  unfold run, main, mbind, M_bind. by rewrite Hp.
Qed.

(** The sample command line with [--trust-level 5] at its end. *)
Lemma bad_trust_level_rejected_witness :
  Some 5 <> Some 2 /\ Some 5 <> Some 3 /\ Some 5 <> Some 4 /\
  exists status,
    parse_args (sample_argv "/out/a.bin" ++ ArgTrustLevel (Some 5) :: [])
      (boot sample_fs)
    = (Exit status, boot sample_fs) /\
    run no_engine_env
      (sample_argv "/out/a.bin" ++ ArgTrustLevel (Some 5) :: []) sample_fs
    = (status, boot sample_fs) /\
    (status = usage_error \/
     status = 0 /\
     (In ArgVersion (sample_argv "/out/a.bin") \/
      In ArgHelp (sample_argv "/out/a.bin"))).
Proof.
  assert (H2 : Some 5 <> Some 2) by discriminate.
  assert (H3 : Some 5 <> Some 3) by discriminate.
  assert (H4 : Some 5 <> Some 4) by discriminate.
  split; [exact H2|]. split; [exact H3|]. split; [exact H4|].
  exact (bad_trust_level_rejected no_engine_env sample_fs
           (sample_argv "/out/a.bin") (Some 5) [] H2 H3 H4).
Defined.

(** C8 as stated fails where [-V] comes first: the version is printed and
    the program ends with status 0, the value 5 of [--trust-level] never
    looked at.  The same with a text that is no integer. *)
Lemma bad_trust_level_not_always_rejected :
  let env := sample_env (Ok (verdict true 3)) in
  let argv := ArgVersion :: sample_argv "/out/a.bin" in
  In (ArgTrustLevel (Some 5)) (argv ++ [ArgTrustLevel (Some 5)]) /\
  run env (argv ++ [ArgTrustLevel (Some 5)]) sample_fs
  = (0, boot sample_fs) /\
  run env (argv ++ [ArgTrustLevel None]) sample_fs = (0, boot sample_fs).
Proof.
  split; [simpl; tauto|]. split; reflexivity.
Qed.

Lemma layout_frame env fs args there fs1 fs3 data kq k_in k_sig d_in d_sig :
  prepared env fs args there fs1 ->
  layout env args fs1 fs3 data kq k_in k_sig d_in d_sig ->
  FS.resolve (e_cwd env) fs3 (quarantine env args) = Some kq /\
  forall k, k <> kq -> k <> staged_input_at args kq ->
            k <> staged_sig_at args kq -> fs3 !! k = fs !! k.
Proof.
  intros Hprep L. split.
  - rewrite <- (resolve_ext _ _ _ _ (lay_dirs _ _ _ _ _ _ _ _ _ _ L)).
    apply L.
  - intros k H1 H2 H3. rewrite (lay_fs3 _ _ _ _ _ _ _ _ _ _ L).
    rewrite !lookup_insert_ne by done.
    destruct (prepared_frame _ _ _ _ _ kq Hprep
                (lay_quarantine _ _ _ _ _ _ _ _ _ _ L)) as [_ [->|[_ ->]]];
      [done|by rewrite lookup_insert_ne].
Qed.

(** C3, as the code has it.  When the engine reports the signature invalid
    the run ends with status 1 and never calls the move.  The file system
    differs from the initial one at most at the quarantine directory and
    at the two staged copies, so the output path is left as it was unless
    it is one of these three. *)
Theorem invalid_signature_rejected env argv fs args f s d sd v :
  parse_args argv (boot fs) = (Return args, boot fs) ->
  In (CallVerifyFile f s d sd (Ok v)) (w_calls (run env argv fs).2) ->
  valid v = false ->
  (run env argv fs).1 = 1 /\
  (forall src dst, ~ In (CallMove src dst) (w_calls (run env argv fs).2)) /\
  exists kq,
    FS.resolve (e_cwd env) (w_fs (run env argv fs).2) (quarantine env args)
    = Some kq /\
    forall k, k <> kq -> k <> staged_input_at args kq ->
              k <> staged_sig_at args kq ->
              w_fs (run env argv fs).2 !! k = fs !! k.
Proof.
  destruct (run env argv fs) as [st w] eqn:Hrun. simpl. intros Hp Hin Hv.
  ways Hrun; same_args; try (in_calls Hin; fail); try (empty_calls Hin);
    try (in_calls Hin; injection Hin as <- <- <- <- <-; congruence).
  split; [done|]. split.
  - intros src dst Hmv. in_calls Hmv.
  - layout_of L. exists kq. by eapply layout_frame.
Qed.

(** The sample run with an engine that finds the signature invalid. *)
Lemma invalid_signature_rejected_witness :
  parse_args (sample_argv "/out/a.bin") (boot sample_fs)
  = (Return (sample_args "/out/a.bin"), boot sample_fs) /\
  In (CallVerifyFile "/q/a.bin" "/q/a.bin.sig" a_bin (Some a_bin_sig)
        (Ok (verdict false 0)))
     (w_calls (run (sample_env (Ok (verdict false 0)))
                 (sample_argv "/out/a.bin") sample_fs).2) /\
  valid (verdict false 0) = false /\
  (run (sample_env (Ok (verdict false 0)))
     (sample_argv "/out/a.bin") sample_fs).1 = 1.
Proof.
  assert (Hp : parse_args (sample_argv "/out/a.bin") (boot sample_fs)
               = (Return (sample_args "/out/a.bin"), boot sample_fs))
    by reflexivity.
  assert (Hin : In (CallVerifyFile "/q/a.bin" "/q/a.bin.sig" a_bin
                      (Some a_bin_sig) (Ok (verdict false 0)))
                  (w_calls (run (sample_env (Ok (verdict false 0)))
                              (sample_argv "/out/a.bin") sample_fs).2))
    by (vm_compute; pick).
  assert (Hv : valid (verdict false 0) = false) by reflexivity.
  split; [exact Hp|]. split; [exact Hin|]. split; [exact Hv|].
  exact (proj1 (invalid_signature_rejected (sample_env (Ok (verdict false 0)))
     (sample_argv "/out/a.bin") sample_fs (sample_args "/out/a.bin")
     "/q/a.bin" "/q/a.bin.sig" a_bin (Some a_bin_sig) (verdict false 0)
     Hp Hin Hv)).
Defined.

(** C3 as stated fails where the output path is the staged input: the
    signature is invalid, the run ends with status 1, and the output path,
    which named nothing before the run, names a copy of the input after
    it. *)
Lemma invalid_signature_may_create_output :
  let env := sample_env (Ok (verdict false 0)) in
  let staged := run env (sample_argv "/q/a.bin") sample_fs in
  In (CallVerifyFile "/q/a.bin" "/q/a.bin.sig" a_bin (Some a_bin_sig)
        (Ok (verdict false 0))) (w_calls staged.2) /\
  staged.1 = 1 /\
  FS.exists_ (e_cwd env) sample_fs "/q/a.bin" = false /\
  FS.read (e_cwd env) (w_fs staged.2) "/q/a.bin" = Ok a_bin.
Proof.
  vm_compute. split; [pick|repeat split].
Qed.

(** C2, as the code has it.  Among the runs that got through [parse_args],
    status 2 is that of a valid signature with a trust level under the
    required one, and of nothing else.  Such a run never calls the move, and
    its file system differs from the initial one at most at the quarantine
    directory and at the two staged copies, so the output path is left as
    it was unless it is one of these three. *)
Theorem insufficient_trust_rejected env argv fs args :
  parse_args argv (boot fs) = (Return args, boot fs) ->
  ((exists f s d sd v level,
      In (CallVerifyFile f s d sd (Ok v)) (w_calls (run env argv fs).2) /\
      valid v = true /\
      trust_level v = Some level /\
      level < Args.required_trust_level args)
   <-> (run env argv fs).1 = 2) /\
  ((run env argv fs).1 = 2 ->
   (forall src dst, ~ In (CallMove src dst) (w_calls (run env argv fs).2)) /\
   exists kq,
     FS.resolve (e_cwd env) (w_fs (run env argv fs).2) (quarantine env args)
     = Some kq /\
     forall k, k <> kq -> k <> staged_input_at args kq ->
               k <> staged_sig_at args kq ->
               w_fs (run env argv fs).2 !! k = fs !! k).
Proof.
  destruct (run env argv fs) as [st w] eqn:Hrun. simpl. intros Hp.
  ways Hrun; same_args;
    (split;
     [split; [intros (f & s & d & sd & v' & l' & Hin & Hv & Hl & Ht)
             |intros [=]]
     |intros Hst; try discriminate Hst]);
    try (in_calls Hin; fail); try (empty_calls Hin);
    try (in_calls Hin; injection Hin as <- <- <- <- <-;
         solve [congruence | rewrite Hl in *; simplify_eq; lia]).
  - exists (staged_input env args), (staged_sig env args), data,
      (sig_found env args fs3), v, level.
    split; [|done]. unfold world, calls_verified. cbn [w_calls].
    apply in_or_app. right. simpl. tauto.
  - split.
    + intros src dst Hmv. in_calls Hmv.
    + layout_of L. exists kq. by eapply layout_frame.
Qed.

(** The sample run with a marginally trusted key. *)
Lemma insufficient_trust_rejected_witness :
  parse_args (sample_argv "/out/a.bin") (boot sample_fs)
  = (Return (sample_args "/out/a.bin"), boot sample_fs) /\
  (run (sample_env (Ok (verdict true 2)))
     (sample_argv "/out/a.bin") sample_fs).1 = 2 /\
  exists f s d sd v level,
    In (CallVerifyFile f s d sd (Ok v))
       (w_calls (run (sample_env (Ok (verdict true 2)))
                   (sample_argv "/out/a.bin") sample_fs).2) /\
    valid v = true /\
    trust_level v = Some level /\
    level < Args.required_trust_level (sample_args "/out/a.bin").
Proof.
  assert (Hp : parse_args (sample_argv "/out/a.bin") (boot sample_fs)
               = (Return (sample_args "/out/a.bin"), boot sample_fs))
    by reflexivity.
  assert (Hst : (run (sample_env (Ok (verdict true 2)))
                   (sample_argv "/out/a.bin") sample_fs).1 = 2)
    by (vm_compute; reflexivity).
  split; [exact Hp|]. split; [exact Hst|].
  pose proof (insufficient_trust_rejected (sample_env (Ok (verdict true 2)))
     (sample_argv "/out/a.bin") sample_fs (sample_args "/out/a.bin") Hp)
    as ((_ & Hback) & _).
  exact (Hback Hst).
Defined.

(** C2 as stated fails twice.  Where the output path is the staged input,
    the run ends with status 2 and the output path, which named nothing
    before the run, names a copy of the input after it.  And status 2 is
    also how [parse_args] turns down [--trust-level 5], before any call. *)
Lemma insufficient_trust_not_distinct :
  let env := sample_env (Ok (verdict true 2)) in
  let staged := run env (sample_argv "/q/a.bin") sample_fs in
  let refused :=
    run env (sample_argv "/out/a.bin" ++ [ArgTrustLevel (Some 5)]) sample_fs in
  (In (CallVerifyFile "/q/a.bin" "/q/a.bin.sig" a_bin (Some a_bin_sig)
         (Ok (verdict true 2))) (w_calls staged.2) /\
   staged.1 = 2 /\
   FS.exists_ (e_cwd env) sample_fs "/q/a.bin" = false /\
   FS.read (e_cwd env) (w_fs staged.2) "/q/a.bin" = Ok a_bin) /\
  (refused.1 = 2 /\ w_calls refused.2 = []).
Proof.
  vm_compute. split; [split; [pick|repeat split]|split; reflexivity].
Qed.

(** C10.  When the engine has answered and the run is turned away at the
    gate, for an invalid signature or for a trust level under the required
    one, it ends with status 1 or 2, both staged copies are still readable
    with the contents the engine saw, and neither the move nor the removal
    was called. *)
Theorem rejected_copies_remain env argv fs args f s d sd v level :
  parse_args argv (boot fs) = (Return args, boot fs) ->
  In (CallVerifyFile f s d sd (Ok v)) (w_calls (run env argv fs).2) ->
  valid v = false \/
  trust_level v = Some level /\ level < Args.required_trust_level args ->
  ((run env argv fs).1 = 1 \/ (run env argv fs).1 = 2) /\
  FS.read (e_cwd env) (w_fs (run env argv fs).2) (staged_input env args)
  = Ok d /\
  (exists d_sig,
     sd = Some d_sig /\
     FS.read (e_cwd env) (w_fs (run env argv fs).2) (staged_sig env args)
     = Ok d_sig) /\
  (forall src dst, ~ In (CallMove src dst) (w_calls (run env argv fs).2)) /\
  (forall p, ~ In (CallRemove p) (w_calls (run env argv fs).2)).
Proof.
  destruct (run env argv fs) as [st w] eqn:Hrun. simpl. intros Hp Hin Hv.
  ways Hrun; same_args; try (in_calls Hin; fail); try (empty_calls Hin);
    try (in_calls Hin; injection Hin as <- <- <- <- <-;
         destruct Hv as [Hv|[Hl Hv]];
         solve [congruence | rewrite Hl in *; simplify_eq; lia]).
  all: layout_of L.
  all: match goal with H : verified _ _ _ _ _ _ _ _ _ |- _ =>
         destruct H as (_ & Hrd & _) end.
  all: pose proof (lay_found _ _ _ _ _ _ _ _ _ _ L) as Hfound.
  all: in_calls Hin; injection Hin as <- <- <- <- <-.
  all: split; [tauto|]; split; [done|]; split;
    [|split; [intros src dst Hmv; in_calls Hmv|intros p Hrm; in_calls Hrm]].
  all: exists d_sig; split; [done|].
  all: unfold world; cbn [w_fs]; unfold sig_found in Hfound;
    destruct (FS.read (e_cwd env) fs3 (staged_sig env args)); congruence.
Qed.

(** The sample run with a marginally trusted key. *)
Lemma rejected_copies_remain_witness :
  parse_args (sample_argv "/out/a.bin") (boot sample_fs)
  = (Return (sample_args "/out/a.bin"), boot sample_fs) /\
  In (CallVerifyFile "/q/a.bin" "/q/a.bin.sig" a_bin (Some a_bin_sig)
        (Ok (verdict true 2)))
     (w_calls (run (sample_env (Ok (verdict true 2)))
                 (sample_argv "/out/a.bin") sample_fs).2) /\
  (valid (verdict true 2) = false \/
   trust_level (verdict true 2) = Some 2 /\
   2 < Args.required_trust_level (sample_args "/out/a.bin")) /\
  FS.read (e_cwd (sample_env (Ok (verdict true 2))))
    (w_fs (run (sample_env (Ok (verdict true 2)))
             (sample_argv "/out/a.bin") sample_fs).2)
    (staged_input (sample_env (Ok (verdict true 2)))
       (sample_args "/out/a.bin"))
  = Ok a_bin.
Proof.
  assert (Hp : parse_args (sample_argv "/out/a.bin") (boot sample_fs)
               = (Return (sample_args "/out/a.bin"), boot sample_fs))
    by reflexivity.
  assert (Hin : In (CallVerifyFile "/q/a.bin" "/q/a.bin.sig" a_bin
                      (Some a_bin_sig) (Ok (verdict true 2)))
                  (w_calls (run (sample_env (Ok (verdict true 2)))
                              (sample_argv "/out/a.bin") sample_fs).2))
    by (vm_compute; pick).
  assert (Hv : valid (verdict true 2) = false \/
               trust_level (verdict true 2) = Some 2 /\
               2 < Args.required_trust_level (sample_args "/out/a.bin"))
    by (right; split; [reflexivity|simpl; lia]).
  split; [exact Hp|]. split; [exact Hin|]. split; [exact Hv|].
  exact (proj1 (proj2 (rejected_copies_remain
     (sample_env (Ok (verdict true 2)))
     (sample_argv "/out/a.bin") sample_fs (sample_args "/out/a.bin")
     "/q/a.bin" "/q/a.bin.sig" a_bin (Some a_bin_sig) (verdict true 2) 2
     Hp Hin Hv))).
Defined.

(** The file system a way ends in has the directories of [fs1]. *)
Ltac final_dirs L Hd :=
  first
  [ match goal with
    | Hmv : FS.move _ _ _ _ = Ok _, Hrm : FS.remove _ _ _ = Ok _ |- _ =>
        let ko := fresh "ko" in
        let Hs := fresh "Hs14" in
        destruct (layout_moved _ _ _ _ _ _ _ _ _ _ _ L Hmv)
          as (ko & ?Hko & ?Hfs4 & Hs & ?Hout);
        destruct (layout_removed _ _ _ _ _ _ _ _ _ _ _ _ L Hs Hrm)
          as (?Hsp & ?Hfs5 & Hd)
    end
  | match goal with
    | Hmv : FS.move _ _ _ _ = Ok _ |- _ =>
        let ko := fresh "ko" in
        destruct (layout_moved _ _ _ _ _ _ _ _ _ _ _ L Hmv)
          as (ko & ?Hko & ?Hfs4 & Hd & ?Hout)
    end
  | pose proof (lay_dirs _ _ _ _ _ _ _ _ _ _ L) as Hd ].

(** C7.  In a run that got through [parse_args], the file that is opened,
    verified and moved is the staged input and the signature that is
    verified and removed is the staged signature (the move goes to the
    output path).  Once the engine has been called, both staged paths lead
    to entries of the quarantine directory, at locations other than those
    of the caller's input and signature. *)
Theorem staged_paths_only env argv fs args :
  parse_args argv (boot fs) = (Return args, boot fs) ->
  (forall p, In (CallOpen p) (w_calls (run env argv fs).2) ->
     p = staged_input env args) /\
  (forall f s d sd r,
     In (CallVerifyFile f s d sd r) (w_calls (run env argv fs).2) ->
     f = staged_input env args /\ s = staged_sig env args) /\
  (forall src dst, In (CallMove src dst) (w_calls (run env argv fs).2) ->
     src = staged_input env args /\ dst = Args.output_path args) /\
  (forall p, In (CallRemove p) (w_calls (run env argv fs).2) ->
     p = staged_sig env args) /\
  ((exists f s d sd r,
      In (CallVerifyFile f s d sd r) (w_calls (run env argv fs).2)) ->
   exists kq k_in k_sig,
     FS.resolve (e_cwd env) (w_fs (run env argv fs).2) (quarantine env args)
     = Some kq /\
     FS.is_dir (w_fs (run env argv fs).2) kq = true /\
     FS.resolve (e_cwd env) (w_fs (run env argv fs).2) (staged_input env args)
     = Some (staged_input_at args kq) /\
     FS.resolve (e_cwd env) (w_fs (run env argv fs).2) (staged_sig env args)
     = Some (staged_sig_at args kq) /\
     FS.resolve (e_cwd env) (w_fs (run env argv fs).2) (Args.input_path args)
     = Some k_in /\
     FS.resolve (e_cwd env) (w_fs (run env argv fs).2) (Args.sig_path args)
     = Some k_sig /\
     k_in <> staged_input_at args kq /\ k_in <> staged_sig_at args kq /\
     k_sig <> staged_input_at args kq /\ k_sig <> staged_sig_at args kq).
Proof.
  destruct (run env argv fs) as [st w] eqn:Hrun. simpl. intros Hp.
  ways Hrun; same_args;
    (split; [intros p Hin|
     split; [intros f s d sd r Hin|
     split; [intros src dst Hin|
     split; [intros p Hin|
             intros (f & s & d & sd & r & Hin)]]]]);
    try (in_calls Hin; fail); try (empty_calls Hin);
    try (in_calls Hin; by injection Hin as <-);
    try (in_calls Hin; by injection Hin as <- <-);
    try (in_calls Hin; by injection Hin as <- <- <- <- <-).
  all: layout_of L; final_dirs L Hd.
  all: exists kq, k_in, k_sig.
  all: destruct (layout_resolve _ _ _ _ _ _ _ _ _ _ _ L Hd)
         as (? & ? & ? & ? & ? & ?).
  all: destruct (lay_input_apart _ _ _ _ _ _ _ _ _ _ L).
  all: destruct (lay_sig_apart _ _ _ _ _ _ _ _ _ _ L).
  all: by repeat split.
Qed.

(** The sample run, as far as the move. *)
Lemma staged_paths_only_witness :
  parse_args (sample_argv "/out/a.bin") (boot sample_fs)
  = (Return (sample_args "/out/a.bin"), boot sample_fs) /\
  forall src dst,
    In (CallMove src dst)
       (w_calls (run (sample_env (Ok (verdict true 3)))
                   (sample_argv "/out/a.bin") sample_fs).2) ->
    src = "/q/a.bin" /\ dst = "/out/a.bin".
Proof.
  assert (Hp : parse_args (sample_argv "/out/a.bin") (boot sample_fs)
               = (Return (sample_args "/out/a.bin"), boot sample_fs))
    by reflexivity.
  split; [exact Hp|].
  exact (proj1 (proj2 (proj2 (staged_paths_only
     (sample_env (Ok (verdict true 3)))
     (sample_argv "/out/a.bin") sample_fs (sample_args "/out/a.bin") Hp)))).
Defined.

(** C9.  When the input and the signature have the same basename, the two
    staged paths are one path, the engine is given that path twice, and
    what it reads as data is what it reads as signature: the contents of
    the caller's signature file, copied over the staged input. *)
Theorem same_basename_same_staged_file env argv fs args f s d sd r :
  parse_args argv (boot fs) = (Return args, boot fs) ->
  Path.basename (Args.input_path args) = Path.basename (Args.sig_path args) ->
  In (CallVerifyFile f s d sd r) (w_calls (run env argv fs).2) ->
  staged_input env args = staged_sig env args /\
  f = s /\
  sd = Some d /\
  forall d0, FS.read (e_cwd env) fs (Args.sig_path args) = Ok d0 -> d0 = d.
Proof.
  destruct (run env argv fs) as [st w] eqn:Hrun. simpl. intros Hp Hb Hin.
  assert (Hsame : staged_input env args = staged_sig env args)
    by (unfold staged_input, staged_sig; by rewrite Hb).
  ways Hrun; same_args; try (in_calls Hin; fail); try (empty_calls Hin).
  all: layout_of L.
  all: in_calls Hin; injection Hin as <- <- <- <- <-.
  all: pose proof (lay_data _ _ _ _ _ _ _ _ _ _ L) as Hdata.
  all: rewrite decide_True in Hdata
         by (unfold staged_input_at, staged_sig_at; by rewrite Hb).
  all: subst data.
  all: split; [done|]; split; [done|]; split; [apply L|].
  all: eapply original_content; [done|apply L|apply L|apply L].
Qed.

(** The twin installation: [/in/a.bin] signed by [/sigs/a.bin]. *)
Lemma same_basename_same_staged_file_witness :
  parse_args twin_argv (boot twin_fs) = (Return twin_args, boot twin_fs) /\
  Path.basename (Args.input_path twin_args)
  = Path.basename (Args.sig_path twin_args) /\
  In (CallVerifyFile "/q/a.bin" "/q/a.bin" a_bin_sig (Some a_bin_sig)
        (Ok (verdict true 3)))
     (w_calls (run (sample_env (Ok (verdict true 3))) twin_argv twin_fs).2) /\
  forall d0,
    FS.read (e_cwd (sample_env (Ok (verdict true 3)))) twin_fs "/sigs/a.bin"
    = Ok d0 -> d0 = a_bin_sig.
Proof.
  assert (Hp : parse_args twin_argv (boot twin_fs)
               = (Return twin_args, boot twin_fs)) by reflexivity.
  assert (Hb : Path.basename (Args.input_path twin_args)
               = Path.basename (Args.sig_path twin_args)) by reflexivity.
  assert (Hin : In (CallVerifyFile "/q/a.bin" "/q/a.bin" a_bin_sig
                      (Some a_bin_sig) (Ok (verdict true 3)))
                  (w_calls (run (sample_env (Ok (verdict true 3)))
                              twin_argv twin_fs).2))
    by (vm_compute; pick).
  split; [exact Hp|]. split; [exact Hb|]. split; [exact Hin|].
  exact (proj2 (proj2 (proj2 (same_basename_same_staged_file
     (sample_env (Ok (verdict true 3))) twin_argv twin_fs twin_args
     "/q/a.bin" "/q/a.bin" a_bin_sig (Some a_bin_sig)
     (Ok (verdict true 3)) Hp Hb Hin)))).
Defined.

(** C1, as the code has it.  When the engine reports the signature valid
    with a trust level at or above the required one, staging has gone
    through, the move of the staged input to the output path is called
    and the run ends with status 0 or 1.  It ends with 0 exactly when the
    move succeeds on the file system staging has left and the removal of
    the staged signature succeeds after it.  Otherwise it ends with 1
    through the handler of lines 221 to 225, and the last record handed
    out is the error about the output file.  When it ends with 0 the
    staged signature is gone and, if the output path is not a directory
    and is not the staged signature itself, the output file holds the
    bytes the engine verified, which are those of the caller's input
    file.  Nothing is said on when the two calls succeed. *)
Theorem trusted_signature_released env argv fs args f s d sd v level :
  parse_args argv (boot fs) = (Return args, boot fs) ->
  In (CallVerifyFile f s d sd (Ok v)) (w_calls (run env argv fs).2) ->
  valid v = true ->
  trust_level v = Some level ->
  Args.required_trust_level args <= level ->
  In (CallMove (staged_input env args) (Args.output_path args))
     (w_calls (run env argv fs).2) /\
  ((run env argv fs).1 = 0 \/ (run env argv fs).1 = 1) /\
  (exists fs3,
     staging env fs args = Ok fs3 /\
     ((run env argv fs).1 = 0 <->
      exists fs4,
        FS.move (e_cwd env) fs3 (staged_input env args)
          (Args.output_path args) = Ok fs4 /\
        FS.remove (e_cwd env) fs4 (staged_sig env args)
        = Ok (w_fs (run env argv fs).2))) /\
  ((run env argv fs).1 = 1 ->
   exists e h before,
     Logging.handlers (w_logger (run env argv fs).2) = [h] /\
     w_emitted (run env argv fs).2
     = before
       ++ [(h, {| r_level := Logging.ERROR;
                  r_msg := MsgCreateFailed (Args.output_path args) e |})]) /\
  ((run env argv fs).1 = 0 ->
   FS.exists_ (e_cwd env) (w_fs (run env argv fs).2) (staged_sig env args)
   = false /\
   (FS.isdir (e_cwd env) (w_fs (run env argv fs).2) (Args.output_path args)
    = false ->
    FS.resolve (e_cwd env) (w_fs (run env argv fs).2) (Args.output_path args)
    <> FS.resolve (e_cwd env) (w_fs (run env argv fs).2)
         (staged_sig env args) ->
    FS.read (e_cwd env) (w_fs (run env argv fs).2) (Args.output_path args)
    = Ok d /\
    FS.read (e_cwd env) (w_fs (run env argv fs).2) (Args.input_path args)
    = Ok d /\
    forall d0,
      FS.read (e_cwd env) fs (Args.input_path args) = Ok d0 -> d0 = d)).
Proof.
  destruct (run env argv fs) as [st w] eqn:Hrun. simpl.
  intros Hp Hin Hv Hl Ht.
  ways Hrun; same_args; try (in_calls Hin; fail); try (empty_calls Hin);
    try (in_calls Hin; injection Hin as <- <- <- <- <-;
         solve [congruence | rewrite Hl in *; simplify_eq; lia]).
  all: (split;
        [unfold world, calls_moved; cbn [w_calls]; rewrite !in_app_iff;
         simpl; tauto|]).
  all: match goal with H : verified _ _ _ _ ?w0 _ _ _ _ |- _ =>
         pose proof (staged_staging _ _ _ _ _ _ _ (proj1 H)) as Hstaging;
         pose proof (proj2 (proj1 (proj1 H))) as Hli;
         apply log_init_logger in Hli; [|done];
         destruct Hli as (h0 & Hh & Hlvl & _)
       end.
  all: assert (Hle : Logging.level (w_logger w0) <= Logging.ERROR)
         by (rewrite Hlvl; by destruct (Args.log_verbose args)).
  - (* the move failed *)
    split; [by right|]. split; [|split; [|done]].
    + exists fs3. split; [done|]. split; [done|].
      intros (fs4 & Hmv & _). congruence.
    + intros _. eexists e, h0, _. split; [done|].
      unfold world. cbn [w_emitted]. unfold msg_create_failed.
      by apply logs_snoc.
  - (* the removal failed *)
    split; [by right|]. split; [|split; [|done]].
    + exists fs3. split; [done|]. split; [done|].
      intros (fs4' & Hmv & Hrm). unfold world in Hrm. cbn [w_fs] in Hrm.
      congruence.
    + intros _. eexists e, h0, _. split; [done|].
      unfold world. cbn [w_emitted]. unfold msg_create_failed.
      by apply logs_snoc.
  - (* success *)
    split; [by left|]. split; [|split; [done|]].
    { exists fs3. split; [done|]. split; [|done]. intros _. by exists fs4. }
    intros _.
    layout_of L. final_dirs L Hd15.
    assert (d = data) as -> by (clear - Hin; in_calls Hin; by injection Hin).
    unfold world. cbn [w_fs].
    destruct (layout_resolve _ _ _ _ _ _ _ _ _ _ fs5 L Hd15)
      as (Hq5 & _ & _ & Hsp5 & Hin5 & _).
    destruct (layout_lookup _ _ _ _ _ _ _ _ _ _ L)
      as (Hlip & Hlsp & Hlin & _ & Hneip & Hnesp).
    destruct (lay_input_apart _ _ _ _ _ _ _ _ _ _ L) as [Hin1 Hin2].
    split.
    + rewrite Hfs5 in Hsp5 |- *. by apply exists_deleted.
    + intros Hd Hapart.
      assert (Hs45 : FS.same_dirs fs4 fs5).
      { intros x. by rewrite <- (Hs14 x), <- (Hd15 x). }
      rewrite <- (isdir_ext _ _ _ _ Hs45) in Hd.
      specialize (Hout Hd). rewrite (resolve_ext _ _ _ _ Hs45) in Hout.
      rewrite Hout, Hsp5 in Hapart.
      assert (Hko_sp : ko <> staged_sig_at args kq) by congruence.
      destruct Hsp as [x Hx]. rewrite Hfs4 in Hx.
      rewrite lookup_insert_ne in Hx by done.
      assert (Hip_sp : staged_input_at args kq <> staged_sig_at args kq).
      { intros E. by rewrite E, lookup_delete_eq in Hx. }
      pose proof (lay_data _ _ _ _ _ _ _ _ _ _ L) as Hdata.
      rewrite decide_False in Hdata by done. subst data.
      split; [|split].
      * eapply read_intro; [done|done|].
        subst fs5 fs4. rewrite lookup_delete_ne by congruence.
        apply lookup_insert_eq.
      * eapply read_intro; [done|apply L|].
        subst fs5 fs4. rewrite lookup_delete_ne by congruence.
        destruct (decide (ko = k_in)) as [->|Hk].
        -- apply lookup_insert_eq.
        -- rewrite lookup_insert_ne, lookup_delete_ne by congruence. done.
      * eapply original_content; [done|apply L|apply L|apply L].
Qed.

(** The sample run with a fully trusted key. *)
Lemma trusted_signature_released_witness :
  parse_args (sample_argv "/out/a.bin") (boot sample_fs)
  = (Return (sample_args "/out/a.bin"), boot sample_fs) /\
  In (CallVerifyFile "/q/a.bin" "/q/a.bin.sig" a_bin (Some a_bin_sig)
        (Ok (verdict true 3)))
     (w_calls (run (sample_env (Ok (verdict true 3)))
                 (sample_argv "/out/a.bin") sample_fs).2) /\
  valid (verdict true 3) = true /\
  trust_level (verdict true 3) = Some 3 /\
  Args.required_trust_level (sample_args "/out/a.bin") <= 3 /\
  (run (sample_env (Ok (verdict true 3)))
     (sample_argv "/out/a.bin") sample_fs).1 = 0 /\
  FS.read (e_cwd (sample_env (Ok (verdict true 3))))
    (w_fs (run (sample_env (Ok (verdict true 3)))
             (sample_argv "/out/a.bin") sample_fs).2)
    (Args.output_path (sample_args "/out/a.bin"))
  = Ok a_bin.
Proof.
  assert (Hp : parse_args (sample_argv "/out/a.bin") (boot sample_fs)
               = (Return (sample_args "/out/a.bin"), boot sample_fs))
    by reflexivity.
  assert (Hin : In (CallVerifyFile "/q/a.bin" "/q/a.bin.sig" a_bin
                      (Some a_bin_sig) (Ok (verdict true 3)))
                  (w_calls (run (sample_env (Ok (verdict true 3)))
                              (sample_argv "/out/a.bin") sample_fs).2))
    by (vm_compute; pick).
  assert (Hv : valid (verdict true 3) = true) by reflexivity.
  assert (Hl : trust_level (verdict true 3) = Some 3) by reflexivity.
  assert (Ht : Args.required_trust_level (sample_args "/out/a.bin") <= 3)
    by (simpl; lia).
  assert (Hst : (run (sample_env (Ok (verdict true 3)))
                   (sample_argv "/out/a.bin") sample_fs).1 = 0)
    by (vm_compute; reflexivity).
  split; [exact Hp|]. split; [exact Hin|]. split; [exact Hv|].
  split; [exact Hl|]. split; [exact Ht|]. split; [exact Hst|].
  destruct (trusted_signature_released (sample_env (Ok (verdict true 3)))
     (sample_argv "/out/a.bin") sample_fs (sample_args "/out/a.bin")
     "/q/a.bin" "/q/a.bin.sig" a_bin (Some a_bin_sig) (verdict true 3) 3
     Hp Hin Hv Hl Ht) as (_ & _ & _ & _ & Hzero).
  destruct (Hzero Hst) as (_ & Hout).
  apply Hout.
  - vm_compute. reflexivity.
  - vm_compute. discriminate.
Defined.

(** C1 as stated fails twice, with a valid signature of a fully trusted
    key both times.  Where the directory of the output path does not
    exist the move fails: status 1 and no output file.  Where the output
    path is the staged signature the file is moved there and then removed:
    status 0 and no output file. *)
Lemma trusted_signature_not_always_released :
  let env := sample_env (Ok (verdict true 3)) in
  let lost := run env (sample_argv "/nowhere/a.bin") sample_fs in
  let gone := run env (sample_argv "/q/a.bin.sig") sample_fs in
  (In (CallVerifyFile "/q/a.bin" "/q/a.bin.sig" a_bin (Some a_bin_sig)
         (Ok (verdict true 3))) (w_calls lost.2) /\
   lost.1 = 1 /\
   FS.exists_ (e_cwd env) (w_fs lost.2) "/nowhere/a.bin" = false) /\
  (In (CallVerifyFile "/q/a.bin" "/q/a.bin.sig" a_bin (Some a_bin_sig)
         (Ok (verdict true 3))) (w_calls gone.2) /\
   gone.1 = 0 /\
   FS.exists_ (e_cwd env) (w_fs gone.2) "/q/a.bin.sig" = false).
Proof.
  vm_compute. split; (split; [pick|split; reflexivity]).
Qed.

(** C4, as the code has it.  When the engine has answered with a valid
    signature, the handler gets the signer, the time of signing and the key
    in one [INFO] record ahead of the decision on trust, followed by the
    trust level: in the error when it is too low, else in a [DEBUG] record,
    which only a verbose run emits (and by nothing when the answer has no
    trust level to log).  The handler writes them out unless the log
    destination is [none].  When the answer is an invalid signature no
    record carries any of these. *)
Theorem audit_record_follows_validity env argv fs args f s d sd v :
  parse_args argv (boot fs) = (Return args, boot fs) ->
  In (CallVerifyFile f s d sd (Ok v)) (w_calls (run env argv fs).2) ->
  (valid v = true ->
   exists h before after,
     Logging.handlers (w_logger (run env argv fs).2) = [h] /\
     Logging.writes h = negb (String.eqb (Args.log_dest args) "none") /\
     w_emitted (run env argv fs).2 =
       before
       ++ [(h, {| r_level := Logging.INFO;
                  r_msg := MsgSignedAt (creation_date v) (username v)
                             (key_id v) |})]
       ++ trust_records args h v ++ after) /\
  (valid v = false ->
   forall h r, In (h, r) (w_emitted (run env argv fs).2) -> ~ audit (r_msg r)).
Proof.
  destruct (run env argv fs) as [st w] eqn:Hrun. simpl. intros Hp Hin.
  ways Hrun; same_args; try (in_calls Hin; fail); try (empty_calls Hin).
  all: assert (v0 = v) as -> by (clear - Hin; in_calls Hin; by injection Hin).
  all: split; [intros Hv|intros Hv h r Hr]; try congruence.
  all: match goal with H : verified _ _ _ _ ?w0 _ _ _ _ |- _ =>
         destruct H as (((_ & Hli) & _) & _);
         apply log_init_logger in Hli; [|done];
         destruct Hli as (h0 & Hh & Hlvl & Hcls);
         assert (Hw : Logging.writes h0
                      = negb (String.eqb (Args.log_dest args) "none"))
           by (unfold Logging.writes;
               destruct Hcls as [[-> ->]|[(-> & -> & _)|[-> ->]]]; done)
       end.
  - (* invalid *)
    unfold world in Hr. cbn [w_emitted] in Hr. apply logs_in in Hr.
    unfold msgs_gate, msgs_staged, msgs_copy, msgs_prepare, msgs_gnupg in Hr.
    rewrite !in_app_iff in Hr. destruct there; simpl in Hr;
      intros Ha; unfold audit in Ha;
      repeat destruct Hr as [Hr|Hr]; try done;
      injection Hr as _ Hm; by rewrite <- Hm in Ha.
  - (* no trust level *)
    exists h0, (logs (w_logger w0) (msgs_gate env args there)), [].
    split; [done|]. split; [exact Hw|].
    unfold world. cbn [w_emitted]. unfold msgs_signed.
    rewrite !logs_app, !logs_cons, !(deliver_one _ h0) by done.
    rewrite Hlvl. unfold trust_records.
    match goal with H : trust_level _ = _ |- _ => rewrite H end.
    destruct (Args.log_verbose args); simpl; by rewrite ?app_nil_r.
  - (* insufficient trust *)
    exists h0, (logs (w_logger w0) (msgs_gate env args there)), [].
    split; [done|]. split; [exact Hw|].
    unfold world. cbn [w_emitted]. unfold msgs_signed.
    rewrite !logs_app, !logs_cons, !(deliver_one _ h0) by done.
    rewrite Hlvl. unfold trust_records.
    match goal with H : trust_level _ = _ |- _ => rewrite H end.
    destruct (Z.ltb_spec level (Args.required_trust_level args));
      [|lia].
    destruct (Args.log_verbose args); simpl; by rewrite <- !app_assoc.
  - (* the move failed *)
    eexists h0, (logs (w_logger w0) (msgs_gate env args there)), _.
    split; [done|]. split; [exact Hw|]. unfold world. cbn [w_emitted].
    unfold msgs_moving, msgs_signed.
    rewrite !logs_app, !logs_cons, !(deliver_one _ h0) by done.
    rewrite Hlvl. unfold trust_records.
    match goal with H : trust_level _ = _ |- _ => rewrite H end.
    destruct (Z.ltb_spec level (Args.required_trust_level args));
      [lia|].
    destruct (Args.log_verbose args); simpl; rewrite <- !app_assoc; simpl;
      reflexivity.
  - eexists h0, (logs (w_logger w0) (msgs_gate env args there)), _.
    split; [done|]. split; [exact Hw|]. unfold world. cbn [w_emitted].
    unfold msgs_moving, msgs_signed.
    rewrite !logs_app, !logs_cons, !(deliver_one _ h0) by done.
    rewrite Hlvl. unfold trust_records.
    match goal with H : trust_level _ = _ |- _ => rewrite H end.
    destruct (Z.ltb_spec level (Args.required_trust_level args));
      [lia|].
    destruct (Args.log_verbose args); simpl; rewrite <- !app_assoc; simpl;
      reflexivity.
  - eexists h0, (logs (w_logger w0) (msgs_gate env args there)), _.
    split; [done|]. split; [exact Hw|]. unfold world. cbn [w_emitted].
    unfold msgs_moving, msgs_signed.
    rewrite !logs_app, !logs_cons, !(deliver_one _ h0) by done.
    rewrite Hlvl. unfold trust_records.
    match goal with H : trust_level _ = _ |- _ => rewrite H end.
    destruct (Z.ltb_spec level (Args.required_trust_level args));
      [lia|].
    destruct (Args.log_verbose args); simpl; rewrite <- !app_assoc; simpl;
      reflexivity.
Qed.

(** The sample run with a marginally trusted key. *)
Lemma audit_record_follows_validity_witness :
  parse_args (sample_argv "/out/a.bin") (boot sample_fs)
  = (Return (sample_args "/out/a.bin"), boot sample_fs) /\
  In (CallVerifyFile "/q/a.bin" "/q/a.bin.sig" a_bin (Some a_bin_sig)
        (Ok (verdict true 2)))
     (w_calls (run (sample_env (Ok (verdict true 2)))
                 (sample_argv "/out/a.bin") sample_fs).2) /\
  exists h before after,
    w_emitted (run (sample_env (Ok (verdict true 2)))
                 (sample_argv "/out/a.bin") sample_fs).2 =
      before
      ++ [(h, {| r_level := Logging.INFO;
                 r_msg := MsgSignedAt "2014-11-03" "Joel Rangsmo"
                            "0123ABCD" |})]
      ++ [(h, {| r_level := Logging.ERROR; r_msg := MsgTrustNotMet 2 |})]
      ++ after.
Proof.
  assert (Hp : parse_args (sample_argv "/out/a.bin") (boot sample_fs)
               = (Return (sample_args "/out/a.bin"), boot sample_fs))
    by reflexivity.
  assert (Hin : In (CallVerifyFile "/q/a.bin" "/q/a.bin.sig" a_bin
                      (Some a_bin_sig) (Ok (verdict true 2)))
                  (w_calls (run (sample_env (Ok (verdict true 2)))
                              (sample_argv "/out/a.bin") sample_fs).2))
    by (vm_compute; pick).
  split; [exact Hp|]. split; [exact Hin|].
  destruct (proj1 (audit_record_follows_validity
     (sample_env (Ok (verdict true 2)))
     (sample_argv "/out/a.bin") sample_fs (sample_args "/out/a.bin")
     "/q/a.bin" "/q/a.bin.sig" a_bin (Some a_bin_sig) (verdict true 2)
     Hp Hin) eq_refl) as (h & before & after & _ & _ & Hem).
  exists h, before, after. exact Hem.
Defined.

(** C4 as stated fails on an invalid signature: the engine has answered,
    and these five messages are all that the handler gets. *)
Lemma invalid_signature_leaves_no_audit_record :
  let env := sample_env (Ok (verdict false 0)) in
  let w := (run env (sample_argv "/out/a.bin") sample_fs).2 in
  In (CallVerifyFile "/q/a.bin" "/q/a.bin.sig" a_bin (Some a_bin_sig)
        (Ok (verdict false 0))) (w_calls w) /\
  List.map (fun e => r_msg e.2) (w_emitted w)
  = [MsgCreatingQuarantine "/q";
     MsgCopying "/in/a.bin" "/in/a.bin.sig" "/q";
     MsgLoading "/q/a.bin";
     MsgVerifying;
     MsgNotValid "/q/a.bin"].
Proof.
  vm_compute. split; [pick|reflexivity].
Qed.

(** C6.  The sample command line with [--log-dest syslog], in an
    interpreter where only the script's own imports have run: [log_init]
    raises on the attribute [logging.handlers], nobody catches it, the run
    ends with status 1, no handler is installed and no stage of the
    pipeline is reached. *)
Theorem syslog_destination_fails :
  let env := sample_env (Ok (verdict true 3)) in
  parse_args syslog_argv (boot sample_fs)
  = (Return syslog_args, boot sample_fs) /\
  (log_init env (Args.log_dest syslog_args) (Args.log_verbose syslog_args)
     (boot sample_fs)).1
  = Uncaught (AttributeError "logging" "handlers") /\
  (run env syslog_argv sample_fs).1 = 1 /\
  Logging.handlers (w_logger (run env syslog_argv sample_fs).2) = [] /\
  w_calls (run env syslog_argv sample_fs).2 = [].
Proof.
  split; [reflexivity|]. vm_compute. repeat split.
Qed.

(** * Further properties

    What the code shows beyond the claims: the command line, the logging
    set up, the ways a run stops and what it leaves behind. *)

(** ** The command line *)

Lemma consume_fields argv : forall ns ns',
  consume ns argv = inr ns' ->
  first_stop argv = None /\
  p_input ns' = match last_given opt_input argv with
                | Some v => Some v
                | None => p_input ns
                end /\
  p_sig ns' = match last_given opt_sig argv with
              | Some v => Some v
              | None => p_sig ns
              end /\
  p_output ns' = match last_given opt_output argv with
                 | Some v => Some v
                 | None => p_output ns
                 end /\
  p_trust ns' = default (p_trust ns) (last_given opt_trust argv) /\
  p_quar ns' = default (p_quar ns) (last_given opt_quar argv) /\
  p_gpg_home ns' = default (p_gpg_home ns) (last_given opt_gpg_home argv) /\
  p_log_dest ns' = default (p_log_dest ns) (last_given opt_log_dest argv) /\
  (p_verbose ns' = true <-> p_verbose ns = true \/ In ArgVerbose argv) /\
  (p_extras ns' = [] <->
   p_extras ns = [] /\ forall v, ~ In (ArgUnrecognized v) argv) /\
  (p_trust ns ∈ trust_choices -> p_trust ns' ∈ trust_choices) /\
  (p_log_dest ns ∈ log_dest_choices -> p_log_dest ns' ∈ log_dest_choices).
Proof.
  induction argv as [|a argv IH]; intros ns ns' H.
  { simpl in H. injection H as <-. simpl. repeat split; tauto. }
  destruct a as [v|v|v|[n|]|v|v|v| | | |v|]; simpl in H;
    try discriminate H;
    try (case_bool_decide as Hc; [|discriminate H]);
    apply IH in H;
    destruct H as (H0 & H1 & H2 & H3 & H4 & H5 & H6 & H7 & H8 & H9 & Ht & Hl);
    simpl in *; rewrite ?H0;
    try (rewrite bool_decide_eq_true_2 by done);
    (split; [done|]);
    (split; [by destruct (last_given opt_input argv)|]);
    (split; [by destruct (last_given opt_sig argv)|]);
    (split; [by destruct (last_given opt_output argv)|]);
    (split; [by destruct (last_given opt_trust argv)|]);
    (split; [by destruct (last_given opt_quar argv)|]);
    (split; [by destruct (last_given opt_gpg_home argv)|]);
    (split; [by destruct (last_given opt_log_dest argv)|]);
    (split; [rewrite H8; clear; intuition congruence|]);
    (split; [|split; [tauto|tauto]]).
  all: rewrite H9; clear; split.
  all: try (intros [He Hn]; split; [done|];
            intros v' [E|Hin]; [discriminate E|by apply (Hn v')]).
  all: try (intros [He Hn]; split; [done|]; intros v' Hin; apply (Hn v');
            by right).
  - intros [He Hn]. by destruct (p_extras ns).
  - intros [He Hn]. destruct (Hn v). by left.
Qed.

Lemma consume_first_stop argv : forall ns,
  match first_stop argv with
  | Some st => consume ns argv = inl st
  | None => exists ns', consume ns argv = inr ns'
  end.
Proof.
  induction argv as [|a argv IH]; intros ns; [by exists ns|].
  destruct a as [v|v|v|[n|]|v|v|v| | | |v|]; simpl;
    try done; try apply IH; case_bool_decide; try done; apply IH.
Qed.

Lemma parse_args_frame argv w o w' :
  parse_args argv w = (o, w') -> w' = w /\ forall e, o <> Uncaught e.
Proof.
  unfold parse_args. destruct (consume defaults argv) as [c|ns].
  - by intros [= <- <-].
  - destruct (p_input ns), (p_sig ns), (p_output ns), (p_extras ns);
      by intros [= <- <-].
Qed.

Lemma parse_args_inv argv w args w' :
  parse_args argv w = (Return args, w') ->
  exists ns,
    consume defaults argv = inr ns /\
    p_input ns = Some (Args.input_path args) /\
    p_sig ns = Some (Args.sig_path args) /\
    p_output ns = Some (Args.output_path args) /\
    p_extras ns = [] /\
    p_trust ns = Args.required_trust_level args /\
    p_quar ns = Args.quar_dir args /\
    p_gpg_home ns = Args.gpg_home args /\
    p_log_dest ns = Args.log_dest args /\
    p_verbose ns = Args.log_verbose args.
Proof.
  unfold parse_args. destruct (consume defaults argv) as [c|ns]; [done|].
  destruct (p_input ns) as [i|] eqn:Hi, (p_sig ns) as [s|] eqn:Hs,
    (p_output ns) as [o|] eqn:Ho, (p_extras ns) eqn:Hx;
    intros H; try discriminate H.
  injection H as <- <-. exists ns. by rewrite Hi, Hs, Ho, Hx.
Qed.

(** The log destination and the trust level of a namespace are among the
    declared choices. *)
Lemma parse_args_choices argv w args w' :
  parse_args argv w = (Return args, w') ->
  Args.required_trust_level args ∈ trust_choices /\
  Args.log_dest args ∈ log_dest_choices.
Proof.
  intros H. apply parse_args_inv in H
    as (ns & Hc & _ & _ & _ & _ & <- & _ & _ & <- & _).
  apply consume_fields in Hc
    as (_ & _ & _ & _ & _ & _ & _ & _ & _ & _ & Ht & Hl).
  split; [apply Ht|apply Hl]; apply list_elem_of_In; simpl; tauto.
Qed.

Lemma parse_args_world argv w w' args :
  parse_args argv w = (Return args, w) ->
  parse_args argv w' = (Return args, w').
Proof.
  unfold parse_args. destruct (consume defaults argv) as [c|ns]; [done|].
  destruct (p_input ns), (p_sig ns), (p_output ns), (p_extras ns);
    intros H; try discriminate H. by injection H as <-.
Qed.

(** X1.  Each field of the namespace [parse_args] returns holds the value
    of the last occurrence of its option on the command line; an option
    that was not given holds its declared default: trust level 3,
    quarantine [~/pgp-cp_quar], engine home [~/.gnupg], destination
    [stream], not verbose.  The world is left as it was. *)
Theorem parse_args_takes_last_values argv w args w' :
  parse_args argv w = (Return args, w') ->
  w' = w /\
  last_given opt_input argv = Some (Args.input_path args) /\
  last_given opt_sig argv = Some (Args.sig_path args) /\
  last_given opt_output argv = Some (Args.output_path args) /\
  Args.required_trust_level args = default 3 (last_given opt_trust argv) /\
  Args.quar_dir args
  = default "~/pgp-cp_quar" (last_given opt_quar argv) /\
  Args.gpg_home args = default "~/.gnupg" (last_given opt_gpg_home argv) /\
  Args.log_dest args = default "stream" (last_given opt_log_dest argv) /\
  (Args.log_verbose args = true <-> In ArgVerbose argv).
Proof.
  intros H. split; [by apply parse_args_frame in H as []|].
  apply parse_args_inv in H
    as (ns & Hc & Hi & Hs & Ho & _ & <- & <- & <- & <- & <-).
  apply consume_fields in Hc
    as (_ & H1 & H2 & H3 & H4 & H5 & H6 & H7 & H8 & _).
  simpl in *. rewrite Hi in H1. rewrite Hs in H2. rewrite Ho in H3.
  split; [by destruct (last_given opt_input argv)|].
  split; [by destruct (last_given opt_sig argv)|].
  split; [by destruct (last_given opt_output argv)|].
  repeat (split; [done|]). rewrite H8. intuition congruence.
Qed.

(** The sample command line with [-q] given a second time and [-v]. *)
Lemma parse_args_takes_last_values_witness :
  parse_args last_argv (boot sample_fs)
  = (Return last_args, boot sample_fs) /\
  Args.quar_dir last_args = "/var/q" /\
  Args.required_trust_level last_args = 3 /\
  Args.log_dest last_args = "stream".
Proof.
  assert (Hp : parse_args last_argv (boot sample_fs)
               = (Return last_args, boot sample_fs)) by reflexivity.
  split; [exact Hp|].
  destruct (parse_args_takes_last_values last_argv (boot sample_fs)
              last_args (boot sample_fs) Hp)
    as (_ & _ & _ & _ & Ht & Hq & _ & Hl & _).
  split; [exact Hq|]. split; [exact Ht|exact Hl].
Defined.

Lemma parse_args_complete argv w args w' :
  parse_args argv w = (Return args, w') ->
  first_stop argv = None /\ complete argv.
Proof.
  intros H. apply parse_args_inv in H
    as (ns & Hc & Hi & Hs & Ho & Hx & _).
  apply consume_fields in Hc
    as (H0 & H1 & H2 & H3 & _ & _ & _ & _ & _ & H9 & _).
  split; [done|]. simpl in *.
  rewrite Hi in H1. rewrite Hs in H2. rewrite Ho in H3.
  apply H9 in Hx as [_ Hx].
  repeat split; try done.
  - by destruct (last_given opt_input argv).
  - by destruct (last_given opt_sig argv).
  - by destruct (last_given opt_output argv).
Qed.

Lemma complete_parse_args argv w :
  first_stop argv = None -> complete argv ->
  exists args, parse_args argv w = (Return args, w).
Proof.
  intros H0 ([i Hi] & [s Hs] & [o Ho] & Hx).
  pose proof (consume_first_stop argv defaults) as Hc. rewrite H0 in Hc.
  destruct Hc as [ns Hc]. unfold parse_args. rewrite Hc.
  apply consume_fields in Hc
    as (_ & H1 & H2 & H3 & _ & _ & _ & _ & _ & H9 & _).
  rewrite Hi in H1. rewrite Hs in H2. rewrite Ho in H3.
  rewrite H1, H2, H3. rewrite (proj2 H9) by done. by eexists.
Qed.

(** X2.  [parse_args] returns a namespace exactly when no argument of the
    command line ends the program (a trust level outside 2, 3 and 4, a log
    destination outside [stream], [syslog] and [none], [-V], [-h], an
    option without its value), the three required options are given and
    nothing is left over. *)
Theorem parse_args_returns_iff argv w :
  (exists args, parse_args argv w = (Return args, w)) <->
  first_stop argv = None /\ complete argv.
Proof.
  split.
  - intros [args H]. by eapply parse_args_complete.
  - intros [H0 Hc]. by apply complete_parse_args.
Qed.


(** ** Logging set up *)

Lemma log_init_returns env dest verbose w w' :
  log_init env dest verbose w = (Return (), w') ->
  (dest = "stream" \/
   dest = "syslog" /\ e_logging_handlers env = true /\
     e_syslog_error env = None \/
   dest = "none") /\
  w_logger w'
  = {| Logging.level := threshold verbose;
       Logging.handlers := Logging.handlers (w_logger w) ++ [installed dest] |}
  /\
  w_gnupg_logger w'
  = (if verbose then
       {| Logging.level := Logging.DEBUG;
          Logging.handlers :=
            Logging.handlers (w_gnupg_logger w) ++ [installed dest] |}
     else w_gnupg_logger w) /\
  w_fs w' = w_fs w /\ w_calls w' = w_calls w /\ w_emitted w' = w_emitted w.
Proof.
  unfold log_init, logging_handlers_SysLogHandler, installed, handler_class.
  destruct (String.eqb_spec dest "stream") as [->|H1].
  { destruct verbose; cbn; intros [= <-]; cbn; repeat split; by left. }
  destruct (String.eqb_spec dest "syslog") as [->|H2].
  { destruct (e_logging_handlers env), (e_syslog_error env), verbose; cbn;
      intros H; try discriminate H; injection H as <-; cbn; repeat split;
      right; left; done. }
  destruct (String.eqb_spec dest "none") as [->|H3].
  { destruct verbose; cbn; intros [= <-]; cbn; repeat split; by right; right. }
  destruct verbose; cbn; intros H; discriminate H.
Qed.

(** X4.  When [log_init] returns at the start of a run, the logger hands
    a record to one handler, of the class of the destination and with the
    script's format, when its level is at least [DEBUG] (verbose) or
    [INFO] (otherwise) and drops it below that.  The handler writes unless
    the destination is [none].  The [gnupg] logger, which has a
    [NullHandler] from the package already, is given the same handler
    next to that one and level [DEBUG] when verbose, and is left alone
    otherwise.  No file is touched and no call made. *)
Theorem log_init_threshold env dest verbose fs w :
  log_init env dest verbose (boot fs) = (Return (), w) ->
  (forall lvl msg,
     deliver (w_logger w) lvl msg
     = if lvl <? threshold verbose then []
       else [(installed dest, {| r_level := lvl; r_msg := msg |})]) /\
  Logging.writes (installed dest) = negb (String.eqb dest "none") /\
  w_gnupg_logger w
  = (if verbose then
       {| Logging.level := Logging.DEBUG;
          Logging.handlers :=
            Logging.handlers Logging.gnupg_imported ++ [installed dest] |}
     else Logging.gnupg_imported) /\
  w_fs w = fs /\ w_calls w = [] /\ w_emitted w = [].
Proof.
  intros H. apply log_init_returns in H as (Hd & Hl & Hg & Hf & Hc & He).
  split; [|split; [|done]].
  - intros lvl msg. unfold deliver. by rewrite Hl.
  - by destruct Hd as [->|[(-> & _)| ->]].
Qed.

(** A verbose start with the log discarded. *)
Lemma log_init_threshold_witness :
  log_init no_engine_env "none" true (boot sample_fs)
  = (Return (), (log_init no_engine_env "none" true (boot sample_fs)).2) /\
  (forall lvl msg,
     deliver
       (w_logger (log_init no_engine_env "none" true (boot sample_fs)).2)
       lvl msg
     = if lvl <? Logging.DEBUG then []
       else [(installed "none", {| r_level := lvl; r_msg := msg |})]) /\
  List.map Logging.h_class
    (Logging.handlers
       (w_gnupg_logger
          (log_init no_engine_env "none" true (boot sample_fs)).2))
  = [Logging.NullHandler; Logging.CustomNullHandler].
Proof.
  split; [reflexivity|].
  destruct (log_init_threshold no_engine_env "none" true sample_fs
              (log_init no_engine_env "none" true (boot sample_fs)).2
              eq_refl) as (Hd & _ & Hg & _).
  split; [exact Hd|]. rewrite Hg. reflexivity.
Defined.

(** ** How [main] ends *)

#[local] Opaque log_init parse_args deliver.
#[local] Opaque FS.exists_ FS.mkdir FS.copy FS.read FS.move FS.remove.

(** [main] ends in [exit], unless [log_init] raises or the engine's
    answer is a valid signature without a trust level. *)
Lemma main_outcome env argv fs o w :
  main env argv (boot fs) = (o, w) ->
  (exists n, o = Exit n) \/
  (exists args e,
     parse_args argv (boot fs) = (Return args, boot fs) /\
     log_init env (Args.log_dest args) (Args.log_verbose args) (boot fs)
     = (Uncaught e, w) /\
     o = Uncaught e) \/
  (o = Uncaught (TypeError "NoneType") /\
   exists f s d sd v,
     In (CallVerifyFile f s d sd (Ok v)) (w_calls w) /\
     valid v = true /\ trust_level v = None).
Proof.
  unfold main. intros Hm.
  destruct (parse_args_cases argv (boot fs)) as [[c Hp]|[args Hp]];
    unfold mbind at 1, M_bind at 1 in Hm; rewrite Hp in Hm;
    [injection Hm as <- <-; left; by eexists|].
  unfold mbind at 1, M_bind at 1 in Hm.
  destruct (log_init env _ _ (boot fs)) as [o0 w0] eqn:Hli.
  destruct (log_init_frame _ _ _ _ _ _ Hli) as (_ & _ & _ & Hexit).
  destruct o0 as [[]|n|e];
    [|by destruct (Hexit n)
     |injection Hm as <- <-; right; left; by exists args, e].
  clear Hexit Hli Hp.
  unfold gnupg_GPG, os_path_exists, os_mkdir, shutil_copy, shutil_move,
    os_remove, open, gpg_verify_file, logger_debug, logger_info,
    logger_error in Hm.
  unfold mbind, M_bind, mret, M_ret, try_except, emit, called, exit, raise,
    fs_get, fs_do, fs_try in Hm.
  cbn in Hm.
  repeat match type of Hm with
  | context [match ?x with _ => _ end] =>
      lazymatch x with
      | context [match _ with _ => _ end] => fail
      | _ => destruct x eqn:?; cbn in Hm
      end
  | context [if ?x then _ else _] =>
      lazymatch x with
      | context [match _ with _ => _ end] => fail
      | _ => destruct x eqn:?; cbn in Hm
      end
  end;
  first
  [ injection Hm as <- _; left; by eexists
  | injection Hm as <- <-; right; right; split; [reflexivity|];
    match goal with
    | H : trust_level ?v = None |- _ =>
        eexists _, _, _, _, v; split; [|split; [|exact H]]
    end;
    [ cbn [w_calls]; apply in_or_app; right; left; reflexivity
    | first [assumption | by destruct (valid _)] ] ].
Qed.

#[local] Transparent log_init parse_args deliver.
#[local] Transparent FS.exists_ FS.mkdir FS.copy FS.read FS.move FS.remove.

(** X5.  An exception leaves [main] uncaught in two cases only.  One
    is [log_init] raising for the destination [syslog], on the missing
    attribute [logging.handlers] or on the socket: the file system is then
    untouched, no call has been made and no record handed out.  The other
    is the [TypeError] of lines 202 to 205 when the engine has answered
    with a valid signature that has no trust level.  Every other run ends
    in [exit]; [main] never returns. *)
Theorem uncaught_exceptions env argv fs :
  match (main env argv (boot fs)).1 with
  | Exit _ => True
  | Return _ => False
  | Uncaught e =>
      (exists args,
         parse_args argv (boot fs) = (Return args, boot fs) /\
         Args.log_dest args = "syslog" /\
         (e_logging_handlers env = false /\
          e = AttributeError "logging" "handlers" \/
          e_logging_handlers env = true /\ e_syslog_error env = Some e) /\
         w_fs (main env argv (boot fs)).2 = fs /\
         w_calls (main env argv (boot fs)).2 = [] /\
         w_emitted (main env argv (boot fs)).2 = []) \/
      (e = TypeError "NoneType" /\
       exists f s d sd v,
         In (CallVerifyFile f s d sd (Ok v))
            (w_calls (main env argv (boot fs)).2) /\
         valid v = true /\ trust_level v = None)
  end.
Proof.
  destruct (main env argv (boot fs)) as [o w] eqn:Hm. simpl.
  apply main_outcome in Hm
    as [[n ->]|[(args & e & Hp & Hli & ->)|[-> Hv]]]; [done| |by right].
  left. exists args. split; [done|].
  destruct (log_init_frame _ _ _ _ _ _ Hli) as (Hfs & Hc & He & _).
  apply log_init_logger in Hli; [|done].
  destruct Hli as [_ [(Hd & H1 & H2)|[(Hd & H1 & H2)|(H1 & H2 & H3)]]].
  - repeat split; try done. by left.
  - repeat split; try done. by right.
  - apply parse_args_choices in Hp as [_ Hp].
    apply list_elem_of_In in Hp. simpl in Hp.
    destruct Hp as [E|[E|[E|[]]]]; congruence.
Qed.

(** ** The records of a run *)

Lemma started_logger env argv fs args w0 :
  started env argv fs args w0 ->
  w_logger w0
  = {| Logging.level := threshold (Args.log_verbose args);
       Logging.handlers := [installed (Args.log_dest args)] |} /\
  Logging.writes (installed (Args.log_dest args))
  = negb (String.eqb (Args.log_dest args) "none").
Proof.
  intros [_ Hli]. apply log_init_returns in Hli as (Hd & Hl & _).
  split; [done|]. by destruct Hd as [->|[(-> & _)| ->]].
Qed.

(** [parse_args] and [log_init] returned in the way at hand. *)
Ltac get_started Hst :=
  first
  [ match goal with
    | H : verified _ _ _ _ _ _ _ _ _ |- _ =>
        pose proof (proj1 (proj1 H)) as Hst
    end
  | match goal with
    | H : staged _ _ _ _ _ _ _ |- _ => pose proof (proj1 H) as Hst
    end
  | match goal with
    | H : started _ _ _ _ _ |- _ => pose proof H as Hst
    end ].

(** X6.  Every record of a run went to the one handler [log_init]
    installed for the destination, which writes it out unless the
    destination is [none], and has a level of at least [INFO], or of at
    least [DEBUG] in a verbose run. *)
Theorem emitted_records env argv fs args h r :
  parse_args argv (boot fs) = (Return args, boot fs) ->
  In (h, r) (w_emitted (run env argv fs).2) ->
  h = installed (Args.log_dest args) /\
  Logging.writes h = negb (String.eqb (Args.log_dest args) "none") /\
  threshold (Args.log_verbose args) <= r_level r.
Proof.
  destruct (run env argv fs) as [st w] eqn:Hrun. simpl. intros Hp Hin.
  ways Hrun; same_args;
    try match goal with
    | E : w_emitted _ = [] |- _ => rewrite E in Hin; destruct Hin
    end.
  all: get_started Hst; apply started_logger in Hst as [Hlg Hw].
  all: unfold world in Hin; cbn [w_emitted] in Hin.
  all: apply logs_in_handler in Hin as [Hh Hl]; rewrite Hlg in Hh, Hl.
  all: destruct Hh as [<-|[]]; done.
Qed.

(** The last record of the sample run with a fully trusted key. *)
Lemma emitted_records_witness :
  parse_args (sample_argv "/out/a.bin") (boot sample_fs)
  = (Return (sample_args "/out/a.bin"), boot sample_fs) /\
  In (installed "stream",
      {| r_level := Logging.INFO;
         r_msg := MsgSuccess "/in/a.bin" "/out/a.bin" |})
     (w_emitted (run (sample_env (Ok (verdict true 3)))
                   (sample_argv "/out/a.bin") sample_fs).2) /\
  Logging.writes (installed "stream") = true.
Proof.
  assert (Hp : parse_args (sample_argv "/out/a.bin") (boot sample_fs)
               = (Return (sample_args "/out/a.bin"), boot sample_fs))
    by reflexivity.
  assert (Hin : In (installed "stream",
                    {| r_level := Logging.INFO;
                       r_msg := MsgSuccess "/in/a.bin" "/out/a.bin" |})
                  (w_emitted (run (sample_env (Ok (verdict true 3)))
                                (sample_argv "/out/a.bin") sample_fs).2))
    by (vm_compute; pick).
  split; [exact Hp|]. split; [exact Hin|].
  exact (proj1 (proj2 (emitted_records (sample_env (Ok (verdict true 3)))
           (sample_argv "/out/a.bin") sample_fs (sample_args "/out/a.bin")
           (installed "stream")
           {| r_level := Logging.INFO;
              r_msg := MsgSuccess "/in/a.bin" "/out/a.bin" |} Hp Hin))).
Defined.

(** X7.  Once the creation of the engine handle has been attempted, a
    run that does not end with status 0 ends with 1 or 2, and the status
    is 2 exactly when the last record handed to the handler is the error
    about the trust level.  That last record is an error, with one
    exception: when the engine has answered with a valid signature that
    has no trust level, the run ends with status 1 on the record of the
    signer, an [INFO] record, and nothing tells of the failure. *)
Theorem failure_is_logged env argv fs homedir r0 :
  In (CallGPG homedir r0) (w_calls (run env argv fs).2) ->
  (run env argv fs).1 <> 0 ->
  exists h before last,
    Logging.handlers (w_logger (run env argv fs).2) = [h] /\
    w_emitted (run env argv fs).2 = before ++ [(h, last)] /\
    ((run env argv fs).1 = 1 \/ (run env argv fs).1 = 2) /\
    ((run env argv fs).1 = 2 <-> exists t, r_msg last = MsgTrustNotMet t) /\
    (r_level last = Logging.ERROR \/
     (run env argv fs).1 = 1 /\
     exists f s d sd v,
       In (CallVerifyFile f s d sd (Ok v)) (w_calls (run env argv fs).2) /\
       valid v = true /\ trust_level v = None /\
       last = {| r_level := Logging.INFO;
                 r_msg := MsgSignedAt (creation_date v) (username v)
                            (key_id v) |}) /\
    (forall f s d sd v,
       In (CallVerifyFile f s d sd (Ok v)) (w_calls (run env argv fs).2) ->
       valid v = true -> trust_level v = None ->
       r_level last = Logging.INFO).
Proof.
  destruct (run env argv fs) as [st w] eqn:Hrun. simpl. intros Hin Hst0.
  ways Hrun; try (in_calls Hin; fail); try (empty_calls Hin); try done.
  all: clear Hin; get_started Hst; apply started_logger in Hst as [Hlg _].
  all: unfold world; cbn [w_emitted w_logger w_calls]; rewrite Hlg.
  all: unfold msg_quarantine_failed, msg_create_failed, msgs_signed.
  all: eexists _, _, _; (split; [reflexivity|]).
  all: (split;
        [apply logs_snoc;
         [reflexivity
         |simpl; unfold threshold; destruct (Args.log_verbose _); done]|]).
  all: split; [tauto|].
  all: (split; [split; [try done; by eexists|try done; by intros [t Ht]]|]).
  all: cbn [r_level r_msg].
  all: try (split; [by left|]; intros f s d sd v' Hin Hv Hl;
            try (in_calls Hin; fail);
            in_calls Hin; injection Hin as <- <- <- <- <-; congruence).
  (* no trust level *)
  split; [|done]. right. split; [done|].
  eexists _, _, _, _, v. split; [|done].
  unfold calls_verified. rewrite in_app_iff. right. simpl. right. by left.
Qed.

(** The sample run with a marginally trusted key ends on an error; with
    an engine that reports no trust level it ends on the record of the
    signer. *)
Lemma failure_is_logged_witness :
  In (CallGPG "~/.gnupg" (Ok ()))
     (w_calls (run (sample_env (Ok no_trust_verdict))
                 (sample_argv "/out/a.bin") sample_fs).2) /\
  (run (sample_env (Ok no_trust_verdict))
     (sample_argv "/out/a.bin") sample_fs).1 <> 0 /\
  exists h before last,
    w_emitted (run (sample_env (Ok no_trust_verdict))
                 (sample_argv "/out/a.bin") sample_fs).2
    = before ++ [(h, last)] /\
    (run (sample_env (Ok no_trust_verdict))
       (sample_argv "/out/a.bin") sample_fs).1 = 1 /\
    r_level last = Logging.INFO.
Proof.
  assert (Hin : In (CallGPG "~/.gnupg" (Ok ()))
                  (w_calls (run (sample_env (Ok no_trust_verdict))
                              (sample_argv "/out/a.bin") sample_fs).2))
    by (vm_compute; pick).
  assert (Hst : (run (sample_env (Ok no_trust_verdict))
                   (sample_argv "/out/a.bin") sample_fs).1 <> 0)
    by (vm_compute; discriminate).
  assert (Hv : In (CallVerifyFile "/q/a.bin" "/q/a.bin.sig" a_bin
                     (Some a_bin_sig) (Ok no_trust_verdict))
                 (w_calls (run (sample_env (Ok no_trust_verdict))
                             (sample_argv "/out/a.bin") sample_fs).2))
    by (vm_compute; pick).
  split; [exact Hin|]. split; [exact Hst|].
  destruct (failure_is_logged (sample_env (Ok no_trust_verdict))
              (sample_argv "/out/a.bin") sample_fs "~/.gnupg" (Ok ())
              Hin Hst) as (h & before & last & _ & He & _ & _ & _ & Hl).
  exists h, before, last. split; [exact He|].
  split; [vm_compute; reflexivity|].
  exact (Hl "/q/a.bin" "/q/a.bin.sig" a_bin (Some a_bin_sig)
           no_trust_verdict Hv eq_refl eq_refl).
Defined.

(** ** The calls of a run *)

Ltac show_calls :=
  unfold world, pipeline, calls_moved, calls_verified, calls_staged,
    calls_prepare;
  cbn [w_calls];
  repeat match goal with
  | |- context [if ?b then _ else _] => destruct b
  end;
  simpl.

(** The answers that decided the way at hand, as equations on what the
    surroundings give. *)
Ltac answers :=
  repeat match goal with
  | H : verified _ _ _ _ _ _ _ _ _ |- _ => destruct H as (? & ? & ?)
  | H : staged _ _ _ _ _ _ _ |- _ => destruct H as (? & ? & ? & ? & ? & ? & ?)
  | H : prepared _ _ _ _ _ |- _ => destruct H as [? ?]
  end;
  repeat match goal with
  | H : e_gpg_error _ _ = _ |- _ => rewrite H; clear H
  | H : FS.exists_ _ _ _ = _ |- _ => rewrite H; clear H
  end.

(** X8.  The calls of a run are a beginning of one fixed sequence: the
    engine handle for the home directory as typed, with the result the
    engine gives for it; the look for the expanded quarantine directory;
    its creation if and only if the look did not find it in the initial
    file system; the copy of the input and then of the signature into it;
    the opening of the staged input; the verification of the staged pair,
    with the engine's answer for what it was given; the move of the staged
    input to the output path and the removal of the staged signature.
    Nothing else is called and nothing out of turn. *)
Theorem calls_follow_pipeline env argv fs args :
  parse_args argv (boot fs) = (Return args, boot fs) ->
  exists data sig_data rest,
    pipeline env args
      (match e_gpg_error env (Args.gpg_home args) with
       | Some e => Raised e
       | None => Ok ()
       end)
      (FS.exists_ (e_cwd env) fs (quarantine env args))
      data sig_data
      (e_verify_file env data (staged_sig env args) sig_data)
    = w_calls (run env argv fs).2 ++ rest.
Proof.
  destruct (run env argv fs) as [st w] eqn:Hrun. simpl. intros Hp.
  ways Hrun; same_args;
    try match goal with E : w_calls _ = [] |- _ => rewrite E end;
    answers;
    unfold world, pipeline, calls_moved, calls_verified, calls_staged,
      calls_prepare; cbn [w_calls];
    first
    [ match goal with
      | H : e_verify_file _ ?data _ ?sd = _ |- _ =>
          exists data, sd; rewrite H
      end
    | exists [], None ];
    eexists; simpl; rewrite <- ?app_assoc; simpl; reflexivity.
Qed.

(** The sample run with an invalid signature: the quarantine directory
    is not found, so it is made. *)
Lemma calls_follow_pipeline_witness :
  parse_args (sample_argv "/out/a.bin") (boot sample_fs)
  = (Return (sample_args "/out/a.bin"), boot sample_fs) /\
  FS.exists_ (e_cwd (sample_env (Ok (verdict false 0)))) sample_fs
    (quarantine (sample_env (Ok (verdict false 0)))
       (sample_args "/out/a.bin")) = false /\
  exists data sig_data rest,
    pipeline (sample_env (Ok (verdict false 0))) (sample_args "/out/a.bin")
      (Ok ()) false data sig_data (Ok (verdict false 0))
    = w_calls (run (sample_env (Ok (verdict false 0)))
                 (sample_argv "/out/a.bin") sample_fs).2 ++ rest.
Proof.
  assert (Hp : parse_args (sample_argv "/out/a.bin") (boot sample_fs)
               = (Return (sample_args "/out/a.bin"), boot sample_fs))
    by reflexivity.
  assert (Hex : FS.exists_ (e_cwd (sample_env (Ok (verdict false 0))))
                  sample_fs
                  (quarantine (sample_env (Ok (verdict false 0)))
                     (sample_args "/out/a.bin")) = false)
    by (vm_compute; reflexivity).
  split; [exact Hp|]. split; [exact Hex|].
  destruct (calls_follow_pipeline (sample_env (Ok (verdict false 0)))
              (sample_argv "/out/a.bin") sample_fs
              (sample_args "/out/a.bin") Hp)
    as (data & sig_data & rest & Hc).
  rewrite Hex in Hc. exists data, sig_data, rest. exact Hc.
Defined.

(** X9.  A run that got through [parse_args] ends with status 0 only
    after the whole sequence of calls: the engine started, it answered
    with a valid signature of at least the required trust level, and the
    move and the removal were both called and both succeeded. *)
Theorem success_requires_trust env argv fs args :
  parse_args argv (boot fs) = (Return args, boot fs) ->
  (run env argv fs).1 = 0 ->
  exists there data sig_data v level fs3 fs4,
    w_calls (run env argv fs).2
    = pipeline env args (Ok ()) there data sig_data (Ok v) /\
    valid v = true /\
    trust_level v = Some level /\
    Args.required_trust_level args <= level /\
    FS.move (e_cwd env) fs3 (staged_input env args) (Args.output_path args)
    = Ok fs4 /\
    FS.remove (e_cwd env) fs4 (staged_sig env args)
    = Ok (w_fs (run env argv fs).2).
Proof.
  destruct (run env argv fs) as [st w] eqn:Hrun. simpl. intros Hp Hst.
  ways Hrun; same_args; try done.
  match goal with
  | H : verified _ _ _ _ _ ?t ?fs3 ?data ?v,
    T : trust_level _ = Some ?level,
    M : FS.move _ _ _ _ = Ok ?fs4 |- _ =>
      exists t, data, (sig_found env args fs3), v, level, fs3, fs4
  end.
  split; [show_calls; reflexivity|]. done.
Qed.

(** The sample run with an ultimately trusted key. *)
Lemma success_requires_trust_witness :
  parse_args (sample_argv "/out/a.bin") (boot sample_fs)
  = (Return (sample_args "/out/a.bin"), boot sample_fs) /\
  (run (sample_env (Ok (verdict true 4)))
     (sample_argv "/out/a.bin") sample_fs).1 = 0 /\
  exists there data sig_data v level,
    w_calls (run (sample_env (Ok (verdict true 4)))
               (sample_argv "/out/a.bin") sample_fs).2
    = pipeline (sample_env (Ok (verdict true 4)))
        (sample_args "/out/a.bin") (Ok ()) there data sig_data (Ok v) /\
    valid v = true /\
    trust_level v = Some level /\
    Args.required_trust_level (sample_args "/out/a.bin") <= level.
Proof.
  assert (Hp : parse_args (sample_argv "/out/a.bin") (boot sample_fs)
               = (Return (sample_args "/out/a.bin"), boot sample_fs))
    by reflexivity.
  assert (Hst : (run (sample_env (Ok (verdict true 4)))
                   (sample_argv "/out/a.bin") sample_fs).1 = 0)
    by (vm_compute; reflexivity).
  split; [exact Hp|]. split; [exact Hst|].
  destruct (success_requires_trust (sample_env (Ok (verdict true 4)))
              (sample_argv "/out/a.bin") sample_fs
              (sample_args "/out/a.bin") Hp Hst)
    as (there & data & sd & v & level & _ & _ & Hc & Hv & Hl & Ht & _).
  exists there, data, sd, v, level. split; [exact Hc|]. split; [exact Hv|].
  split; [exact Hl|exact Ht].
Defined.

(** X10.  The move and the removal are called only after the engine has
    answered for the staged pair with a valid signature of at least the
    required trust level, also in a run that fails afterwards. *)
Theorem move_needs_trust env argv fs args c :
  parse_args argv (boot fs) = (Return args, boot fs) ->
  In c (w_calls (run env argv fs).2) ->
  (exists src dst, c = CallMove src dst) \/ (exists p, c = CallRemove p) ->
  exists data sig_data v level,
    In (CallVerifyFile (staged_input env args) (staged_sig env args)
          data sig_data (Ok v))
       (w_calls (run env argv fs).2) /\
    valid v = true /\
    trust_level v = Some level /\
    Args.required_trust_level args <= level.
Proof.
  destruct (run env argv fs) as [st w] eqn:Hrun. simpl. intros Hp Hin Hc.
  ways Hrun; same_args; try (empty_calls Hin);
    try (in_calls Hin; subst c;
         destruct Hc as [(? & ? & Hc)|(? & Hc)]; discriminate Hc).
  all: match goal with
       | H : verified _ _ _ _ _ _ ?fs3 ?data ?v,
         T : trust_level _ = Some ?level |- _ =>
           exists data, (sig_found env args fs3), v, level
       end.
  all: split; [|done]; clear; show_calls; tauto.
Qed.

(** The move of the sample run with an ultimately trusted key. *)
Lemma move_needs_trust_witness :
  parse_args (sample_argv "/out/a.bin") (boot sample_fs)
  = (Return (sample_args "/out/a.bin"), boot sample_fs) /\
  In (CallMove "/q/a.bin" "/out/a.bin")
     (w_calls (run (sample_env (Ok (verdict true 4)))
                 (sample_argv "/out/a.bin") sample_fs).2) /\
  exists data sig_data v level,
    In (CallVerifyFile
          (staged_input (sample_env (Ok (verdict true 4)))
             (sample_args "/out/a.bin"))
          (staged_sig (sample_env (Ok (verdict true 4)))
             (sample_args "/out/a.bin"))
          data sig_data (Ok v))
       (w_calls (run (sample_env (Ok (verdict true 4)))
                   (sample_argv "/out/a.bin") sample_fs).2) /\
    valid v = true /\
    trust_level v = Some level /\
    Args.required_trust_level (sample_args "/out/a.bin") <= level.
Proof.
  assert (Hp : parse_args (sample_argv "/out/a.bin") (boot sample_fs)
               = (Return (sample_args "/out/a.bin"), boot sample_fs))
    by reflexivity.
  assert (Hin : In (CallMove "/q/a.bin" "/out/a.bin")
                  (w_calls (run (sample_env (Ok (verdict true 4)))
                              (sample_argv "/out/a.bin") sample_fs).2))
    by (vm_compute; pick).
  split; [exact Hp|]. split; [exact Hin|].
  exact (move_needs_trust (sample_env (Ok (verdict true 4)))
           (sample_argv "/out/a.bin") sample_fs (sample_args "/out/a.bin")
           (CallMove "/q/a.bin" "/out/a.bin") Hp Hin
           (or_introl (ex_intro _ "/q/a.bin"
                         (ex_intro _ "/out/a.bin" eq_refl)))).
Defined.

(** ** The quarantine directory *)

Lemma is_dir_present (fs : FS.t) k :
  FS.is_dir fs k = true -> FS.present fs k = true.
Proof. unfold FS.is_dir, FS.present. by destruct (FS.node_at fs k). Qed.

Lemma walk_replicate_dir fs cur cs n k :
  FS.walk fs cur cs = Some k -> FS.is_dir fs k = true ->
  FS.walk fs cur (cs ++ replicate n "") = Some k.
Proof.
  intros Hw Hd. induction n as [|n IH]; [by rewrite app_nil_r|].
  by rewrite replicate_S_end, app_assoc, walk_snoc_empty, IH, Hd.
Qed.

(** A directory is also found under its name with slashes behind. *)
Lemma resolve_unstrip cwd fs p k :
  FS.resolve cwd fs (Path.rstrip_slash p) = Some k ->
  FS.is_dir fs k = true ->
  FS.resolve cwd fs p = Some k.
Proof.
  intros H Hd.
  assert (Hne : Path.rstrip_slash p <> "") by by eapply resolve_not_empty.
  unfold FS.resolve in *.
  destruct (String.eqb_spec (Path.rstrip_slash p) ""); [done|].
  destruct (String.eqb_spec p "") as [->|]; [done|].
  rewrite startswith_rstrip in H by done.
  destruct (split_rstrip p Hne) as [m ->].
  by apply walk_replicate_dir.
Qed.

Lemma mkdir_exists cwd fs p fs' :
  FS.mkdir cwd fs p = Ok fs' -> FS.exists_ cwd fs' p = true.
Proof.
  intros H. apply mkdir_inv in H as (k & Hk & Hp & ->).
  assert (Hd : FS.is_dir (<[k := FS.Dir]> fs) k = true).
  { apply present_false in Hp as [Hne _]. unfold FS.is_dir.
    destruct k; [done|]. simpl. by rewrite lookup_insert_eq. }
  apply (resolve_mono _ _ (<[k := FS.Dir]> fs)) in Hk;
    [|intros x; apply is_dir_insert_dir].
  unfold FS.exists_. rewrite (resolve_unstrip _ _ _ _ Hk Hd).
  by apply is_dir_present.
Qed.

Lemma exists_insert_file (cwd : FS.key) (fs : FS.t) k d p :
  FS.is_dir fs k = false ->
  FS.exists_ cwd fs p = true ->
  FS.exists_ cwd (<[k := FS.File d]> fs) p = true.
Proof.
  intros Hk. unfold FS.exists_.
  rewrite <- (resolve_ext cwd _ _ p (same_dirs_insert_file fs k d Hk)).
  destruct (FS.resolve cwd fs p) as [x|]; [|done].
  unfold FS.present, FS.node_at. destruct x as [|c x]; [done|].
  destruct (decide (k = c :: x)) as [->|Hne].
  - by rewrite lookup_insert_eq.
  - by rewrite lookup_insert_ne.
Qed.

Lemma copy_exists cwd fs src q fs' p :
  FS.copy cwd fs src q = Ok fs' ->
  FS.exists_ cwd fs p = true -> FS.exists_ cwd fs' p = true.
Proof.
  intros H. apply copy_inv in H as (ks & d & kd & _ & _ & _ & _ & Hd & _ & ->).
  by apply exists_insert_file.
Qed.

(** A copy that succeeds has read its source. *)
Lemma copy_reads cwd fs src q fs' :
  FS.copy cwd fs src q = Ok fs' -> exists d, FS.read cwd fs src = Ok d.
Proof.
  intros H. apply copy_inv in H as (ks & d & kd & Hs & Hl & Hd & _).
  exists d. eapply read_intro; [done| |done]. by eapply is_dir_false_not_root.
Qed.

Lemma prepared_exists env fs args there fs1 :
  prepared env fs args there fs1 ->
  FS.exists_ (e_cwd env) fs1 (quarantine env args) = true.
Proof.
  intros [Hex Hfs]. destruct there; [by subst|]. by eapply mkdir_exists.
Qed.

Lemma staged_exists env argv fs args w0 there fs3 :
  staged env argv fs args w0 there fs3 ->
  FS.exists_ (e_cwd env) fs3 (quarantine env args) = true.
Proof.
  intros (_ & _ & fs1 & fs2 & Hprep & Hc1 & Hc2).
  eapply copy_exists; [done|]. eapply copy_exists; [done|].
  by eapply prepared_exists.
Qed.

(** The directory is made only where it was not found. *)
Lemma mkdir_when_absent env argv fs args p :
  parse_args argv (boot fs) = (Return args, boot fs) ->
  In (CallMkdir p) (w_calls (run env argv fs).2) ->
  p = quarantine env args /\
  FS.exists_ (e_cwd env) fs (quarantine env args) = false.
Proof.
  destruct (run env argv fs) as [st w] eqn:Hrun. simpl. intros Hp Hin.
  ways Hrun; same_args; try (empty_calls Hin);
    try match goal with
    | H : verified _ _ _ _ _ _ _ _ _ |- _ =>
        destruct H as ((_ & _ & ?fs1 & ?fs2 & [Hex _] & _) & _)
    | H : staged _ _ _ _ _ _ _ |- _ =>
        destruct H as (_ & _ & ?fs1 & ?fs2 & [Hex _] & _)
    | H : prepared _ _ _ _ _ |- _ => destruct H as [Hex _]
    end;
    unfold world, calls_moved, calls_verified, calls_staged, calls_prepare
      in Hin; cbn [w_calls] in Hin;
    try match type of Hex with _ = ?t => destruct t end;
    simpl in Hin;
    repeat match type of Hin with
    | _ \/ _ => destruct Hin as [Hin|Hin]
    | False => destruct Hin
    | _ = _ => try discriminate Hin
    end;
    by injection Hin as <-.
Qed.

(** X11.  Once a run looks for the quarantine directory, it calls
    [os.mkdir] exactly when [os.path.exists] did not find it, on the
    expanded path it looked for; a directory that is there is used as it
    is. *)
Theorem quarantine_made_when_absent env argv fs args p :
  parse_args argv (boot fs) = (Return args, boot fs) ->
  In (CallExists p) (w_calls (run env argv fs).2) ->
  p = quarantine env args /\
  (In (CallMkdir (quarantine env args)) (w_calls (run env argv fs).2) <->
   FS.exists_ (e_cwd env) fs (quarantine env args) = false).
Proof.
  intros Hp Hin. split.
  - revert Hin. destruct (run env argv fs) as [st w] eqn:Hrun. simpl.
    intros Hin.
    ways Hrun; same_args; try (empty_calls Hin);
      in_calls Hin; by injection Hin as <-.
  - split; [intros Hm; by apply (mkdir_when_absent _ _ _ _ _ Hp Hm)|].
    revert Hin. destruct (run env argv fs) as [st w] eqn:Hrun. simpl.
    intros Hin Hex.
    ways Hrun; same_args; try (empty_calls Hin); try (in_calls Hin; fail).
    all: try match goal with
         | H : verified _ _ _ _ _ _ _ _ _ |- _ =>
             destruct H as ((_ & _ & ?fs1 & ?fs2 & [Hex' _] & _) & _)
         | H : staged _ _ _ _ _ _ _ |- _ =>
             destruct H as (_ & _ & ?fs1 & ?fs2 & [Hex' _] & _)
         | H : prepared _ _ _ _ _ |- _ => destruct H as [Hex' _]
         end.
    all: try (rewrite Hex in Hex'; subst).
    all: clear; show_calls; tauto.
Qed.

(** The sample file system has no quarantine directory yet. *)
Lemma quarantine_made_when_absent_witness :
  parse_args (sample_argv "/out/a.bin") (boot sample_fs)
  = (Return (sample_args "/out/a.bin"), boot sample_fs) /\
  In (CallExists "/q")
     (w_calls (run (sample_env (Ok (verdict true 3)))
                 (sample_argv "/out/a.bin") sample_fs).2) /\
  In (CallMkdir "/q")
     (w_calls (run (sample_env (Ok (verdict true 3)))
                 (sample_argv "/out/a.bin") sample_fs).2).
Proof.
  assert (Hp : parse_args (sample_argv "/out/a.bin") (boot sample_fs)
               = (Return (sample_args "/out/a.bin"), boot sample_fs))
    by reflexivity.
  assert (Hin : In (CallExists "/q")
                  (w_calls (run (sample_env (Ok (verdict true 3)))
                              (sample_argv "/out/a.bin") sample_fs).2))
    by (vm_compute; pick).
  split; [exact Hp|]. split; [exact Hin|].
  apply (proj2 (quarantine_made_when_absent
                  (sample_env (Ok (verdict true 3)))
                  (sample_argv "/out/a.bin") sample_fs
                  (sample_args "/out/a.bin") "/q" Hp Hin)).
  vm_compute. reflexivity.
Defined.

(** X12.  A run that got as far as copying leaves the quarantine
    directory in place, whatever happened afterwards, so that a second run
    of the same command line on the file system it left finds the
    directory and does not call [os.mkdir]. *)
Theorem rerun_reuses_quarantine env argv fs args src dst :
  parse_args argv (boot fs) = (Return args, boot fs) ->
  In (CallCopy src dst) (w_calls (run env argv fs).2) ->
  FS.exists_ (e_cwd env) (w_fs (run env argv fs).2) (quarantine env args)
  = true /\
  forall p,
    ~ In (CallMkdir p)
        (w_calls (run env argv (w_fs (run env argv fs).2)).2).
Proof.
  intros Hp Hin.
  assert (Hex : FS.exists_ (e_cwd env) (w_fs (run env argv fs).2)
                  (quarantine env args) = true).
  { revert Hin. destruct (run env argv fs) as [st w] eqn:Hrun. simpl.
    intros Hin.
    ways Hrun; same_args; try (empty_calls Hin); try (in_calls Hin; fail);
      clear Hin; unfold world; cbn [w_fs].
    - by eapply prepared_exists.
    - eapply copy_exists; [done|]. by eapply prepared_exists.
    - by eapply staged_exists.
    - by eapply staged_exists.
    - eapply staged_exists. by apply H.
    - eapply staged_exists. by apply H.
    - eapply staged_exists. by apply H.
    - eapply staged_exists. by apply H.
    - layout_of L. final_dirs L Hd.
      destruct (layout_resolve _ _ _ _ _ _ _ _ _ _ _ L Hd) as (Hq & Hqd & _).
      unfold FS.exists_. rewrite Hq. by apply is_dir_present.
    - layout_of L. final_dirs L Hd.
      destruct (layout_resolve _ _ _ _ _ _ _ _ _ _ _ L Hd) as (Hq & Hqd & _).
      unfold FS.exists_. rewrite Hq. by apply is_dir_present. }
  split; [done|]. intros p Hm.
  apply (parse_args_world _ _ (boot (w_fs (run env argv fs).2))) in Hp.
  apply (mkdir_when_absent _ _ _ _ _ Hp) in Hm as [_ Hm]. congruence.
Qed.

(** The sample run leaves [/q] behind. *)
Lemma rerun_reuses_quarantine_witness :
  parse_args (sample_argv "/out/a.bin") (boot sample_fs)
  = (Return (sample_args "/out/a.bin"), boot sample_fs) /\
  In (CallCopy "/in/a.bin" "/q")
     (w_calls (run (sample_env (Ok (verdict true 3)))
                 (sample_argv "/out/a.bin") sample_fs).2) /\
  FS.exists_ (e_cwd (sample_env (Ok (verdict true 3))))
    (w_fs (run (sample_env (Ok (verdict true 3)))
             (sample_argv "/out/a.bin") sample_fs).2)
    (quarantine (sample_env (Ok (verdict true 3)))
       (sample_args "/out/a.bin"))
  = true.
Proof.
  assert (Hp : parse_args (sample_argv "/out/a.bin") (boot sample_fs)
               = (Return (sample_args "/out/a.bin"), boot sample_fs))
    by reflexivity.
  assert (Hin : In (CallCopy "/in/a.bin" "/q")
                  (w_calls (run (sample_env (Ok (verdict true 3)))
                              (sample_argv "/out/a.bin") sample_fs).2))
    by (vm_compute; pick).
  split; [exact Hp|]. split; [exact Hin|].
  exact (proj1 (rerun_reuses_quarantine (sample_env (Ok (verdict true 3)))
                  (sample_argv "/out/a.bin") sample_fs
                  (sample_args "/out/a.bin") "/in/a.bin" "/q" Hp Hin)).
Defined.

(** ** Runs that stop on the way *)

(** Take a [staged] or [verified] hypothesis apart. *)
Ltac open_staged :=
  try match goal with
  | H : verified _ _ _ _ _ _ _ _ _ |- _ =>
      let Hs := fresh "Hs" in
      destruct H as (Hs & ?Hread & ?Hanswer)
  end;
  try match goal with
  | H : staged _ _ _ _ _ _ _ |- _ =>
      destruct H as (?Hst & ?Hgpg & ?fs1 & ?fs2 & ?Hprep & ?Hc1 & ?Hc2)
  end.

(** X13.  When the engine raises on the staged pair, the run logs the
    error as the last record and ends with status 1; both staged copies
    are still readable with the contents the engine was given, and
    neither the move nor the removal was called. *)
Theorem engine_error_keeps_copies env argv fs args f s d sd e :
  parse_args argv (boot fs) = (Return args, boot fs) ->
  In (CallVerifyFile f s d sd (Raised e)) (w_calls (run env argv fs).2) ->
  (run env argv fs).1 = 1 /\
  FS.read (e_cwd env) (w_fs (run env argv fs).2) (staged_input env args)
  = Ok d /\
  (exists d_sig,
     sd = Some d_sig /\
     FS.read (e_cwd env) (w_fs (run env argv fs).2) (staged_sig env args)
     = Ok d_sig) /\
  (forall src dst, ~ In (CallMove src dst) (w_calls (run env argv fs).2)) /\
  (forall p, ~ In (CallRemove p) (w_calls (run env argv fs).2)) /\
  exists before,
    w_emitted (run env argv fs).2
    = before
      ++ [(installed (Args.log_dest args),
           {| r_level := Logging.ERROR; r_msg := MsgOpenFailed e |})].
Proof.
  destruct (run env argv fs) as [st w] eqn:Hrun. simpl. intros Hp Hin.
  ways Hrun; same_args; try (in_calls Hin; fail); try (empty_calls Hin).
  layout_of L.
  pose proof (lay_found _ _ _ _ _ _ _ _ _ _ L) as Hfound.
  get_started Hst. apply started_logger in Hst as [Hlg _].
  in_calls Hin; injection Hin as <- <- <- <- <-.
  all: split; [done|]; split; [done|]; split;
    [|split; [intros src dst Hmv; in_calls Hmv|
      split; [intros p Hrm; in_calls Hrm|]]].
  all: try (exists d_sig; split; [done|];
            unfold world; cbn [w_fs]; unfold sig_found in Hfound;
            destruct (FS.read (e_cwd env) fs3 (staged_sig env args));
            congruence).
  all: eexists; unfold world; cbn [w_emitted]; rewrite Hlg;
    apply logs_snoc; [reflexivity|];
    simpl; unfold threshold; by destruct (Args.log_verbose _).
Qed.

(** The sample run with an engine that has no key for the signature. *)
Lemma engine_error_keeps_copies_witness :
  parse_args (sample_argv "/out/a.bin") (boot sample_fs)
  = (Return (sample_args "/out/a.bin"), boot sample_fs) /\
  In (CallVerifyFile "/q/a.bin" "/q/a.bin.sig" a_bin (Some a_bin_sig)
        (Raised (EngineError "no public key")))
     (w_calls (run (sample_env (Raised (EngineError "no public key")))
                 (sample_argv "/out/a.bin") sample_fs).2) /\
  (run (sample_env (Raised (EngineError "no public key")))
     (sample_argv "/out/a.bin") sample_fs).1 = 1.
Proof.
  assert (Hp : parse_args (sample_argv "/out/a.bin") (boot sample_fs)
               = (Return (sample_args "/out/a.bin"), boot sample_fs))
    by reflexivity.
  assert (Hin : In (CallVerifyFile "/q/a.bin" "/q/a.bin.sig" a_bin
                      (Some a_bin_sig) (Raised (EngineError "no public key")))
                  (w_calls (run (sample_env
                                   (Raised (EngineError "no public key")))
                              (sample_argv "/out/a.bin") sample_fs).2))
    by (vm_compute; pick).
  split; [exact Hp|]. split; [exact Hin|].
  exact (proj1 (engine_error_keeps_copies
                  (sample_env (Raised (EngineError "no public key")))
                  (sample_argv "/out/a.bin") sample_fs
                  (sample_args "/out/a.bin") "/q/a.bin" "/q/a.bin.sig"
                  a_bin (Some a_bin_sig) (EngineError "no public key")
                  Hp Hin)).
Defined.

(** X14.  A run in which the engine was called and the move was not
    (the engine raised, or the run ended at the gate) has
    changed the file system at most at the quarantine directory and the
    two staged copies: every other location holds what it held, and the
    caller's input and signature files read as they did before. *)
Theorem unmoved_run_keeps_files env argv fs args f s d sd r :
  parse_args argv (boot fs) = (Return args, boot fs) ->
  In (CallVerifyFile f s d sd r) (w_calls (run env argv fs).2) ->
  (forall src dst, ~ In (CallMove src dst) (w_calls (run env argv fs).2)) ->
  (exists kq,
     FS.resolve (e_cwd env) (w_fs (run env argv fs).2) (quarantine env args)
     = Some kq /\
     forall k, k <> kq -> k <> staged_input_at args kq ->
               k <> staged_sig_at args kq ->
               w_fs (run env argv fs).2 !! k = fs !! k) /\
  (forall d0,
     FS.read (e_cwd env) fs (Args.input_path args) = Ok d0 ->
     FS.read (e_cwd env) (w_fs (run env argv fs).2) (Args.input_path args)
     = Ok d0) /\
  (forall d0,
     FS.read (e_cwd env) fs (Args.sig_path args) = Ok d0 ->
     FS.read (e_cwd env) (w_fs (run env argv fs).2) (Args.sig_path args)
     = Ok d0).
Proof.
  destruct (run env argv fs) as [st w] eqn:Hrun. simpl. intros Hp Hin Hnm.
  ways Hrun; same_args; try (in_calls Hin; fail); try (empty_calls Hin).
  all: try (exfalso; eapply Hnm; clear; show_calls;
            solve [repeat (first [left; reflexivity|right])]).
  all: clear Hin Hnm; layout_of L; unfold world; cbn [w_fs].
  all: destruct (layout_resolve _ _ _ _ _ _ _ _ _ _ fs3 L
                   (lay_dirs _ _ _ _ _ _ _ _ _ _ L))
         as (_ & _ & _ & _ & Hri & Hrs).
  all: destruct (layout_lookup _ _ _ _ _ _ _ _ _ _ L)
         as (_ & _ & Hli & Hls & _ & _).
  all: destruct (lay_files _ _ _ _ _ _ _ _ _ _ L) as [Hni Hns].
  all: split; [exists kq; by eapply layout_frame|].
  all: split; intros d0 Hd0.
  all: try (rewrite (original_content _ _ _ _ _ _ _ _ _ Hprep
                       (lay_quarantine _ _ _ _ _ _ _ _ _ _ L)
                       (lay_input _ _ _ _ _ _ _ _ _ _ L)
                       (lay_input_data _ _ _ _ _ _ _ _ _ _ L) d0 Hd0);
            by eapply read_intro).
  all: rewrite (original_content _ _ _ _ _ _ _ _ _ Hprep
                  (lay_quarantine _ _ _ _ _ _ _ _ _ _ L)
                  (lay_sig _ _ _ _ _ _ _ _ _ _ L)
                  (lay_sig_data _ _ _ _ _ _ _ _ _ _ L) d0 Hd0);
    by eapply read_intro.
Qed.

(** The sample run with a marginally trusted key leaves the input alone. *)
Lemma unmoved_run_keeps_files_witness :
  parse_args (sample_argv "/out/a.bin") (boot sample_fs)
  = (Return (sample_args "/out/a.bin"), boot sample_fs) /\
  In (CallVerifyFile "/q/a.bin" "/q/a.bin.sig" a_bin (Some a_bin_sig)
        (Ok (verdict true 2)))
     (w_calls (run (sample_env (Ok (verdict true 2)))
                 (sample_argv "/out/a.bin") sample_fs).2) /\
  (forall src dst,
     ~ In (CallMove src dst)
         (w_calls (run (sample_env (Ok (verdict true 2)))
                     (sample_argv "/out/a.bin") sample_fs).2)) /\
  FS.read (e_cwd (sample_env (Ok (verdict true 2))))
    (w_fs (run (sample_env (Ok (verdict true 2)))
             (sample_argv "/out/a.bin") sample_fs).2)
    (Args.input_path (sample_args "/out/a.bin"))
  = Ok a_bin.
Proof.
  assert (Hp : parse_args (sample_argv "/out/a.bin") (boot sample_fs)
               = (Return (sample_args "/out/a.bin"), boot sample_fs))
    by reflexivity.
  assert (Hin : In (CallVerifyFile "/q/a.bin" "/q/a.bin.sig" a_bin
                      (Some a_bin_sig) (Ok (verdict true 2)))
                  (w_calls (run (sample_env (Ok (verdict true 2)))
                              (sample_argv "/out/a.bin") sample_fs).2))
    by (vm_compute; pick).
  assert (Hnm : forall src dst,
            ~ In (CallMove src dst)
                (w_calls (run (sample_env (Ok (verdict true 2)))
                            (sample_argv "/out/a.bin") sample_fs).2)).
  { intros src dst. vm_compute. intros H.
    repeat match type of H with
    | _ \/ _ => destruct H as [H|H]
    | False => destruct H
    | _ = _ => discriminate H
    end. }
  split; [exact Hp|]. split; [exact Hin|]. split; [exact Hnm|].
  apply (proj1 (proj2 (unmoved_run_keeps_files
                         (sample_env (Ok (verdict true 2)))
                         (sample_argv "/out/a.bin") sample_fs
                         (sample_args "/out/a.bin") "/q/a.bin"
                         "/q/a.bin.sig" a_bin (Some a_bin_sig)
                         (Ok (verdict true 2)) Hp Hin Hnm))).
  vm_compute. reflexivity.
Defined.

(** X15.  When the quarantine directory is there and the input file
    cannot be read, the first copy fails: the run logs that the input
    could not be quarantined and ends with status 1, with the file system
    as it was; the signature is not copied and the engine is not asked to
    verify anything. *)
Theorem unreadable_input_stops_staging env argv fs args p e0 :
  parse_args argv (boot fs) = (Return args, boot fs) ->
  In (CallExists p) (w_calls (run env argv fs).2) ->
  FS.exists_ (e_cwd env) fs (quarantine env args) = true ->
  FS.read (e_cwd env) fs (Args.input_path args) = Raised e0 ->
  (run env argv fs).1 = 1 /\
  w_fs (run env argv fs).2 = fs /\
  w_calls (run env argv fs).2
  = [CallGPG (Args.gpg_home args) (Ok ());
     CallExists (quarantine env args);
     CallCopy (Args.input_path args) (quarantine env args)] /\
  exists before e,
    w_emitted (run env argv fs).2
    = before
      ++ [(installed (Args.log_dest args),
           {| r_level := Logging.ERROR;
              r_msg := MsgQuarantineFailed (Args.input_path args)
                         (Args.quar_dir args) e |})].
Proof.
  destruct (run env argv fs) as [st w] eqn:Hrun. simpl.
  intros Hp Hin Hex Hrd.
  ways Hrun; same_args; try (in_calls Hin; fail); try (empty_calls Hin);
    try congruence; clear Hin; open_staged.
  all: match goal with H : prepared _ _ _ _ _ |- _ =>
         destruct H as [Hex' Hfs1] end.
  all: rewrite Hex in Hex'; subst; try (simpl in Hfs1; subst).
  all: try match goal with
       | H : FS.copy _ _ (Args.input_path _) _ = Ok _ |- _ =>
           apply copy_reads in H as [? H]; congruence
       end.
  get_started Hst. apply started_logger in Hst as [Hlg _].
  split; [done|]. split; [done|]. split; [reflexivity|].
  eexists _, _. unfold world. cbn [w_emitted]. rewrite Hlg.
  unfold msg_quarantine_failed.
  apply logs_snoc; [reflexivity|].
  simpl. unfold threshold. by destruct (Args.log_verbose _).
Qed.

(** The sample command line where the input has not arrived. *)
Lemma unreadable_input_stops_staging_witness :
  parse_args (sample_argv "/out/a.bin") (boot ready_fs)
  = (Return (sample_args "/out/a.bin"), boot ready_fs) /\
  In (CallExists "/q")
     (w_calls (run (sample_env (Ok (verdict true 3)))
                 (sample_argv "/out/a.bin") ready_fs).2) /\
  FS.exists_ (e_cwd (sample_env (Ok (verdict true 3)))) ready_fs
    (quarantine (sample_env (Ok (verdict true 3)))
       (sample_args "/out/a.bin")) = true /\
  FS.read (e_cwd (sample_env (Ok (verdict true 3)))) ready_fs
    (Args.input_path (sample_args "/out/a.bin"))
  = Raised (OSError "ENOENT" "/in/a.bin") /\
  (run (sample_env (Ok (verdict true 3)))
     (sample_argv "/out/a.bin") ready_fs).1 = 1 /\
  w_fs (run (sample_env (Ok (verdict true 3)))
          (sample_argv "/out/a.bin") ready_fs).2 = ready_fs.
Proof.
  assert (Hp : parse_args (sample_argv "/out/a.bin") (boot ready_fs)
               = (Return (sample_args "/out/a.bin"), boot ready_fs))
    by reflexivity.
  assert (Hin : In (CallExists "/q")
                  (w_calls (run (sample_env (Ok (verdict true 3)))
                              (sample_argv "/out/a.bin") ready_fs).2))
    by (vm_compute; pick).
  assert (Hex : FS.exists_ (e_cwd (sample_env (Ok (verdict true 3))))
                  ready_fs
                  (quarantine (sample_env (Ok (verdict true 3)))
                     (sample_args "/out/a.bin")) = true)
    by (vm_compute; reflexivity).
  assert (Hrd : FS.read (e_cwd (sample_env (Ok (verdict true 3)))) ready_fs
                  (Args.input_path (sample_args "/out/a.bin"))
                = Raised (OSError "ENOENT" "/in/a.bin"))
    by (vm_compute; reflexivity).
  split; [exact Hp|]. split; [exact Hin|]. split; [exact Hex|].
  split; [exact Hrd|].
  destruct (unreadable_input_stops_staging
              (sample_env (Ok (verdict true 3)))
              (sample_argv "/out/a.bin") ready_fs
              (sample_args "/out/a.bin") "/q"
              (OSError "ENOENT" "/in/a.bin") Hp Hin Hex Hrd)
    as (H1 & H2 & _).
  split; [exact H1|exact H2].
Defined.

(** X16.  When the quarantine directory is not there and cannot be made,
    the run logs that the input could not be quarantined, with the error
    of [os.mkdir], and ends with status 1: the file system is as it was
    and nothing has been copied. *)
Theorem mkdir_failure_stops_staging env argv fs args p e0 :
  parse_args argv (boot fs) = (Return args, boot fs) ->
  In (CallExists p) (w_calls (run env argv fs).2) ->
  FS.exists_ (e_cwd env) fs (quarantine env args) = false ->
  FS.mkdir (e_cwd env) fs (quarantine env args) = Raised e0 ->
  (run env argv fs).1 = 1 /\
  w_fs (run env argv fs).2 = fs /\
  w_calls (run env argv fs).2
  = [CallGPG (Args.gpg_home args) (Ok ());
     CallExists (quarantine env args);
     CallMkdir (quarantine env args)] /\
  exists before,
    w_emitted (run env argv fs).2
    = before
      ++ [(installed (Args.log_dest args),
           {| r_level := Logging.ERROR;
              r_msg := MsgQuarantineFailed (Args.input_path args)
                         (Args.quar_dir args) e0 |})].
Proof.
  destruct (run env argv fs) as [st w] eqn:Hrun. simpl.
  intros Hp Hin Hex Hmk.
  ways Hrun; same_args; try (in_calls Hin; fail); try (empty_calls Hin);
    clear Hin; open_staged.
  all: try match goal with H : prepared _ _ _ _ _ |- _ =>
         destruct H as [Hex' Hfs1]; rewrite Hex in Hex'; subst;
         try (simpl in Hfs1); congruence end.
  get_started Hst. apply started_logger in Hst as [Hlg _].
  assert (e = e0) as -> by congruence.
  split; [done|]. split; [done|]. split; [reflexivity|].
  eexists. unfold world. cbn [w_emitted]. rewrite Hlg.
  unfold msg_quarantine_failed.
  apply logs_snoc; [reflexivity|].
  simpl. unfold threshold. by destruct (Args.log_verbose _).
Qed.

(** The sample file system has no [/var]. *)
Lemma mkdir_failure_stops_staging_witness :
  parse_args deep_argv (boot sample_fs)
  = (Return deep_args, boot sample_fs) /\
  In (CallExists "/var/spool/q")
     (w_calls (run (sample_env (Ok (verdict true 3))) deep_argv
                 sample_fs).2) /\
  FS.exists_ (e_cwd (sample_env (Ok (verdict true 3)))) sample_fs
    (quarantine (sample_env (Ok (verdict true 3))) deep_args) = false /\
  FS.mkdir (e_cwd (sample_env (Ok (verdict true 3)))) sample_fs
    (quarantine (sample_env (Ok (verdict true 3))) deep_args)
  = Raised (OSError "ENOENT" "/var/spool/q") /\
  (run (sample_env (Ok (verdict true 3))) deep_argv sample_fs).1 = 1 /\
  w_fs (run (sample_env (Ok (verdict true 3))) deep_argv sample_fs).2
  = sample_fs.
Proof.
  assert (Hp : parse_args deep_argv (boot sample_fs)
               = (Return deep_args, boot sample_fs)) by reflexivity.
  assert (Hin : In (CallExists "/var/spool/q")
                  (w_calls (run (sample_env (Ok (verdict true 3)))
                              deep_argv sample_fs).2))
    by (vm_compute; pick).
  assert (Hex : FS.exists_ (e_cwd (sample_env (Ok (verdict true 3))))
                  sample_fs
                  (quarantine (sample_env (Ok (verdict true 3))) deep_args)
                = false) by (vm_compute; reflexivity).
  assert (Hmk : FS.mkdir (e_cwd (sample_env (Ok (verdict true 3))))
                  sample_fs
                  (quarantine (sample_env (Ok (verdict true 3))) deep_args)
                = Raised (OSError "ENOENT" "/var/spool/q"))
    by (vm_compute; reflexivity).
  split; [exact Hp|]. split; [exact Hin|]. split; [exact Hex|].
  split; [exact Hmk|].
  destruct (mkdir_failure_stops_staging
              (sample_env (Ok (verdict true 3))) deep_argv sample_fs
              deep_args "/var/spool/q" (OSError "ENOENT" "/var/spool/q")
              Hp Hin Hex Hmk) as (H1 & H2 & _).
  split; [exact H1|exact H2].
Defined.

(** ** An output path that names a directory *)

Lemma last_replicate_empty (cs : list string) n b :
  List.last (cs ++ replicate (S n) "") "" = b -> b = "".
Proof. rewrite replicate_S_end, app_assoc, last_last. done. Qed.

(** The name [shutil.move] gives the staged file inside a directory. *)
Lemma basename_rstrip_join q b :
  q <> "" -> Path.plain b ->
  Path.basename (Path.rstrip_slash (Path.join q b)) = b.
Proof.
  intros Hq (Hb & Hne & _).
  destruct (split_join q b Hq Hb Hne) as (_ & _ & cs & Hcs & _).
  unfold Path.basename.
  destruct (string_dec (Path.rstrip_slash (Path.join q b)) "") as [E|E].
  - destruct (rstrip_empty_split _ E) as [n Hn]. rewrite Hn in Hcs.
    change (replicate (S n) "") with ([] ++ replicate (S n) "") in Hcs.
    assert (Hl : List.last ([] ++ replicate (S n) "") "" = b)
      by (rewrite Hcs; apply last_last).
    by apply last_replicate_empty in Hl.
  - destruct (split_rstrip _ E) as [[|n] Hn]; rewrite Hn in Hcs.
    + rewrite app_nil_r in Hcs. rewrite Hcs. apply last_last.
    + assert (Hl : List.last (Path.split (Path.rstrip_slash (Path.join q b))
                          ++ replicate (S n) "") "" = b)
        by (rewrite Hcs; apply last_last).
      by apply last_replicate_empty in Hl.
Qed.

(** A successful move of a regular file into a directory. *)
Lemma move_dir_inv cwd fs src dst fs' ks d :
  FS.isdir cwd fs dst = true ->
  FS.resolve cwd fs src = Some ks -> fs !! ks = Some (FS.File d) ->
  ks <> [] ->
  FS.move cwd fs src dst = Ok fs' ->
  exists kd,
    FS.resolve cwd fs
      (Path.join dst (Path.basename (Path.rstrip_slash src))) = Some kd /\
    kd <> [] /\ fs !! kd = None /\
    fs' = <[kd := FS.File d]> (delete ks fs).
Proof.
  intros Hd Hks Hl Hne. unfold FS.move. rewrite Hd.
  destruct (FS.samefile cwd fs src dst) eqn:Hs.
  { unfold FS.samefile in Hs. rewrite Hks in Hs.
    apply isdir_inv in Hd as (k & Hk & Hkd). rewrite Hk in Hs.
    apply andb_prop in Hs as [_ Hs]. apply bool_decide_eq_true in Hs as <-.
    unfold FS.is_dir in Hkd. destruct ks; [done|]. simpl in Hkd.
    by rewrite Hl in Hkd. }
  destruct (FS.exists_ cwd fs _) eqn:Hex; [done|].
  intros Hr.
  apply rename_inv in Hr as (ks' & d' & kd & H1 & H2 & H3 & H4 & ->).
  rewrite Hks in H1. injection H1 as <-. rewrite Hl in H2. injection H2 as <-.
  unfold FS.exists_ in Hex. rewrite H3 in Hex.
  apply present_false in Hex as [Hkd Hnone].
  by exists kd.
Qed.

(** X17.  When the output path names a directory and the run ends with
    status 0, the verified file is in that directory under the basename
    of the input path; it holds the bytes the engine was given, which are
    those of the caller's input file, and that file is still in its
    place. *)
Theorem moved_into_directory env argv fs args :
  parse_args argv (boot fs) = (Return args, boot fs) ->
  (run env argv fs).1 = 0 ->
  FS.isdir (e_cwd env) (w_fs (run env argv fs).2) (Args.output_path args)
  = true ->
  exists d,
    FS.read (e_cwd env) (w_fs (run env argv fs).2)
      (Path.join (Args.output_path args)
         (Path.basename (Args.input_path args)))
    = Ok d /\
    FS.read (e_cwd env) (w_fs (run env argv fs).2) (Args.input_path args)
    = Ok d /\
    (forall d0,
       FS.read (e_cwd env) fs (Args.input_path args) = Ok d0 -> d0 = d) /\
    exists data sig_data v,
      In (CallVerifyFile (staged_input env args) (staged_sig env args)
            data sig_data (Ok v))
         (w_calls (run env argv fs).2) /\
      data = d.
Proof.
  destruct (run env argv fs) as [st w] eqn:Hrun. simpl. intros Hp Hst Hdir.
  ways Hrun; same_args; try done.
  layout_of L.
  match goal with
  | Hmv : FS.move _ ?fs3 _ _ = Ok ?fs4, Hrm : FS.remove _ _ _ = Ok ?fs5 |- _ =>
      rename Hmv into Hmove; rename Hrm into Hremove;
      rename fs4 into fs_moved; rename fs5 into fs_final
  end.
  unfold world in Hdir |- *. cbn [w_fs w_calls] in Hdir |- *.
  destruct (layout_moved _ _ _ _ _ _ _ _ _ _ _ L Hmove)
    as (ko & _ & _ & Hs14 & _).
  destruct (layout_removed _ _ _ _ _ _ _ _ _ _ _ _ L Hs14 Hremove)
    as (Hsp & Hfs5 & Hd15).
  pose proof (lay_dirs _ _ _ _ _ _ _ _ _ _ L) as Hd13.
  assert (Hs35 : FS.same_dirs fs3 fs_final)
    by (intros x; by rewrite <- (Hd13 x), <- (Hd15 x)).
  rewrite <- (isdir_ext _ _ _ _ Hs35) in Hdir.
  destruct (layout_resolve _ _ _ _ _ _ _ _ _ _ fs3 L Hd13)
    as (Hq3 & _ & Hip3 & _).
  destruct (layout_resolve _ _ _ _ _ _ _ _ _ _ fs_final L Hd15)
    as (_ & _ & _ & _ & Hin5 & _).
  destruct (layout_lookup _ _ _ _ _ _ _ _ _ _ L)
    as (Hlip & Hlsp & Hlin & _ & Hneip & Hnesp).
  destruct (move_dir_inv _ _ _ _ _ _ _ Hdir Hip3 Hlip Hneip Hmove)
    as (kd & Hkd & Hkdne & Hnone & Hfs4).
  unfold staged_input in Hkd at 1.
  rewrite basename_rstrip_join in Hkd;
    [|by eapply resolve_not_empty|apply L].
  assert (Hkd_sp : kd <> staged_sig_at args kq) by congruence.
  assert (Hkd_in : kd <> k_in) by congruence.
  destruct Hsp as [x Hx]. rewrite Hfs4 in Hx.
  rewrite lookup_insert_ne in Hx by done.
  assert (Hip_sp : staged_input_at args kq <> staged_sig_at args kq).
  { intros E. by rewrite E, lookup_delete_eq in Hx. }
  pose proof (lay_data _ _ _ _ _ _ _ _ _ _ L) as Hdata.
  rewrite decide_False in Hdata by done.
  destruct (lay_input_apart _ _ _ _ _ _ _ _ _ _ L) as [Hin1 Hin2].
  exists data. split; [|split; [|split]].
  - eapply read_intro; [|done|].
    + by rewrite <- (resolve_ext _ _ _ _ Hs35).
    + subst fs_final fs_moved. rewrite lookup_delete_ne by done.
      apply lookup_insert_eq.
  - eapply read_intro; [done|apply L|].
    subst fs_final fs_moved data.
    rewrite lookup_delete_ne, lookup_insert_ne, lookup_delete_ne by done.
    done.
  - intros d0 Hd0. subst data.
    exact (original_content _ _ _ _ _ _ _ _ _ Hprep
             (lay_quarantine _ _ _ _ _ _ _ _ _ _ L)
             (lay_input _ _ _ _ _ _ _ _ _ _ L)
             (lay_input_data _ _ _ _ _ _ _ _ _ _ L) d0 Hd0).
  - exists data, (sig_found env args fs3), v. split; [|done].
    clear. show_calls; tauto.
Qed.

(** The sample run with the directory [/out] as output path. *)
Lemma moved_into_directory_witness :
  parse_args (sample_argv "/out") (boot sample_fs)
  = (Return (sample_args "/out"), boot sample_fs) /\
  (run (sample_env (Ok (verdict true 3))) (sample_argv "/out")
     sample_fs).1 = 0 /\
  FS.isdir (e_cwd (sample_env (Ok (verdict true 3))))
    (w_fs (run (sample_env (Ok (verdict true 3))) (sample_argv "/out")
             sample_fs).2)
    (Args.output_path (sample_args "/out")) = true /\
  FS.read (e_cwd (sample_env (Ok (verdict true 3))))
    (w_fs (run (sample_env (Ok (verdict true 3))) (sample_argv "/out")
             sample_fs).2)
    "/out/a.bin"
  = Ok a_bin.
Proof.
  assert (Hp : parse_args (sample_argv "/out") (boot sample_fs)
               = (Return (sample_args "/out"), boot sample_fs))
    by reflexivity.
  assert (Hst : (run (sample_env (Ok (verdict true 3))) (sample_argv "/out")
                   sample_fs).1 = 0) by (vm_compute; reflexivity).
  assert (Hdir : FS.isdir (e_cwd (sample_env (Ok (verdict true 3))))
                   (w_fs (run (sample_env (Ok (verdict true 3)))
                            (sample_argv "/out") sample_fs).2)
                   (Args.output_path (sample_args "/out")) = true)
    by (vm_compute; reflexivity).
  split; [exact Hp|]. split; [exact Hst|]. split; [exact Hdir|].
  destruct (moved_into_directory (sample_env (Ok (verdict true 3)))
              (sample_argv "/out") sample_fs (sample_args "/out")
              Hp Hst Hdir) as (d & Hout & _ & Horig & _).
  rewrite <- (Horig a_bin) in Hout by (vm_compute; reflexivity).
  exact Hout.
Defined.

(** ** The script as a whole *)

Lemma first_stop_status argv st :
  first_stop argv = Some st -> st = 0 \/ st = usage_error.
Proof.
  induction argv as [|a argv IH]; [done|].
  destruct a as [v|v|v|[n|]|v|v|v| | | |v|]; simpl; try done;
    try case_bool_decide; try done; intros [= <-]; tauto.
Qed.

Lemma parse_args_exits argv w st w' :
  parse_args argv w = (Exit st, w') -> st = 0 \/ st = usage_error.
Proof.
  unfold parse_args. pose proof (consume_first_stop argv defaults) as Hc.
  destruct (first_stop argv) as [c|] eqn:H0.
  - rewrite Hc. intros [= <- _]. by apply (first_stop_status argv).
  - destruct Hc as [ns ->].
    destruct (p_input ns), (p_sig ns), (p_output ns), (p_extras ns);
      unfold exit; intros H; try discriminate H; injection H as <- _; tauto.
Qed.

Lemma run_status env argv fs :
  (run env argv fs).1 = 0 \/ (run env argv fs).1 = 1 \/
  (run env argv fs).1 = 2.
Proof.
  destruct (run env argv fs) as [st w] eqn:Hrun. simpl.
  ways Hrun; try tauto.
  match goal with H : parse_args _ _ = (Exit _, _) |- _ =>
    apply parse_args_exits in H as [->| ->] end; tauto.
Qed.

(** X18.  The script ends with status 3 exactly when one of its imports
    fails, and then before anything else has happened; otherwise it ends
    as [main] does, with status 0, 1 or 2. *)
Theorem script_exit_status import_error env argv fs :
  ((script import_error env argv fs).1 = 3 <-> is_Some import_error) /\
  (is_Some import_error -> (script import_error env argv fs).2 = boot fs) /\
  (import_error = None ->
   script import_error env argv fs = run env argv fs /\
   ((script import_error env argv fs).1 = 0 \/
    (script import_error env argv fs).1 = 1 \/
    (script import_error env argv fs).1 = 2)).
Proof.
  pose proof (run_status env argv fs) as Hr.
  destruct import_error as [m|]; simpl.
  - split; [split; [by eexists|done]|]. split; [done|]. done.
  - split; [split; [lia|by intros []]|]. split; [by intros []|]. done.
Qed.

(** ** Logging options *)

Lemma logs_at_info lg h msgs :
  Logging.handlers lg = [h] -> Logging.level lg <= Logging.INFO ->
  map snd (List.filter at_info (logs lg msgs))
  = map (fun lm => {| r_level := lm.1; r_msg := lm.2 |})
      (List.filter (fun lm => Logging.INFO <=? lm.1) msgs).
Proof.
  intros Hh Hl. induction msgs as [|[l m] msgs IH]; [done|].
  rewrite logs_cons, List.filter_app, map_app, IH.
  rewrite (deliver_one _ _ _ _ Hh). simpl.
  destruct (Z.ltb_spec l (Logging.level lg)).
  - destruct (Z.leb_spec Logging.INFO l); [lia|done].
  - unfold at_info. simpl. by destruct (Logging.INFO <=? l).
Qed.

Lemma log_init_returns_for env dest verbose w :
  dest ∈ log_dest_choices -> dest <> "syslog" ->
  exists w0, log_init env dest verbose w = (Return (), w0).
Proof.
  intros Hin Hd. apply list_elem_of_In in Hin. simpl in Hin.
  destruct Hin as [<-|[<-|[<-|[]]]]; [|done|];
    destruct verbose; unfold log_init; cbn; eexists; reflexivity.
Qed.

(** Take every hypothesis about the ways of two runs apart. *)
Ltac open_ways :=
  repeat match goal with
  | H : verified _ _ _ _ _ _ _ _ _ |- _ => destruct H as (? & ? & ?)
  | H : staged _ _ _ _ _ _ _ |- _ =>
      destruct H as (? & ? & ? & ? & ? & ? & ?)
  | H : started _ _ _ _ _ |- _ => destruct H as [? ?]
  | H : prepared _ _ _ ?t _ |- _ =>
      let Hx := fresh "Hx" in
      let Hy := fresh "Hy" in
      destruct H as [Hx Hy]; destruct t; simpl in Hy
  end.

(** Two equations for one call: the results are the same. *)
Ltac unify_results :=
  repeat match goal with
  | A : ?t = ?u, B : ?t = ?v |- _ =>
      rewrite A in B;
      first [discriminate B | injection B as <- | clear B]
  | A : ?x = _ |- _ => is_var x; subst x
  end.

(** X19.  Two command lines that ask for the same thing and differ only
    in the logging options, with destinations other than [syslog], take
    the same course: the same exit status, the same file system at the
    end, the same calls, and the same records at level [INFO] and
    above. *)
Theorem logging_options_do_not_steer env fs argv argv' args args' :
  parse_args argv (boot fs) = (Return args, boot fs) ->
  parse_args argv' (boot fs) = (Return args', boot fs) ->
  same_request args args' ->
  Args.log_dest args <> "syslog" -> Args.log_dest args' <> "syslog" ->
  (run env argv fs).1 = (run env argv' fs).1 /\
  w_fs (run env argv fs).2 = w_fs (run env argv' fs).2 /\
  w_calls (run env argv fs).2 = w_calls (run env argv' fs).2 /\
  map snd (List.filter at_info (w_emitted (run env argv fs).2))
  = map snd (List.filter at_info (w_emitted (run env argv' fs).2)).
Proof.
  intros Hp Hp' (E1 & E2 & E3 & E4 & E5 & E6) Hd Hd'.
  destruct (log_init_returns_for env (Args.log_dest args)
              (Args.log_verbose args) (boot fs)) as [w0 Hli];
    [by apply (parse_args_choices _ _ _ _ Hp)|done|].
  destruct (log_init_returns_for env (Args.log_dest args')
              (Args.log_verbose args') (boot fs)) as [w0' Hli'];
    [by apply (parse_args_choices _ _ _ _ Hp')|done|].
  destruct (started_logger env argv fs args w0 (conj Hp Hli)) as [Hlg _].
  destruct (started_logger env argv' fs args' w0' (conj Hp' Hli'))
    as [Hlg' _].
  destruct (run env argv fs) as [st w] eqn:Hrun.
  destruct (run env argv' fs) as [st' w'] eqn:Hrun'. simpl.
  apply run_way in Hrun. apply run_way in Hrun'.
  inversion Hrun; clear Hrun; inversion Hrun'; clear Hrun'; subst.
  all: open_ways.
  all: repeat match goal with
       | A : parse_args ?v ?x = _, B : parse_args ?v ?x = _ |- _ =>
           rewrite A in B;
           first [discriminate B | injection B as <- | clear B]
       end.
  all: repeat match goal with
       | A : log_init ?e ?d ?v ?x = _, B : log_init ?e ?d ?v ?x = _ |- _ =>
           rewrite A in B;
           first [discriminate B | injection B as <- | clear B]
       end.
  all: unfold world, calls_moved, calls_verified, calls_staged,
         calls_prepare in *;
       unfold sig_found in *; unfold staged_input, staged_sig in *;
       unfold quarantine in *;
       cbn [w_fs w_calls w_emitted] in *.
  all: rewrite <- ?E1, <- ?E2, <- ?E3, <- ?E4, <- ?E5, <- ?E6 in *.
  all: unify_results.
  all: try lia.
  all: split; [done|]; split; [done|]; split; [done|].
  all: rewrite (logs_at_info _ _ _ (f_equal Logging.handlers Hlg)),
         (logs_at_info _ _ _ (f_equal Logging.handlers Hlg'));
       try (rewrite ?Hlg, ?Hlg'; simpl; unfold threshold;
            by destruct (Args.log_verbose args), (Args.log_verbose args')).
  all: f_equal.
  all: unfold msgs_moving, msgs_signed, msgs_gate, msgs_staged, msgs_copy,
         msgs_prepare, msgs_gnupg, msg_quarantine_failed, msg_create_failed;
       unfold staged_input, staged_sig; unfold quarantine.
  all: rewrite <- ?E1, <- ?E2, <- ?E3, <- ?E4, <- ?E5, <- ?E6.
  all: simpl; congruence.
Qed.

(** The sample run, quiet on the stream and verbose into nothing. *)
Lemma logging_options_do_not_steer_witness :
  parse_args (sample_argv "/out/a.bin") (boot sample_fs)
  = (Return (sample_args "/out/a.bin"), boot sample_fs) /\
  parse_args loud_argv (boot sample_fs)
  = (Return loud_args, boot sample_fs) /\
  same_request (sample_args "/out/a.bin") loud_args /\
  Args.log_dest (sample_args "/out/a.bin") <> "syslog" /\
  Args.log_dest loud_args <> "syslog" /\
  (run (sample_env (Ok (verdict true 3)))
     (sample_argv "/out/a.bin") sample_fs).1
  = (run (sample_env (Ok (verdict true 3))) loud_argv sample_fs).1 /\
  w_fs (run (sample_env (Ok (verdict true 3)))
          (sample_argv "/out/a.bin") sample_fs).2
  = w_fs (run (sample_env (Ok (verdict true 3))) loud_argv sample_fs).2.
Proof.
  assert (Hp : parse_args (sample_argv "/out/a.bin") (boot sample_fs)
               = (Return (sample_args "/out/a.bin"), boot sample_fs))
    by reflexivity.
  assert (Hp' : parse_args loud_argv (boot sample_fs)
                = (Return loud_args, boot sample_fs)) by reflexivity.
  assert (Hs : same_request (sample_args "/out/a.bin") loud_args)
    by (repeat split; reflexivity).
  assert (Hd : Args.log_dest (sample_args "/out/a.bin") <> "syslog")
    by (simpl; discriminate).
  assert (Hd' : Args.log_dest loud_args <> "syslog")
    by (simpl; discriminate).
  split; [exact Hp|]. split; [exact Hp'|]. split; [exact Hs|].
  split; [exact Hd|]. split; [exact Hd'|].
  destruct (logging_options_do_not_steer (sample_env (Ok (verdict true 3)))
              sample_fs (sample_argv "/out/a.bin") loud_argv
              (sample_args "/out/a.bin") loud_args Hp Hp' Hs Hd Hd')
    as (H1 & H2 & _).
  split; [exact H1|exact H2].
Defined.

(** ** What the engine is given *)

(** X20.  When the input and the signature have different basenames,
    the engine is given the bytes of the caller's input file as data and
    finds the bytes of the caller's signature file at the signature
    path. *)
Theorem engine_sees_callers_bytes env argv fs args f s d sd r :
  parse_args argv (boot fs) = (Return args, boot fs) ->
  Path.basename (Args.input_path args)
  <> Path.basename (Args.sig_path args) ->
  In (CallVerifyFile f s d sd r) (w_calls (run env argv fs).2) ->
  staged_input env args <> staged_sig env args /\
  (forall d0,
     FS.read (e_cwd env) fs (Args.input_path args) = Ok d0 -> d0 = d) /\
  exists d_sig,
    sd = Some d_sig /\
    forall d0,
      FS.read (e_cwd env) fs (Args.sig_path args) = Ok d0 -> d0 = d_sig.
Proof.
  destruct (run env argv fs) as [st w] eqn:Hrun. simpl. intros Hp Hb Hin.
  ways Hrun; same_args; try (in_calls Hin; fail); try (empty_calls Hin).
  all: layout_of L.
  all: in_calls Hin; injection Hin as <- <- <- <- <-.
  all: pose proof (lay_data _ _ _ _ _ _ _ _ _ _ L) as Hdata.
  all: rewrite decide_False in Hdata
         by (unfold staged_input_at, staged_sig_at; intros E;
             by apply snoc_inj in E as [_ E]).
  all: subst data.
  all: split;
    [intros E;
     assert (Hr : FS.resolve (e_cwd env) fs3 (staged_input env args)
                  = FS.resolve (e_cwd env) fs3 (staged_sig env args))
       by (by rewrite E);
     destruct (layout_resolve _ _ _ _ _ _ _ _ _ _ fs3 L
                 (lay_dirs _ _ _ _ _ _ _ _ _ _ L))
       as (_ & _ & Hi & Hs & _);
     rewrite Hi, Hs in Hr; injection Hr as Hr;
     unfold staged_input_at, staged_sig_at in Hr;
     by apply snoc_inj in Hr as [_ Hr]|].
  all: split;
    [exact (original_content _ _ _ _ _ _ _ _ _ Hprep
              (lay_quarantine _ _ _ _ _ _ _ _ _ _ L)
              (lay_input _ _ _ _ _ _ _ _ _ _ L)
              (lay_input_data _ _ _ _ _ _ _ _ _ _ L))|].
  all: exists d_sig; split; [apply L|].
  all: exact (original_content _ _ _ _ _ _ _ _ _ Hprep
                (lay_quarantine _ _ _ _ _ _ _ _ _ _ L)
                (lay_sig _ _ _ _ _ _ _ _ _ _ L)
                (lay_sig_data _ _ _ _ _ _ _ _ _ _ L)).
Qed.

(** The sample run: [a.bin] and [a.bin.sig]. *)
Lemma engine_sees_callers_bytes_witness :
  parse_args (sample_argv "/out/a.bin") (boot sample_fs)
  = (Return (sample_args "/out/a.bin"), boot sample_fs) /\
  Path.basename (Args.input_path (sample_args "/out/a.bin"))
  <> Path.basename (Args.sig_path (sample_args "/out/a.bin")) /\
  In (CallVerifyFile "/q/a.bin" "/q/a.bin.sig" a_bin (Some a_bin_sig)
        (Ok (verdict true 3)))
     (w_calls (run (sample_env (Ok (verdict true 3)))
                 (sample_argv "/out/a.bin") sample_fs).2) /\
  forall d0,
    FS.read (e_cwd (sample_env (Ok (verdict true 3)))) sample_fs
      (Args.input_path (sample_args "/out/a.bin")) = Ok d0 ->
    d0 = a_bin.
Proof.
  assert (Hp : parse_args (sample_argv "/out/a.bin") (boot sample_fs)
               = (Return (sample_args "/out/a.bin"), boot sample_fs))
    by reflexivity.
  assert (Hb : Path.basename (Args.input_path (sample_args "/out/a.bin"))
               <> Path.basename (Args.sig_path (sample_args "/out/a.bin")))
    by (vm_compute; discriminate).
  assert (Hin : In (CallVerifyFile "/q/a.bin" "/q/a.bin.sig" a_bin
                      (Some a_bin_sig) (Ok (verdict true 3)))
                  (w_calls (run (sample_env (Ok (verdict true 3)))
                              (sample_argv "/out/a.bin") sample_fs).2))
    by (vm_compute; pick).
  split; [exact Hp|]. split; [exact Hb|]. split; [exact Hin|].
  exact (proj1 (proj2 (engine_sees_callers_bytes
                         (sample_env (Ok (verdict true 3)))
                         (sample_argv "/out/a.bin") sample_fs
                         (sample_args "/out/a.bin") "/q/a.bin"
                         "/q/a.bin.sig" a_bin (Some a_bin_sig)
                         (Ok (verdict true 3)) Hp Hb Hin))).
Defined.

(** ** A signature that is not there *)

(** A copy into a directory, of a file that can be read, to a name that
    is neither the file itself nor a directory. *)
Lemma copy_into_dir cwd fs src q d :
  FS.isdir cwd fs q = true ->
  FS.read cwd fs src = Ok d ->
  FS.resolve cwd fs src
  <> FS.resolve cwd fs (Path.join q (Path.basename src)) ->
  FS.isdir cwd fs (Path.join q (Path.basename src)) = false ->
  exists kq,
    FS.resolve cwd fs q = Some kq /\
    Path.plain (Path.basename src) /\
    FS.copy cwd fs src q
    = Ok (<[kq ++ [Path.basename src] := FS.File d]> fs).
Proof.
  intros Hq Hrd Hne Hnd.
  apply isdir_inv in Hq as (kq & Hkq & Hkqd).
  pose proof Hrd as Hrd'.
  apply read_inv in Hrd' as (ks & Hks & Hl & Hkd).
  destruct (resolve_file_plain _ _ _ _ Hks Hkd) as [Hplain _].
  assert (Hqne : q <> "") by by eapply resolve_not_empty.
  assert (Hdst : FS.resolve cwd fs (Path.join q (Path.basename src))
                 = Some (kq ++ [Path.basename src]))
    by (by rewrite (resolve_join _ _ _ _ Hqne Hplain), Hkq, Hkqd).
  exists kq. split; [done|]. split; [done|].
  unfold FS.copy, FS.copyfile, FS.isdir. rewrite Hkq, Hkqd.
  unfold FS.samefile. rewrite Hks, Hdst.
  rewrite bool_decide_eq_false_2, andb_false_r by congruence.
  rewrite Hrd. unfold FS.write. rewrite Hdst.
  unfold FS.isdir in Hnd. rewrite Hdst in Hnd. unfold FS.is_dir in Hnd.
  by destruct (FS.node_at fs (kq ++ [Path.basename src])) as [[]|].
Qed.

(** After the input has been copied into the directory, a signature
    that could not be read before is not copied. *)
Lemma copy_of_missing_fails (cwd : FS.key) (fs : FS.t) q kq b d sig e fs3 :
  FS.resolve cwd fs q = Some kq -> FS.is_dir fs kq = true ->
  FS.is_dir fs (kq ++ [b]) = false ->
  FS.read cwd fs sig = Raised e ->
  FS.copy cwd (<[kq ++ [b] := FS.File d]> fs) sig q = Ok fs3 -> False.
Proof.
  intros Hkq Hkqd Hbd Hrd Hc.
  pose proof (same_dirs_insert_file fs (kq ++ [b]) d Hbd) as Hs.
  apply copy_inv in Hc as (ks & d' & kd & Hks & Hl & Hksd & Hkd & _ & Hne & _).
  rewrite <- (isdir_ext cwd _ _ q Hs) in Hkd.
  rewrite <- (resolve_ext cwd _ _ _ Hs) in Hkd.
  rewrite <- (resolve_ext cwd _ _ _ Hs) in Hks.
  rewrite <- (Hs ks) in Hksd.
  assert (Hisd : FS.isdir cwd fs q = true)
    by (unfold FS.isdir; by rewrite Hkq).
  rewrite Hisd in Hkd.
  destruct (resolve_file_plain _ _ _ _ Hks Hksd) as [Hplain [k' Hk']].
  assert (Hqne : q <> "") by by eapply resolve_not_empty.
  rewrite (resolve_join _ _ _ _ Hqne Hplain), Hkq, Hkqd in Hkd.
  injection Hkd as <-.
  destruct (decide (ks = kq ++ [b])) as [E|E].
  - rewrite E in Hk'. apply snoc_inj in Hk' as [_ Hb]. apply Hne.
    by rewrite E, Hb.
  - rewrite lookup_insert_ne in Hl by done.
    rewrite (read_intro cwd fs sig ks d' Hks) in Hrd; [done| |done].
    by eapply is_dir_false_not_root.
Qed.

(** X21.  When the quarantine directory is there, the input can be
    copied into it and the signature cannot be read, the run ends with
    status 1 after the second copy, with the error logged, and does not
    clean up: the copy of the input stays in the quarantine directory, the
    only change to the file system.  The engine is not asked to verify
    anything. *)
Theorem missing_signature_leaves_input_copy env argv fs args p d e1 :
  parse_args argv (boot fs) = (Return args, boot fs) ->
  In (CallExists p) (w_calls (run env argv fs).2) ->
  FS.isdir (e_cwd env) fs (quarantine env args) = true ->
  FS.read (e_cwd env) fs (Args.input_path args) = Ok d ->
  FS.resolve (e_cwd env) fs (Args.input_path args)
  <> FS.resolve (e_cwd env) fs (staged_input env args) ->
  FS.isdir (e_cwd env) fs (staged_input env args) = false ->
  FS.read (e_cwd env) fs (Args.sig_path args) = Raised e1 ->
  (run env argv fs).1 = 1 /\
  w_calls (run env argv fs).2
  = [CallGPG (Args.gpg_home args) (Ok ());
     CallExists (quarantine env args);
     CallCopy (Args.input_path args) (quarantine env args);
     CallCopy (Args.sig_path args) (quarantine env args)] /\
  FS.read (e_cwd env) (w_fs (run env argv fs).2) (staged_input env args)
  = Ok d /\
  (exists kq,
     FS.resolve (e_cwd env) fs (quarantine env args) = Some kq /\
     w_fs (run env argv fs).2
     = <[staged_input_at args kq := FS.File d]> fs) /\
  exists before e,
    w_emitted (run env argv fs).2
    = before
      ++ [(installed (Args.log_dest args),
           {| r_level := Logging.ERROR;
              r_msg := MsgQuarantineFailed (Args.input_path args)
                         (Args.quar_dir args) e |})].
Proof.
  destruct (run env argv fs) as [st w] eqn:Hrun. simpl.
  intros Hp Hin Hq Hrd Hne Hnd Hsig.
  destruct (copy_into_dir _ _ _ _ _ Hq Hrd Hne Hnd)
    as (kq & Hkq & Hplain & Hcopy).
  assert (Hex : FS.exists_ (e_cwd env) fs (quarantine env args) = true).
  { apply isdir_inv in Hq as (k & Hk & Hkd). unfold FS.exists_.
    rewrite Hk. by apply is_dir_present. }
  assert (Hkqd : FS.is_dir fs kq = true).
  { unfold FS.isdir in Hq. by rewrite Hkq in Hq. }
  assert (Hbd : FS.is_dir fs (kq ++ [Path.basename (Args.input_path args)])
                = false).
  { unfold FS.isdir, staged_input in Hnd.
    rewrite resolve_join, Hkq, Hkqd in Hnd;
      [done|by eapply resolve_not_empty|done]. }
  ways Hrun; same_args; try (in_calls Hin; fail); try (empty_calls Hin);
    try congruence; clear Hin; open_staged.
  all: match goal with H : prepared _ _ _ _ _ |- _ =>
         destruct H as [Hex' Hfs1] end.
  all: rewrite Hex in Hex'; subst; try (simpl in Hfs1; subst).
  all: try congruence.
  all: repeat match goal with
       | A : FS.copy ?c ?f ?s ?q = Ok _, B : FS.copy ?c ?f ?s ?q = Ok _ |- _ =>
           rewrite A in B; injection B as <-
       end.
  all: try (exfalso; eapply copy_of_missing_fails; eassumption).
  get_started Hst. apply started_logger in Hst as [Hlg _].
  split; [done|]. split; [reflexivity|]. unfold world. cbn [w_fs w_emitted].
  split; [|split].
  - eapply read_intro.
    + rewrite <- (resolve_ext _ _ _ _
                    (same_dirs_insert_file fs _ d Hbd)).
      unfold staged_input.
      rewrite resolve_join, Hkq, Hkqd;
        [done|by eapply resolve_not_empty|done].
    + by destruct kq.
    + apply lookup_insert_eq.
  - by exists kq.
  - eexists _, _. rewrite Hlg. unfold msg_quarantine_failed.
    apply logs_snoc; [reflexivity|].
    simpl. unfold threshold. by destruct (Args.log_verbose _).
Qed.

(** The sample command line where the signature has not arrived. *)
Lemma missing_signature_leaves_input_copy_witness :
  parse_args (sample_argv "/out/a.bin") (boot unsigned_fs)
  = (Return (sample_args "/out/a.bin"), boot unsigned_fs) /\
  In (CallExists "/q")
     (w_calls (run (sample_env (Ok (verdict true 3)))
                 (sample_argv "/out/a.bin") unsigned_fs).2) /\
  (run (sample_env (Ok (verdict true 3)))
     (sample_argv "/out/a.bin") unsigned_fs).1 = 1 /\
  FS.read (e_cwd (sample_env (Ok (verdict true 3))))
    (w_fs (run (sample_env (Ok (verdict true 3)))
             (sample_argv "/out/a.bin") unsigned_fs).2)
    (staged_input (sample_env (Ok (verdict true 3)))
       (sample_args "/out/a.bin"))
  = Ok a_bin.
Proof.
  assert (Hp : parse_args (sample_argv "/out/a.bin") (boot unsigned_fs)
               = (Return (sample_args "/out/a.bin"), boot unsigned_fs))
    by reflexivity.
  assert (Hin : In (CallExists "/q")
                  (w_calls (run (sample_env (Ok (verdict true 3)))
                              (sample_argv "/out/a.bin") unsigned_fs).2))
    by (vm_compute; pick).
  assert (Hq : FS.isdir (e_cwd (sample_env (Ok (verdict true 3))))
                 unsigned_fs
                 (quarantine (sample_env (Ok (verdict true 3)))
                    (sample_args "/out/a.bin")) = true)
    by (vm_compute; reflexivity).
  assert (Hrd : FS.read (e_cwd (sample_env (Ok (verdict true 3))))
                  unsigned_fs (Args.input_path (sample_args "/out/a.bin"))
                = Ok a_bin) by (vm_compute; reflexivity).
  assert (Hne : FS.resolve (e_cwd (sample_env (Ok (verdict true 3))))
                  unsigned_fs (Args.input_path (sample_args "/out/a.bin"))
                <> FS.resolve (e_cwd (sample_env (Ok (verdict true 3))))
                     unsigned_fs
                     (staged_input (sample_env (Ok (verdict true 3)))
                        (sample_args "/out/a.bin")))
    by (vm_compute; discriminate).
  assert (Hnd : FS.isdir (e_cwd (sample_env (Ok (verdict true 3))))
                  unsigned_fs
                  (staged_input (sample_env (Ok (verdict true 3)))
                     (sample_args "/out/a.bin")) = false)
    by (vm_compute; reflexivity).
  assert (Hsig : FS.read (e_cwd (sample_env (Ok (verdict true 3))))
                   unsigned_fs (Args.sig_path (sample_args "/out/a.bin"))
                 = Raised (OSError "ENOENT" "/in/a.bin.sig"))
    by (vm_compute; reflexivity).
  split; [exact Hp|]. split; [exact Hin|].
  destruct (missing_signature_leaves_input_copy
              (sample_env (Ok (verdict true 3)))
              (sample_argv "/out/a.bin") unsigned_fs
              (sample_args "/out/a.bin") "/q" a_bin
              (OSError "ENOENT" "/in/a.bin.sig")
              Hp Hin Hq Hrd Hne Hnd Hsig) as (H1 & _ & H3 & _).
  split; [exact H1|exact H3].
Defined.

(** ** An input that is already in the quarantine directory *)

Lemma copy_same_file (cwd : FS.key) (fs : FS.t) src q d :
  FS.isdir cwd fs q = true ->
  FS.read cwd fs src = Ok d ->
  FS.resolve cwd fs src
  = FS.resolve cwd fs (Path.join q (Path.basename src)) ->
  FS.copy cwd fs src q = Raised (ShutilError "same file" src).
Proof.
  intros Hq Hrd He. unfold FS.copy, FS.copyfile. rewrite Hq.
  apply read_inv in Hrd as (ks & Hks & Hl & Hkd).
  unfold FS.samefile. rewrite <- He, Hks.
  assert (Hp : FS.present fs ks = true).
  { unfold FS.present. destruct ks; [done|]. simpl. by rewrite Hl. }
  by rewrite Hp, bool_decide_eq_true_2.
Qed.

(** X22.  When the input path already names the file the copy would
    write, the entry of the quarantine directory with the input's
    basename, [shutil.copy] refuses to copy the file onto itself: the run
    logs the error and ends with status 1, the file system is as it was,
    and neither the signature is copied nor the engine asked. *)
Theorem input_in_quarantine_refused env argv fs args p d :
  parse_args argv (boot fs) = (Return args, boot fs) ->
  In (CallExists p) (w_calls (run env argv fs).2) ->
  FS.isdir (e_cwd env) fs (quarantine env args) = true ->
  FS.read (e_cwd env) fs (Args.input_path args) = Ok d ->
  FS.resolve (e_cwd env) fs (Args.input_path args)
  = FS.resolve (e_cwd env) fs (staged_input env args) ->
  (run env argv fs).1 = 1 /\
  w_fs (run env argv fs).2 = fs /\
  w_calls (run env argv fs).2
  = [CallGPG (Args.gpg_home args) (Ok ());
     CallExists (quarantine env args);
     CallCopy (Args.input_path args) (quarantine env args)] /\
  exists before,
    w_emitted (run env argv fs).2
    = before
      ++ [(installed (Args.log_dest args),
           {| r_level := Logging.ERROR;
              r_msg := MsgQuarantineFailed (Args.input_path args)
                         (Args.quar_dir args)
                         (ShutilError "same file" (Args.input_path args)) |})].
Proof.
  destruct (run env argv fs) as [st w] eqn:Hrun. simpl.
  intros Hp Hin Hq Hrd He.
  pose proof (copy_same_file _ _ _ _ _ Hq Hrd He) as Hcopy.
  assert (Hex : FS.exists_ (e_cwd env) fs (quarantine env args) = true).
  { apply isdir_inv in Hq as (k & Hk & Hkd). unfold FS.exists_.
    rewrite Hk. by apply is_dir_present. }
  ways Hrun; same_args; try (in_calls Hin; fail); try (empty_calls Hin);
    try congruence; clear Hin; open_staged.
  all: match goal with H : prepared _ _ _ _ _ |- _ =>
         destruct H as [Hex' Hfs1] end.
  all: rewrite Hex in Hex'; subst; try (simpl in Hfs1; subst).
  all: try congruence.
  get_started Hst. apply started_logger in Hst as [Hlg _].
  match goal with
  | H : FS.copy _ _ _ _ = Raised ?e |- _ =>
      assert (e = ShutilError "same file" (Args.input_path args)) as ->
        by congruence
  end.
  split; [done|]. split; [done|]. split; [reflexivity|].
  eexists. unfold world. cbn [w_emitted]. rewrite Hlg.
  unfold msg_quarantine_failed.
  apply logs_snoc; [reflexivity|].
  simpl. unfold threshold. by destruct (Args.log_verbose _).
Qed.

(** The sample command line with the input taken from the quarantine
    directory. *)
Lemma input_in_quarantine_refused_witness :
  parse_args inside_argv (boot inside_fs)
  = (Return inside_args, boot inside_fs) /\
  In (CallExists "/q")
     (w_calls (run (sample_env (Ok (verdict true 3))) inside_argv
                 inside_fs).2) /\
  FS.isdir (e_cwd (sample_env (Ok (verdict true 3)))) inside_fs
    (quarantine (sample_env (Ok (verdict true 3))) inside_args) = true /\
  FS.read (e_cwd (sample_env (Ok (verdict true 3)))) inside_fs
    (Args.input_path inside_args) = Ok a_bin /\
  FS.resolve (e_cwd (sample_env (Ok (verdict true 3)))) inside_fs
    (Args.input_path inside_args)
  = FS.resolve (e_cwd (sample_env (Ok (verdict true 3)))) inside_fs
      (staged_input (sample_env (Ok (verdict true 3))) inside_args) /\
  (run (sample_env (Ok (verdict true 3))) inside_argv inside_fs).1 = 1 /\
  w_fs (run (sample_env (Ok (verdict true 3))) inside_argv inside_fs).2
  = inside_fs.
Proof.
  assert (Hp : parse_args inside_argv (boot inside_fs)
               = (Return inside_args, boot inside_fs)) by reflexivity.
  assert (Hin : In (CallExists "/q")
                  (w_calls (run (sample_env (Ok (verdict true 3)))
                              inside_argv inside_fs).2))
    by (vm_compute; pick).
  assert (Hq : FS.isdir (e_cwd (sample_env (Ok (verdict true 3))))
                 inside_fs
                 (quarantine (sample_env (Ok (verdict true 3)))
                    inside_args) = true) by (vm_compute; reflexivity).
  assert (Hrd : FS.read (e_cwd (sample_env (Ok (verdict true 3))))
                  inside_fs (Args.input_path inside_args) = Ok a_bin)
    by (vm_compute; reflexivity).
  assert (He : FS.resolve (e_cwd (sample_env (Ok (verdict true 3))))
                 inside_fs (Args.input_path inside_args)
               = FS.resolve (e_cwd (sample_env (Ok (verdict true 3))))
                   inside_fs
                   (staged_input (sample_env (Ok (verdict true 3)))
                      inside_args)) by (vm_compute; reflexivity).
  split; [exact Hp|]. split; [exact Hin|]. split; [exact Hq|].
  split; [exact Hrd|]. split; [exact He|].
  destruct (input_in_quarantine_refused (sample_env (Ok (verdict true 3)))
              inside_argv inside_fs inside_args "/q" a_bin
              Hp Hin Hq Hrd He) as (H1 & H2 & _).
  split; [exact H1|exact H2].
Defined.

(** ** The required trust level *)

(** X23.  Lowering the required trust level never turns a release into a
    rejection: when a run ends with status 0, the run of a command line
    that differs only in a lower [--trust-level] ends with status 0 too,
    after the same calls and with the same file system. *)
Theorem lower_requirement_still_passes env fs argv argv' args args' :
  parse_args argv (boot fs) = (Return args, boot fs) ->
  parse_args argv' (boot fs) = (Return args', boot fs) ->
  Args.input_path args' = Args.input_path args ->
  Args.sig_path args' = Args.sig_path args ->
  Args.output_path args' = Args.output_path args ->
  Args.quar_dir args' = Args.quar_dir args ->
  Args.gpg_home args' = Args.gpg_home args ->
  Args.log_dest args' = Args.log_dest args ->
  Args.log_verbose args' = Args.log_verbose args ->
  Args.required_trust_level args' <= Args.required_trust_level args ->
  (run env argv fs).1 = 0 ->
  (run env argv' fs).1 = 0 /\
  w_fs (run env argv' fs).2 = w_fs (run env argv fs).2 /\
  w_calls (run env argv' fs).2 = w_calls (run env argv fs).2.
Proof.
  intros Hp Hp' E1 E2 E3 E5 E6 E7 E8 Hle.
  destruct (run env argv fs) as [st w] eqn:Hrun.
  destruct (run env argv' fs) as [st' w'] eqn:Hrun'. simpl. intros Hst.
  apply run_way in Hrun. apply run_way in Hrun'.
  inversion Hrun; clear Hrun; subst; try discriminate;
    try match goal with
    | A : parse_args ?v ?x = _, B : parse_args ?v ?x = _ |- _ =>
        rewrite A in B; discriminate B
    end.
  inversion Hrun'; clear Hrun'; subst.
  all: open_ways.
  all: repeat match goal with
       | A : parse_args ?v ?x = _, B : parse_args ?v ?x = _ |- _ =>
           rewrite A in B;
           first [discriminate B | injection B as <- | clear B]
       end.
  all: unfold world, calls_moved, calls_verified, calls_staged,
         calls_prepare in *;
       unfold sig_found in *; unfold staged_input, staged_sig in *;
       unfold quarantine in *;
       cbn [w_fs w_calls w_emitted] in *.
  all: rewrite ?E1, ?E2, ?E3, ?E5, ?E6, ?E7, ?E8 in *.
  all: unify_results.
  all: try lia.
  all: done.
Qed.

(** The sample command line asks for full trust by default; the same
    with [--trust-level 2]. *)
Lemma lower_requirement_still_passes_witness :
  parse_args (sample_argv "/out/a.bin") (boot sample_fs)
  = (Return (sample_args "/out/a.bin"), boot sample_fs) /\
  parse_args lenient_argv (boot sample_fs)
  = (Return lenient_args, boot sample_fs) /\
  Args.required_trust_level lenient_args
  <= Args.required_trust_level (sample_args "/out/a.bin") /\
  (run (sample_env (Ok (verdict true 3)))
     (sample_argv "/out/a.bin") sample_fs).1 = 0 /\
  (run (sample_env (Ok (verdict true 3))) lenient_argv sample_fs).1 = 0.
Proof.
  assert (Hp : parse_args (sample_argv "/out/a.bin") (boot sample_fs)
               = (Return (sample_args "/out/a.bin"), boot sample_fs))
    by reflexivity.
  assert (Hp' : parse_args lenient_argv (boot sample_fs)
                = (Return lenient_args, boot sample_fs)) by reflexivity.
  assert (Hle : Args.required_trust_level lenient_args
                <= Args.required_trust_level (sample_args "/out/a.bin"))
    by (simpl; lia).
  assert (Hst : (run (sample_env (Ok (verdict true 3)))
                   (sample_argv "/out/a.bin") sample_fs).1 = 0)
    by (vm_compute; reflexivity).
  split; [exact Hp|]. split; [exact Hp'|]. split; [exact Hle|].
  split; [exact Hst|].
  exact (proj1 (lower_requirement_still_passes
                  (sample_env (Ok (verdict true 3))) sample_fs
                  (sample_argv "/out/a.bin") lenient_argv
                  (sample_args "/out/a.bin") lenient_args
                  Hp Hp' eq_refl eq_refl eq_refl eq_refl eq_refl eq_refl
                  eq_refl Hle Hst)).
Defined.
